(** * Analytics core of the multi-domain dashboard: a shallow embedding

    The development follows the Python sources under [my_app/]:
    - [models/dataset.py], [models/incident.py], [models/it_ticket.py]
      (validated entities and the archive score),
    - [repositories/*_repository.py] (snapshot queries),
    - [services/*_service.py] (surge, bottleneck and staff analytics).

    Python [float] is IEEE-754 binary64; it is embedded with the executable
    specification of the Standard Library ([SpecFloat], precision 53,
    [emax] 1024), so every arithmetic step rounds as CPython does.
    Python [int] is [Z].  Dictionaries keep insertion order and are
    association lists; exceptions are values of [result]. *)

From stdpp Require Import gmap.
From Stdlib Require Import String.
From Stdlib Require Import ZArith List Lia Permutation Sorted Bool.
From Stdlib Require Import Floats.SpecFloat.
Import ListNotations.
Open Scope Z_scope.

(** ** Exceptions and fallible computations *)

Inductive exn : Type :=
| ValueError (msg : string)
| KeyError (key : string)
| OverflowError
| ZeroDivisionError.

Inductive result (A : Type) : Type :=
| Ok (a : A)
| Raise (e : exn).
Arguments Ok {A} a.
Arguments Raise {A} e.

Definition bind {A B : Type} (m : result A) (k : A -> result B) : result B :=
  match m with
  | Ok a => k a
  | Raise e => Raise e
  end.

Notation "'try' x <- m 'then' k" := (bind m (fun x => k))
  (at level 10, x name, m at level 100, k at level 200).

Definition is_ok {A : Type} (m : result A) : bool :=
  match m with Ok _ => true | Raise _ => false end.

(** ** Python floats: binary64 *)

Module PyFloat.

Definition prec : Z := 53.
Definition emax : Z := 1024.

Definition float : Type := spec_float.

Definition fadd : float -> float -> float := SFadd prec emax.
Definition fsub : float -> float -> float := SFsub prec emax.
Definition fmul : float -> float -> float := SFmul prec emax.
Definition fdiv : float -> float -> float := SFdiv prec emax.

(** [x < y], [x <= y], [x == y], [x > y] on floats; every comparison
    with NaN is [false]. *)
Definition flt : float -> float -> bool := SFltb.
Definition fle : float -> float -> bool := SFleb.
Definition feq : float -> float -> bool := SFeqb.
Definition fgt (x y : float) : bool := SFltb y x.

Definition is_nan (x : float) : bool :=
  match x with S754_nan => true | _ => false end.

Definition is_infinite (x : float) : bool :=
  match x with S754_infinity _ => true | _ => false end.

Definition zero : float := S754_zero false.

(** The float nearest to an integer (ties to even).  It is used for the
    integer literals of the sources and for [len(...)] of a list, which
    are far inside the binary64 range. *)
Definition of_Z (z : Z) : float := binary_normalize prec emax z 0 false.

(** A decimal literal [num/den] (0.4 is [lit 4 10]): the nearest float. *)
Definition lit (num den : positive) : float :=
  SFdiv prec emax (S754_finite false num 0) (S754_finite false den 0).

(** [bool(x)]: a float is falsy exactly when it equals zero. *)
Definition truthy (x : float) : bool := negb (feq x zero).

(** [a / b] on two Python ints: the correctly rounded quotient;
    [ZeroDivisionError] for a zero divisor and [OverflowError] when the
    quotient is too large for a float. *)
Definition int_true_div (a b : Z) : result float :=
  match b with
  | Z0 => Raise ZeroDivisionError
  | _ =>
      let q :=
        match a with
        | Z0 => S754_zero (b <? 0)
        | _ => SFdiv prec emax
                 (S754_finite (a <? 0) (Z.to_pos (Z.abs a)) 0)
                 (S754_finite (b <? 0) (Z.to_pos (Z.abs b)) 0)
        end in
      if is_infinite q then Raise OverflowError else Ok q
  end.

(** [sum(xs)] over floats: the accumulator starts at the int 0 and adds
    the items from left to right, rounding after each addition.  (CPython
    3.12 and later carry a compensation term along; the result is the
    same wherever the additions are exact.) *)
Definition py_sum (xs : list float) : float := fold_left fadd xs zero.

(** [sum(xs) / len(xs)] for a non-empty list. *)
Definition mean (xs : list float) : float :=
  fdiv (py_sum xs) (of_Z (Z.of_nat (List.length xs))).

End PyFloat.
Import PyFloat.

(** ** models/dataset.py *)

(** a calendar date, as its proleptic Gregorian ordinal *)
Definition pydate : Type := Z.

Record Dataset : Type := mkDataset {
  name : string;
  department : string;
  size_gb : float;
  rows_millions : float;
  upload_date : pydate;
  last_accessed : pydate;
  days_since_access : Z;
  quality_status : string;
  dependencies : Z;
  access_frequency_30d : Z;
  storage_cost_per_month : float;
  archive_score : option float
}.

Definition set_archive_score (self : Dataset) (v : option float) : Dataset :=
  {| name := name self;
     department := department self;
     size_gb := size_gb self;
     rows_millions := rows_millions self;
     upload_date := upload_date self;
     last_accessed := last_accessed self;
     days_since_access := days_since_access self;
     quality_status := quality_status self;
     dependencies := dependencies self;
     access_frequency_30d := access_frequency_30d self;
     storage_cost_per_month := storage_cost_per_month self;
     archive_score := v |}.

Definition quality_statuses : list string :=
  ["Passed"; "Failed"; "Pending"]%string.

Definition str_in (s : string) (l : list string) : bool :=
  existsb (String.eqb s) l.

(** [Dataset.__post_init__] *)
Definition Dataset_post_init (self : Dataset) : result unit :=
  if negb (str_in (quality_status self) quality_statuses) then
    Raise (ValueError ("Invalid quality status: " ++ quality_status self))
  else if flt (size_gb self) zero then
    Raise (ValueError "Size cannot be negative")
  else Ok tt.

(** The dataclass constructor: store the fields, then validate. *)
Definition new_Dataset (name department : string) (size_gb rows_millions : float)
    (upload_date last_accessed : pydate) (days_since_access : Z)
    (quality_status : string) (dependencies access_frequency_30d : Z)
    (storage_cost_per_month : float) (archive_score : option float)
  : result Dataset :=
  let self := mkDataset name department size_gb rows_millions upload_date
                last_accessed days_since_access quality_status dependencies
                access_frequency_30d storage_cost_per_month archive_score in
  try _u <- Dataset_post_init self then
  Ok self.

(** [Dataset.is_stale], [Dataset.is_rarely_accessed] *)
Definition is_stale (self : Dataset) (days_threshold : Z) : bool :=
  days_threshold <? days_since_access self.

Definition is_rarely_accessed (self : Dataset) (threshold : Z) : bool :=
  access_frequency_30d self <? threshold.

(** The expression assigned to [score] in [calculate_archive_score]:
    three int/int true divisions, one float division, and the weighted
    sum, evaluated left to right. *)
Definition archive_score_expr (self : Dataset) : result float :=
  try a <- int_true_div (days_since_access self) 180 then
  try f <- int_true_div (access_frequency_30d self) 50 then
  try d <- int_true_div (dependencies self) 5 then
  Ok (fmul
        (fadd
           (fadd
              (fadd (fmul a (lit 4 10))
                    (fmul (fsub (of_Z 1) f) (lit 3 10)))
              (fmul (fsub (of_Z 1) d) (lit 2 10)))
           (fmul (fdiv (size_gb self) (of_Z 500)) (lit 1 10)))
        (of_Z 100)).

(** [Dataset.calculate_archive_score]: the outcome of the call and the
    entity after it.  An exception leaves the entity as it was. *)
Definition calculate_archive_score (self : Dataset) : result float * Dataset :=
  match archive_score_expr self with
  | Ok score => (Ok score, set_archive_score self (Some score))
  | Raise e => (Raise e, self)
  end.

(** ** Python built-ins used by the repositories and services *)

(** [xs[:n]]: a negative bound counts from the end of the list. *)
Definition slice_to {A : Type} (xs : list A) (n : Z) : list A :=
  if 0 <=? n then firstn (Z.to_nat n) xs
  else firstn (Z.to_nat (Z.of_nat (List.length xs) + n)) xs.

(** [sorted(xs, key=..., reverse=...)].  CPython's list sort is stable and
    only ever asks [a < b] on the keys; it is embedded as a stable
    insertion sort asking the same question.  With [reverse=True] CPython
    reverses the list, sorts it in ascending order and reverses the
    result, which is what [sorted] does here.  The two sorts return the
    same list whenever [<] orders the keys (every stable sort does).  On
    keys that [<] does not order, such as a NaN among numbers, the order
    CPython returns can differ from the one computed here: the two agree
    on a list in which no item is smaller than the one before it, which
    both leave as it is, and in what holds of every rearrangement (the
    items and their number).  The statements about the order of a result
    assume keys that are numbers. *)
Section SortedDef.
Context {A K : Type}.
Variable key : A -> K.
Variable ltb : K -> K -> bool.

Fixpoint insert_stable (x : A) (l : list A) : list A :=
  match l with
  | [] => [x]
  | y :: l' =>
      if ltb (key y) (key x) then y :: insert_stable x l' else x :: y :: l'
  end.

Definition stable_sort (l : list A) : list A :=
  fold_right insert_stable [] l.

Definition sorted (reverse : bool) (l : list A) : list A :=
  if reverse then rev (stable_sort (rev l)) else stable_sort l.

End SortedDef.

(** [max(xs, key=...)]: the first item is the candidate, and a later item
    replaces it only when its key is strictly greater. *)
Section MaxDef.
Context {A : Type}.
Variable key : A -> float.

Fixpoint max_from (best : A) (l : list A) : A :=
  match l with
  | [] => best
  | x :: l' => max_from (if fgt (key x) (key best) then x else best) l'
  end.

Definition py_max (l : list A) : result A :=
  match l with
  | [] => Raise (ValueError "max() arg is an empty sequence")
  | x :: l' => Ok (max_from x l')
  end.

End MaxDef.

Fixpoint mapM {A B : Type} (f : A -> result B) (l : list A) : result (list B) :=
  match l with
  | [] => Ok []
  | x :: l' =>
      try y <- f x then
      try ys <- mapM f l' then
      Ok (y :: ys)
  end.

Definition is_empty {A : Type} (l : list A) : bool :=
  match l with [] => true | _ :: _ => false end.

(** ** Dictionaries with string keys

    A [dict] lists its items in insertion order; a key occurs once.
    [d[k] = v] overwrites in place or appends a new item at the end. *)

Definition dict (V : Type) : Type := list (string * V).

Fixpoint dict_get {V : Type} (k : string) (d : dict V) : option V :=
  match d with
  | [] => None
  | (k', v) :: d' => if String.eqb k' k then Some v else dict_get k d'
  end.

(** [k in d] *)
Definition dict_mem {V : Type} (k : string) (d : dict V) : bool :=
  match dict_get k d with Some _ => true | None => false end.

(** [d[k]] *)
Definition dict_item {V : Type} (k : string) (d : dict V) : result V :=
  match dict_get k d with
  | Some v => Ok v
  | None => Raise (KeyError k)
  end.

(** [d[k] = v] *)
Fixpoint dict_set {V : Type} (k : string) (v : V) (d : dict V) : dict V :=
  match d with
  | [] => [(k, v)]
  | (k', v') :: d' =>
      if String.eqb k' k then (k', v) :: d' else (k', v') :: dict_set k v d'
  end.

(** [d[k] = f(d[k])], as [d[k] += x] and [d[k].append(x)] do.  Every use
    in the services follows [if k not in d: d[k] = init]. *)
Definition dict_update {V : Type} (k : string) (f : V -> V) (d : dict V) : dict V :=
  match dict_get k d with
  | Some v => dict_set k (f v) d
  | None => d
  end.

Definition keys {V : Type} (d : dict V) : list string := map fst d.
Definition values {V : Type} (d : dict V) : list V := map snd d.

(** A well-formed dictionary has no repeated key. *)
Definition dict_wf {V : Type} (d : dict V) : Prop := NoDup (keys d).

(** The accumulation idiom of the services:
    [if k not in d: d[k] = init], then [d[k]] is updated with [x]. *)
Definition dict_accum {V X : Type} (init : V) (step : V -> X -> V)
    (d : dict V) (k : string) (x : X) : dict V :=
  dict_update k (fun v => step v x)
    (if dict_mem k d then d else dict_set k init d).

(** ** Dates and times

    A naive [datetime] is the number of microseconds since
    0001-01-01T00:00:00; [datetime.max] is 9999-12-31T23:59:59.999999.
    Arithmetic that leaves the range raises [OverflowError], as does
    [timedelta(days=d)] for [|d| > 999999999]. *)
Module PyDatetime.

Definition datetime : Type := Z.
Definition timedelta : Type := Z.

Definition us_per_day : Z := 86400000000.
Definition max_datetime : Z := 3652059 * us_per_day - 1.

Definition valid_datetime (t : datetime) : Prop := 0 <= t <= max_datetime.

Definition timedelta_days (d : Z) : result timedelta :=
  if Z.abs d <=? 999999999 then Ok (d * us_per_day) else Raise OverflowError.

Definition datetime_sub (t : datetime) (d : timedelta) : result datetime :=
  let r := t - d in
  if (0 <=? r) && (r <=? max_datetime) then Ok r else Raise OverflowError.

End PyDatetime.
Import PyDatetime.

(** ** models/incident.py *)
Module Incident.

Record SecurityIncident : Type := mkIncident {
  date : datetime;
  threat_category : string;
  severity : string;
  status : string;
  resolution_time_hours : option float
}.

(** [SecurityIncident.__post_init__] *)
Definition post_init (self : SecurityIncident) : result unit :=
  if negb (str_in (severity self) ["High"; "Medium"; "Low"]%string) then
    Raise (ValueError ("Invalid severity: " ++ severity self))
  else if negb (str_in (status self) ["Unresolved"; "In Progress"; "Resolved"]%string) then
    Raise (ValueError ("Invalid status: " ++ status self))
  else if String.eqb (status self) "Resolved"
          && match resolution_time_hours self with None => true | Some _ => false end then
    Raise (ValueError "Resolved incidents must have resolution time")
  else Ok tt.

Definition is_unresolved (self : SecurityIncident) : bool :=
  String.eqb (status self) "Unresolved".

Definition is_high_severity (self : SecurityIncident) : bool :=
  String.eqb (severity self) "High".

(** The dataclass constructor: store the fields, then validate. *)
Definition new_SecurityIncident (date : datetime)
    (threat_category severity status : string)
    (resolution_time_hours : option float) : result SecurityIncident :=
  let self := mkIncident date threat_category severity status
                resolution_time_hours in
  try _u <- post_init self then
  Ok self.

(** the values a dictionary made by [to_dict] holds *)
Inductive pyvalue : Type :=
| PyNone
| PyStr (s : string)
| PyFloat (x : float)
| PyDatetime (t : datetime).

(** [SecurityIncident.to_dict] *)
Definition to_dict (self : SecurityIncident) : dict pyvalue :=
  [("Date", PyDatetime (date self));
   ("Threat Category", PyStr (threat_category self));
   ("Severity", PyStr (severity self));
   ("Status", PyStr (status self));
   ("Resolution Time (hours)",
    match resolution_time_hours self with
    | Some x => PyFloat x
    | None => PyNone
    end)]%string.

(** The arguments [from_dict] hands to the constructor, looked up in the
    order of the keyword arguments: [data[k]] raises [KeyError] on a
    missing key, [data.get(k)] reads a missing key as [None]. *)
Definition from_dict_arguments (data : dict pyvalue)
  : result (pyvalue * pyvalue * pyvalue * pyvalue * pyvalue) :=
  try d <- dict_item "Date" data then
  try c <- dict_item "Threat Category" data then
  try sev <- dict_item "Severity" data then
  try st <- dict_item "Status" data then
  Ok (d, c, sev, st,
      match dict_get "Resolution Time (hours)" data with
      | Some v => v
      | None => PyNone
      end).

(** [SecurityIncident.from_dict].  Python stores whatever values the
    dictionary holds; an entity here is typed as the dataclass annotates
    it, and the answer is [None] for a dictionary that holds a value of
    another type under one of the five keys. *)
Definition from_dict (data : dict pyvalue) : option (result SecurityIncident) :=
  match from_dict_arguments data with
  | Raise e => Some (Raise e)
  | Ok (PyDatetime d, PyStr c, PyStr sev, PyStr st, PyFloat x) =>
      Some (new_SecurityIncident d c sev st (Some x))
  | Ok (PyDatetime d, PyStr c, PyStr sev, PyStr st, PyNone) =>
      Some (new_SecurityIncident d c sev st None)
  | Ok _ => None
  end.

End Incident.

(** ** models/it_ticket.py *)
Module Ticket.

Record ITTicket : Type := mkTicket {
  ticket_id : string;
  assigned_staff : string;
  priority : string;
  created_date : pydate;
  status : string;
  total_resolution_time_hours : float;
  resolution_date : option pydate;
  stage_times : dict float
}.

(** [ITTicket.__post_init__] *)
Definition post_init (self : ITTicket) : result unit :=
  if negb (str_in (priority self) ["Critical"; "High"; "Medium"; "Low"]%string) then
    Raise (ValueError ("Invalid priority: " ++ priority self))
  else if flt (total_resolution_time_hours self) zero then
    Raise (ValueError "Resolution time cannot be negative")
  else Ok tt.

Definition is_resolved (self : ITTicket) : bool :=
  String.eqb (status self) "Resolved".

Definition is_open (self : ITTicket) : bool :=
  negb (String.eqb (status self) "Resolved").

(** The dataclass constructor: store the fields, then validate. *)
Definition new_ITTicket (ticket_id assigned_staff priority : string)
    (created_date : pydate) (status : string)
    (total_resolution_time_hours : float) (resolution_date : option pydate)
    (stage_times : dict float) : result ITTicket :=
  let self := mkTicket ticket_id assigned_staff priority created_date status
                total_resolution_time_hours resolution_date stage_times in
  try _u <- post_init self then
  Ok self.

(** [self.stage_times.get(stage, 0.0)] *)
Definition get_time_in_stage (self : ITTicket) (stage : string) : float :=
  match dict_get stage (stage_times self) with
  | Some v => v
  | None => zero
  end.

(** [max(self.stage_times.items(), key=lambda x: x[1])[0]], and [None]
    for a ticket without stage times *)
Definition get_bottleneck_stage (self : ITTicket) : result (option string) :=
  if is_empty (stage_times self) then Ok None else
  try m <- py_max snd (stage_times self) then
  Ok (Some (fst m)).

End Ticket.

(** ** repositories/dataset_repository.py

    A repository holds the snapshot [self._datasets]; the methods that
    write to an entity return the snapshot after the call. *)
Module DatasetRepository.

Definition t : Type := list Dataset.

(** [add], [add_all]: the snapshot after the call *)
Definition add (self : t) (dataset : Dataset) : t := self ++ [dataset].

Definition add_all (self : t) (datasets : list Dataset) : t := self ++ datasets.

Definition get_all (self : t) : list Dataset := self.

Definition get_by_department (self : t) (dept : string) : list Dataset :=
  List.filter (fun ds => String.eqb (department ds) dept) self.

Definition get_by_quality_status (self : t) (st : string) : list Dataset :=
  List.filter (fun ds => String.eqb (quality_status ds) st) self.

Definition get_stale_datasets (self : t) (days_threshold : Z) : list Dataset :=
  List.filter (fun ds => is_stale ds days_threshold) self.

Definition get_rarely_accessed (self : t) (threshold : Z) : list Dataset :=
  List.filter (fun ds => is_rarely_accessed ds threshold) self.

(** [sorted(self._datasets, key=lambda x: x.size_gb, reverse=True)[:limit]] *)
Definition get_top_consumers (self : t) (limit : Z) : list Dataset :=
  slice_to (sorted size_gb flt true self) limit.

(** The loop of [get_archive_candidates]: every entity without a score
    gets one.  An exception stops the loop; the entities scored before
    it keep their score. *)
Fixpoint score_missing (ds : list Dataset) : result unit * list Dataset :=
  match ds with
  | [] => (Ok tt, [])
  | dataset :: rest =>
      match archive_score dataset with
      | None =>
          match calculate_archive_score dataset with
          | (Ok _, dataset') =>
              let '(r, rest') := score_missing rest in (r, dataset' :: rest')
          | (Raise e, dataset') => (Raise e, dataset' :: rest)
          end
      | Some _ =>
          let '(r, rest') := score_missing rest in (r, dataset :: rest')
      end
  end.

(** the sort key [x.archive_score or 0] *)
Definition archive_key (x : Dataset) : float :=
  match archive_score x with
  | Some v => if truthy v then v else zero
  | None => zero
  end.

Definition get_archive_candidates (self : t) (limit : Z)
  : result (list Dataset) * t :=
  match score_missing self with
  | (Ok _, self') =>
      (Ok (slice_to (sorted archive_key flt true self') limit), self')
  | (Raise e, self') => (Raise e, self')
  end.

Definition get_total_storage (self : t) : float := py_sum (map size_gb self).

Definition get_total_cost (self : t) : float :=
  py_sum (map storage_cost_per_month self).

End DatasetRepository.

(** ** services/dataset_service.py *)
Module DatasetService.

(** the dictionary [{"High": _, "Medium": _, "Low": _}] *)
Record risk_counts : Type := mkRisk { High : Z; Medium : Z; Low : Z }.

Inductive risk : Type := RiskHigh | RiskMedium | RiskLow.

(** the branch taken by the [if]/[elif]/[else] of the risk loop *)
Definition risk_of (dataset : Dataset) : risk :=
  if 3 <=? dependencies dataset then RiskHigh
  else if 1 <=? dependencies dataset then RiskMedium
  else RiskLow.

Definition risk_step (r : risk_counts) (dataset : Dataset) : risk_counts :=
  match risk_of dataset with
  | RiskHigh => mkRisk (High r + 1) (Medium r) (Low r)
  | RiskMedium => mkRisk (High r) (Medium r + 1) (Low r)
  | RiskLow => mkRisk (High r) (Medium r) (Low r + 1)
  end.

Record dependency_analysis : Type := mkDependencyAnalysis {
  high_dependency_datasets : list Dataset;
  risk_levels : risk_counts
}.

Definition get_dependency_analysis (repository : DatasetRepository.t)
  : dependency_analysis :=
  let all_datasets := DatasetRepository.get_all repository in
  let high_dependency := slice_to (sorted dependencies Z.ltb true all_datasets) 5 in
  let risk := fold_left risk_step all_datasets (mkRisk 0 0 0) in
  mkDependencyAnalysis high_dependency risk.

Record metrics : Type := mkMetrics {
  total_datasets : Z;
  total_storage_gb : float;
  total_storage_cost : float;
  pending_quality_checks : Z
}.

Definition get_metrics (repository : DatasetRepository.t) : metrics :=
  let all_datasets := DatasetRepository.get_all repository in
  let pending_quality :=
    DatasetRepository.get_by_quality_status repository "Pending" in
  mkMetrics (Z.of_nat (List.length all_datasets))
    (DatasetRepository.get_total_storage repository)
    (DatasetRepository.get_total_cost repository)
    (Z.of_nat (List.length pending_quality)).

Record consumption : Type := mkConsumption {
  size_by_department : dict float;
  rows_by_department : dict float
}.

(** The body of the loop of [get_resource_consumption_by_department].
    Both entries are created when the department is new to [dept_size];
    the two dictionaries always hold the same keys, so each [+=] finds
    its entry.  The entries start at the int 0, and [0 + x] is the float
    sum [0.0 + x]. *)
Definition consumption_step (acc : dict float * dict float) (dataset : Dataset)
  : dict float * dict float :=
  let '(dept_size, dept_rows) := acc in
  let '(dept_size, dept_rows) :=
    if dict_mem (department dataset) dept_size then (dept_size, dept_rows)
    else (dict_set (department dataset) zero dept_size,
          dict_set (department dataset) zero dept_rows) in
  (dict_update (department dataset) (fun v => fadd v (size_gb dataset)) dept_size,
   dict_update (department dataset) (fun v => fadd v (rows_millions dataset))
     dept_rows).

Definition get_resource_consumption_by_department
    (repository : DatasetRepository.t) : consumption :=
  let all_datasets := DatasetRepository.get_all repository in
  let '(dept_size, dept_rows) :=
    fold_left consumption_step all_datasets ([], []) in
  mkConsumption dept_size dept_rows.

(** The returned dictionary; the early return for no candidates has no
    ["potential_cost_savings_annual"] key (and holds the int 0, which
    is read here as the float zero). *)
Record recommendations : Type := mkRecommendations {
  candidates : list Dataset;
  potential_savings_gb : float;
  potential_cost_savings_monthly : float;
  potential_cost_savings_annual : option float
}.

(** [get_archiving_recommendations(limit)]: the outcome and the
    repository's snapshot after the call. *)
Definition get_archiving_recommendations (repository : DatasetRepository.t)
    (limit : Z) : result recommendations * DatasetRepository.t :=
  match DatasetRepository.get_archive_candidates repository limit with
  | (Ok candidates, repository') =>
      if is_empty candidates then
        (Ok (mkRecommendations [] zero zero None), repository')
      else
        let total_size := py_sum (map size_gb candidates) in
        let total_cost := py_sum (map storage_cost_per_month candidates) in
        (Ok (mkRecommendations candidates total_size total_cost
               (Some (fmul total_cost (of_Z 12)))),
         repository')
  | (Raise e, repository') => (Raise e, repository')
  end.

End DatasetService.

(** ** repositories/incident_repository.py *)
Module SecurityIncidentRepository.
Import Incident.

Definition t : Type := list SecurityIncident.

Definition add (self : t) (incident : SecurityIncident) : t := self ++ [incident].

Definition add_all (self : t) (incidents : list SecurityIncident) : t :=
  self ++ incidents.

Definition get_all (self : t) : list SecurityIncident := self.

Definition get_by_category (self : t) (category : string) : list SecurityIncident :=
  List.filter (fun inc => String.eqb (threat_category inc) category) self.

Definition get_by_status (self : t) (st : string) : list SecurityIncident :=
  List.filter (fun inc => String.eqb (status inc) st) self.

Definition get_unresolved_high_severity (self : t) : list SecurityIncident :=
  List.filter (fun inc => is_unresolved inc && is_high_severity inc) self.

Definition get_resolved (self : t) : list SecurityIncident :=
  List.filter (fun inc => String.eqb (status inc) "Resolved") self.

Definition count (self : t) : Z := Z.of_nat (List.length self).

End SecurityIncidentRepository.

(** ** services/incident_service.py *)
Module SecurityIncidentService.
Import Incident.

Record surge : Type := mkSurge {
  recent_count : Z;
  previous_count : Z;
  surge_percentage : float
}.

(** [get_phishing_surge_analysis(days)]; [now] is what [datetime.now()]
    returns during the call. *)
Definition get_phishing_surge_analysis (repository : SecurityIncidentRepository.t)
    (now : datetime) (days : Z) : result surge :=
  let all_incidents := SecurityIncidentRepository.get_all repository in
  let end_date := now in
  try d1 <- timedelta_days days then
  try recent_date <- datetime_sub end_date d1 then
  try d2 <- timedelta_days (days * 2) then
  try previous_date <- datetime_sub end_date d2 then
  let recent_phishing :=
    List.filter (fun inc => String.eqb (threat_category inc) "Phishing"
                            && (recent_date <=? date inc)) all_incidents in
  let previous_phishing :=
    List.filter (fun inc => String.eqb (threat_category inc) "Phishing"
                            && ((previous_date <=? date inc)
                                && (date inc <? recent_date))) all_incidents in
  let recent_count := Z.of_nat (List.length recent_phishing) in
  let previous_count := Z.of_nat (List.length previous_phishing) in
  try q <- int_true_div (recent_count - previous_count) (Z.max previous_count 1) then
  Ok (mkSurge recent_count previous_count (fmul q (of_Z 100))).

Record bottleneck : Type := mkBottleneck {
  category : string;
  avg_resolution_time : float;
  all_averages : dict float
}.

(** [if incident.resolution_time_hours:] *)
Definition has_truthy_time (incident : SecurityIncident) : bool :=
  match resolution_time_hours incident with
  | Some t => truthy t
  | None => false
  end.

(** one iteration of the grouping loop *)
Definition category_step (category_times : dict (list float))
    (incident : SecurityIncident) : dict (list float) :=
  match resolution_time_hours incident with
  | Some t =>
      if truthy t then
        dict_accum [] (fun times x => times ++ [x]) category_times
          (threat_category incident) t
      else category_times
  | None => category_times
  end.

Definition get_resolution_bottleneck (repository : SecurityIncidentRepository.t)
  : result (option bottleneck) :=
  let resolved := SecurityIncidentRepository.get_resolved repository in
  if is_empty resolved then Ok None else
  let category_times := fold_left category_step resolved [] in
  if is_empty category_times then Ok None else
  let avg_times := map (fun '(cat, times) => (cat, mean times)) category_times in
  try longest_category <- py_max snd avg_times then
  Ok (Some (mkBottleneck (fst longest_category) (snd longest_category) avg_times)).

Record metrics : Type := mkMetrics {
  total_incidents : Z;
  unresolved_high : Z;
  phishing_total : Z;
  phishing_unresolved : Z
}.

Definition get_metrics (repository : SecurityIncidentRepository.t) : metrics :=
  let all_incidents := SecurityIncidentRepository.get_all repository in
  let unresolved_high :=
    SecurityIncidentRepository.get_unresolved_high_severity repository in
  let phishing_incidents :=
    SecurityIncidentRepository.get_by_category repository "Phishing" in
  let phishing_unresolved := List.filter is_unresolved phishing_incidents in
  mkMetrics (Z.of_nat (List.length all_incidents))
    (Z.of_nat (List.length unresolved_high))
    (Z.of_nat (List.length phishing_incidents))
    (Z.of_nat (List.length phishing_unresolved)).

Record backlog : Type := mkBacklog {
  total_unresolved : Z;
  high_severity_unresolved : Z;
  by_category : dict Z
}.

Definition get_backlog_summary (repository : SecurityIncidentRepository.t)
  : backlog :=
  let unresolved :=
    SecurityIncidentRepository.get_by_status repository "Unresolved" in
  let high_severity_unresolved :=
    SecurityIncidentRepository.get_unresolved_high_severity repository in
  let by_category :=
    fold_left
      (fun d incident =>
         dict_accum 0 (fun c (_ : unit) => c + 1) d (threat_category incident) tt)
      unresolved [] in
  mkBacklog (Z.of_nat (List.length unresolved))
    (Z.of_nat (List.length high_severity_unresolved))
    by_category.

End SecurityIncidentService.

(** ** repositories/it_ticket_repository.py *)
Module ITTicketRepository.
Import Ticket.

Definition t : Type := list ITTicket.

Definition add (self : t) (ticket : ITTicket) : t := self ++ [ticket].

Definition add_all (self : t) (tickets : list ITTicket) : t := self ++ tickets.

Definition get_all (self : t) : list ITTicket := self.

Definition get_by_staff (self : t) (staff_name : string) : list ITTicket :=
  List.filter (fun ticket => String.eqb (assigned_staff ticket) staff_name) self.

Definition get_resolved (self : t) : list ITTicket :=
  List.filter is_resolved self.

Definition get_open (self : t) : list ITTicket :=
  List.filter is_open self.

Definition get_by_status (self : t) (st : string) : list ITTicket :=
  List.filter (fun ticket => String.eqb (status ticket) st) self.

Definition get_by_priority (self : t) (p : string) : list ITTicket :=
  List.filter (fun ticket => String.eqb (priority ticket) p) self.

Definition get_waiting_for_user (self : t) : list ITTicket :=
  List.filter (fun ticket => String.eqb (status ticket) "Waiting for User") self.

Definition count (self : t) : Z := Z.of_nat (List.length self).

End ITTicketRepository.

(** ** services/it_ticket_service.py *)
Module ITTicketService.
Import Ticket.

Record performance_gap : Type := mkGap {
  staff : string;
  avg_time : float;
  team_avg : float;
  gap_hours : float;
  gap_percentage : float
}.

(** The returned dictionary; the early return for an empty resolved set
    has no ["team_average"] key. *)
Record staff_report : Type := mkStaffReport {
  staff_performance : dict float;
  slowest_staff : option performance_gap;
  team_average : option float
}.

Definition get_staff_performance (repository : ITTicketRepository.t)
  : result staff_report :=
  let resolved := ITTicketRepository.get_resolved repository in
  if is_empty resolved then Ok (mkStaffReport [] None None) else
  let staff_times :=
    fold_left
      (fun d ticket =>
         dict_accum [] (fun times x => times ++ [x]) d
           (assigned_staff ticket) (total_resolution_time_hours ticket))
      resolved [] in
  let staff_avg := map (fun '(s, times) => (s, mean times)) staff_times in
  try slowest <-
    (if is_empty staff_avg then Ok None
     else try m <- py_max snd staff_avg then Ok (Some m)) then
  let team_avg :=
    if is_empty staff_avg then zero else mean (values staff_avg) in
  let performance_gap :=
    match slowest with
    | Some slowest_staff =>
        let gap := fsub (snd slowest_staff) team_avg in
        let gap_pct :=
          if fgt team_avg zero then fmul (fdiv gap team_avg) (of_Z 100)
          else zero in
        Some (mkGap (fst slowest_staff) (snd slowest_staff) team_avg gap gap_pct)
    | None => None
    end in
  Ok (mkStaffReport staff_avg performance_gap (Some team_avg)).

Record process_bottleneck : Type := mkProcessBottleneck {
  stage : string;
  stage_avg_time : float;
  total_time : float;
  percentage : float;
  all_stages : dict float
}.

(** the body of the inner loop over [ticket.stage_times.items()] *)
Definition stage_step (acc : dict float * dict Z) (item : string * float)
  : dict float * dict Z :=
  let '(stage_totals, stage_counts) := acc in
  let '(stage, time) := item in
  let '(stage_totals, stage_counts) :=
    if dict_mem stage stage_totals then (stage_totals, stage_counts)
    else (dict_set stage zero stage_totals, dict_set stage 0 stage_counts) in
  (dict_update stage (fun v => fadd v time) stage_totals,
   dict_update stage (fun c => c + 1) stage_counts).

Definition get_process_bottleneck (repository : ITTicketRepository.t)
  : result (option process_bottleneck) :=
  let all_tickets := ITTicketRepository.get_all repository in
  if is_empty all_tickets then Ok None else
  let '(stage_totals, stage_counts) :=
    fold_left (fun acc ticket => fold_left stage_step (stage_times ticket) acc)
      all_tickets ([], []) in
  if is_empty stage_totals then Ok None else
  try stage_averages <-
    mapM (fun stage =>
            try total <- dict_item stage stage_totals then
            try count <- dict_item stage stage_counts then
            Ok (stage, fdiv total (of_Z count)))
         (keys stage_totals) then
  try bottleneck_stage <- py_max snd stage_averages then
  let total_time := py_sum (values stage_totals) in
  try bottleneck_total <- dict_item (fst bottleneck_stage) stage_totals then
  let percentage :=
    if fgt total_time zero
    then fmul (fdiv bottleneck_total total_time) (of_Z 100)
    else zero in
  Ok (Some (mkProcessBottleneck (fst bottleneck_stage) (snd bottleneck_stage)
              bottleneck_total percentage stage_averages)).

Record metrics : Type := mkMetrics {
  total_tickets : Z;
  open_tickets : Z;
  avg_resolution_time : float;
  tickets_waiting_user : Z
}.

(** [get_metrics]; the average starts as the int 0, read here as the
    float zero *)
Definition get_metrics (repository : ITTicketRepository.t) : metrics :=
  let all_tickets := ITTicketRepository.get_all repository in
  let open_tickets := ITTicketRepository.get_open repository in
  let resolved := ITTicketRepository.get_resolved repository in
  let waiting_user := ITTicketRepository.get_waiting_for_user repository in
  let avg_resolution :=
    if is_empty resolved then zero
    else mean (map total_resolution_time_hours resolved) in
  mkMetrics (Z.of_nat (List.length all_tickets))
    (Z.of_nat (List.length open_tickets))
    avg_resolution
    (Z.of_nat (List.length waiting_user)).

End ITTicketService.

(** ** Object identity: what [get_all] copies

    The repositories keep their snapshot in a Python list object and the
    entities are objects of their own; [self._datasets.copy()] builds a
    new list object holding the same references.  A heap maps the
    address of a list object to its items (addresses of entities) and
    the address of an entity to its value. *)
Module Heap.

Definition loc : Type := positive.

Section HeapDef.
Context {E : Type}.

Record heap : Type := mkHeap {
  lists : gmap loc (list loc);
  objects : gmap loc E
}.

(** a repository object: its attribute [_datasets] (or [_incidents])
    refers to a list object *)
Record repository : Type := mkRepository { snapshot : loc }.

(** [xs.copy()] *)
Definition list_copy (xs : loc) (h : heap) : option (loc * heap) :=
  match lists h !! xs with
  | Some items =>
      let r := fresh (dom (lists h)) in
      Some (r, mkHeap (<[r := items]> (lists h)) (objects h))
  | None => None
  end.

(** [get_all]: [return self._datasets.copy()] *)
Definition get_all (self : repository) (h : heap) : option (loc * heap) :=
  list_copy (snapshot self) h.

(** [xs.append(x)] *)
Definition list_append (xs x : loc) (h : heap) : option heap :=
  match lists h !! xs with
  | Some items => Some (mkHeap (<[xs := items ++ [x]]> (lists h)) (objects h))
  | None => None
  end.

(** [del xs[i]], which [xs.pop(i)] and [xs.remove(x)] come down to;
    [None] stands for the [IndexError] out of range *)
Definition list_delete (xs : loc) (i : nat) (h : heap) : option heap :=
  match lists h !! xs with
  | Some items =>
      if Nat.ltb i (List.length items)
      then Some (mkHeap (<[xs := firstn i items ++ skipn (S i) items]> (lists h))
                        (objects h))
      else None
  | None => None
  end.

(** an attribute assignment on the entity at address [o] *)
Definition object_write (o : loc) (f : E -> E) (h : heap) : option heap :=
  match objects h !! o with
  | Some v => Some (mkHeap (lists h) (<[o := f v]> (objects h)))
  | None => None
  end.

(** the entity found at position [i] of the list object [xs] *)
Definition read_item (xs : loc) (i : nat) (h : heap) : option E :=
  match lists h !! xs with
  | Some items =>
      match nth_error items i with
      | Some o => objects h !! o
      | None => None
      end
  | None => None
  end.

(** [__init__(items, use_database=False)]: the repository keeps the list
    object it is given, and makes an empty list of its own when given
    [None]. *)
Definition init (items : option loc) (h : heap) : repository * heap :=
  match items with
  | Some xs => (mkRepository xs, h)
  | None =>
      let r := fresh (dom (lists h)) in
      (mkRepository r, mkHeap (<[r := []]> (lists h)) (objects h))
  end.

(** [add]: [self._datasets.append(dataset)] *)
Definition add (self : repository) (x : loc) (h : heap) : option heap :=
  list_append (snapshot self) x h.

(** [xs.extend(ys)] for a list object [ys], which may be [xs] itself *)
Definition list_extend (xs ys : loc) (h : heap) : option heap :=
  match lists h !! xs, lists h !! ys with
  | Some items, Some more =>
      Some (mkHeap (<[xs := items ++ more]> (lists h)) (objects h))
  | _, _ => None
  end.

(** [add_all]: [self._datasets.extend(datasets)] *)
Definition add_all (self : repository) (ys : loc) (h : heap) : option heap :=
  list_extend (snapshot self) ys h.

(** [count]: [len(self._incidents)] *)
Definition count (self : repository) (h : heap) : option nat :=
  match lists h !! snapshot self with
  | Some items => Some (List.length items)
  | None => None
  end.

End HeapDef.
Arguments heap : clear implicits.

End Heap.

(** ** Vocabulary of the statements *)

(** the items of [l] whose key equals [k], in order *)
Definition with_key {A K : Type} (key : A -> K) (eqb : K -> K -> bool)
    (k : K) (l : list A) : list A :=
  List.filter (fun x => eqb (key x) k) l.

(** no later element is strictly below an earlier one *)
Definition ascending {A K : Type} (key : A -> K) (ltb : K -> K -> bool)
  : list A -> Prop :=
  StronglySorted (fun x y => ltb (key y) (key x) = false).

(** no later element is strictly above an earlier one *)
Definition descending {A K : Type} (key : A -> K) (ltb : K -> K -> bool)
  : list A -> Prop :=
  StronglySorted (fun x y => ltb (key x) (key y) = false).

(** the keys of a list of items, each at its first occurrence *)
Fixpoint distinct (l : list string) : list string :=
  match l with
  | [] => []
  | x :: l' => x :: List.filter (fun y => negb (String.eqb x y)) (distinct l')
  end.

(** the values paired with key [k], in order *)
Definition vals_of {X : Type} (k : string) (kvs : list (string * X)) : list X :=
  map snd (List.filter (fun kv => String.eqb (fst kv) k) kvs).

(** grouping by key: one entry per key, in order of first occurrence,
    holding the fold of the values of that key *)
Definition grouped {V X : Type} (init : V) (step : V -> X -> V)
    (kvs : list (string * X)) : dict V :=
  map (fun k => (k, fold_left step (vals_of k kvs) init)) (distinct (map fst kvs)).

(** [SFcompare] read through a rank in [Z * Z * Z] ordered
    lexicographically *)
Definition float_rank (x : float) : Z * Z * Z :=
  match x with
  | S754_infinity true => (-2, 0, 0)
  | S754_finite true m e => (-1, - e, Zneg m)
  | S754_zero _ => (0, 0, 0)
  | S754_nan => (0, 0, 0)
  | S754_finite false m e => (1, e, Zpos m)
  | S754_infinity false => (2, 0, 0)
  end.

Definition lex3 (p q : Z * Z * Z) : comparison :=
  let '(a, b, c) := p in
  let '(a', b', c') := q in
  match a ?= a' with
  | Eq => match b ?= b' with Eq => c ?= c' | r => r end
  | r => r
  end.

Definition rank_lt (p q : Z * Z * Z) : Prop :=
  let '(a, b, c) := p in
  let '(a', b', c') := q in
  a < a' \/ (a = a' /\ (b < b' \/ (b = b' /\ c < c'))).

(** ** Inputs and readings used by the statements *)

(** [x >= 0.0]: a zero of either sign, a positive number or +infinity *)
Definition nonneg (x : float) : bool :=
  match x with
  | S754_zero _ => true
  | S754_infinity s | S754_finite s _ _ => negb s
  | S754_nan => false
  end.

(** an integer well inside the binary64 range *)
Definition fits_float (z : Z) : Prop := Z.abs z < 2 ^ 1023.

(** a catalogued dataset with the four inputs of the score *)
Definition scored_dataset (size : float) (days freq deps : Z) : Dataset :=
  mkDataset "sales" "Finance" size zero 0 0 days "Passed" deps freq zero None.

(** 99.99999999999999, that is 100 - 2^-46 *)
Definition just_below_100 : float := S754_finite false 7036874417766399 (-46).

(** what the risk loop counts, bucket by bucket *)
Definition count_where (p : Dataset -> bool) (l : list Dataset) : Z :=
  Z.of_nat (List.length (List.filter p l)).

(** the two windows of the surge analysis, in the words of the
    specification: recent is [now - days, now], previous is
    [now - 2*days, now - days) *)
Definition in_recent_window (now : datetime) (days : Z)
    (inc : Incident.SecurityIncident) : bool :=
  String.eqb (Incident.threat_category inc) "Phishing"
  && (now - days * us_per_day <=? Incident.date inc).

Definition in_previous_window (now : datetime) (days : Z)
    (inc : Incident.SecurityIncident) : bool :=
  String.eqb (Incident.threat_category inc) "Phishing"
  && ((now - days * 2 * us_per_day <=? Incident.date inc)
      && (Incident.date inc <? now - days * us_per_day)).

(** [(recent - previous) / max(previous, 1) * 100] with the two counts *)
Definition surge_of_counts (recent previous : Z)
  : result SecurityIncidentService.surge :=
  try q <- int_true_div (recent - previous) (Z.max previous 1) then
  Ok (SecurityIncidentService.mkSurge recent previous (fmul q (of_Z 100))).

(** the surge analysis as the specification words it, for any [days] *)
Definition claimed_surge (incidents : list Incident.SecurityIncident)
    (now : datetime) (days : Z) : result SecurityIncidentService.surge :=
  surge_of_counts
    (Z.of_nat (List.length (List.filter (in_recent_window now days) incidents)))
    (Z.of_nat (List.length (List.filter (in_previous_window now days) incidents))).

(** 2026-11-03T00:00:00 *)
Definition a_clock_reading : datetime := 63929260800000000.

(** a heap with one repository whose snapshot, the list object at
    address 1, holds the entities at addresses 5 and 6 *)
Definition two_entities : Heap.heap nat :=
  Heap.mkHeap
    (<[1%positive := [5%positive; 6%positive]]> empty)
    (<[5%positive := 500%nat]> (<[6%positive := 100%nat]> empty)).

(** sorted from the largest key down *)
Definition descending_by {A : Type} (key : A -> float) (l : list A) : Prop :=
  StronglySorted (fun x y => fle (key y) (key x) = true) l.

(** how many items [xs[:n]] keeps of a list of [len] items *)
Definition slice_count (n : Z) (len : nat) : nat :=
  if 0 <=? n then Nat.min (Z.to_nat n) len
  else Z.to_nat (Z.of_nat len + n).

(** [r] is the top [k] of [l] by [key], ties in the order of [l]: [r] and
    the rest [l] leaves behind split [l]; [r] has [k] items, is sorted
    from the largest key down and no item left behind has a larger key;
    and for every key value the items of [l] carrying it are those of
    [r] followed by those left behind, in the order they have in [l]. *)
Definition top_n_by {A : Type} (key : A -> float) (k : nat) (l r : list A) : Prop :=
  exists rest,
    Permutation (r ++ rest) l /\
    List.length r = k /\
    descending_by key r /\
    (forall x y, In x r -> In y rest -> fle (key y) (key x) = true) /\
    (forall v, with_key key feq v l
               = with_key key feq v r ++ with_key key feq v rest).

(** a dataset as [get_archive_candidates] leaves it *)
Definition scored (d : Dataset) : Dataset :=
  match archive_score d with
  | None => snd (calculate_archive_score d)
  | Some _ => d
  end.

(** the score of a dataset that lacks one can be computed *)
Definition scorable (d : Dataset) : Prop :=
  archive_score d = None -> exists v, archive_score_expr d = Ok v.

Definition sized (nm : string) (size : Z) : Dataset :=
  mkDataset nm "Finance" (of_Z size) zero 0 0 0 "Passed" 0 0 zero None.

(** a dataset of size [size], whatever float that is *)
Definition sized_as (nm : string) (size : float) : Dataset :=
  mkDataset nm "Finance" size zero 0 0 0 "Passed" 0 0 zero None.

(** sizes 1, NaN, 2 in snapshot order *)
Definition sizes_with_nan : list Dataset :=
  [sized_as "small" (of_Z 1); sized_as "odd" S754_nan; sized_as "large" (of_Z 2)].

(** a dataset without a score whose age does not fit a float *)
Definition ancient : Dataset :=
  mkDataset "ancient" "Finance" zero zero 0 0 (2 ^ 2000) "Passed" 0 0 zero None.

(** sizes 500, 100, 500, 50 in snapshot order *)
Definition four_sizes : list Dataset :=
  [sized "first" 500; sized "second" 100; sized "third" 500; sized "fourth" 50].

(** the per-key arithmetic means of a list of entities: one entry per
    key in order of first occurrence, [sum/len] of the values of the
    entities with that key *)
Definition means_by {E : Type} (keyf : E -> string) (valf : E -> float)
    (l : list E) : dict float :=
  map (fun c => (c, mean (map valf
                            (List.filter (fun e => String.eqb (keyf e) c) l))))
      (distinct (map keyf l)).

(** [(c, m)] is an entry of [d] and no entry of [d] has a value above [m] *)
Definition is_max_entry (d : dict float) (c : string) (m : float) : Prop :=
  In (c, m) d /\ forall c' m', In (c', m') d -> flt m m' = false.

(** the incidents the bottleneck analysis uses: resolved, with a
    resolution time that is present and not zero *)
Definition considered (incidents : list Incident.SecurityIncident)
  : list Incident.SecurityIncident :=
  List.filter
    (fun inc => String.eqb (Incident.status inc) "Resolved"
                && SecurityIncidentService.has_truthy_time inc)
    incidents.

Definition time_of (inc : Incident.SecurityIncident) : float :=
  match Incident.resolution_time_hours inc with
  | Some t => t
  | None => zero
  end.

(** the incidents the specification names: resolved, with a resolution
    time that is present *)
Definition claimed_considered (incidents : list Incident.SecurityIncident)
  : list Incident.SecurityIncident :=
  List.filter
    (fun inc => String.eqb (Incident.status inc) "Resolved"
                && match Incident.resolution_time_hours inc with
                   | Some _ => true
                   | None => false
                   end)
    incidents.

(** the bottleneck as the specification words it *)
Definition claimed_bottleneck (incidents : list Incident.SecurityIncident)
  : result (option SecurityIncidentService.bottleneck) :=
  match claimed_considered incidents with
  | [] => Ok None
  | sel =>
      let avg := means_by Incident.threat_category time_of sel in
      try longest <- py_max snd avg then
      Ok (Some (SecurityIncidentService.mkBottleneck
                  (fst longest) (snd longest) avg))
  end.

Definition resolved_incident (cat : string) (hours : float)
  : Incident.SecurityIncident :=
  Incident.mkIncident a_clock_reading cat "High" "Resolved" (Some hours).

(** the resolved tickets of a snapshot and the per-staff means of their
    resolution times *)
Definition resolved_tickets (tickets : list Ticket.ITTicket)
  : list Ticket.ITTicket :=
  List.filter Ticket.is_resolved tickets.

Definition staff_means (tickets : list Ticket.ITTicket) : dict float :=
  means_by Ticket.assigned_staff Ticket.total_resolution_time_hours
    (resolved_tickets tickets).

(** the gap percentage as the specification words it:
    [(slowest_avg - team_avg) / team_avg * 100], and 0 when
    [team_avg == 0] *)
Definition claimed_gap_percentage (slowest_avg team_avg : float) : float :=
  if feq team_avg zero then zero
  else fmul (fdiv (fsub slowest_avg team_avg) team_avg) (of_Z 100).

Definition resolved_ticket (staff : string) (hours : float) : Ticket.ITTicket :=
  Ticket.mkTicket "T-1" staff "Medium" 0 "Resolved" hours None [].

(** staff A resolved in 10h, staff A in 20h, staff B in 5h *)
Definition three_tickets : list Ticket.ITTicket :=
  [resolved_ticket "A" (of_Z 10); resolved_ticket "A" (of_Z 20);
   resolved_ticket "B" (of_Z 5)].

(** every [(stage, hours)] item of every ticket, in iteration order *)
Definition stage_items (tickets : list Ticket.ITTicket) : list (string * float) :=
  flat_map Ticket.stage_times tickets.

Definition stages (tickets : list Ticket.ITTicket) : list string :=
  distinct (map fst (stage_items tickets)).

Definition stage_total (tickets : list Ticket.ITTicket) (s : string) : float :=
  py_sum (vals_of s (stage_items tickets)).

Definition stage_count (tickets : list Ticket.ITTicket) (s : string) : Z :=
  Z.of_nat (List.length (vals_of s (stage_items tickets))).

Definition stage_means (tickets : list Ticket.ITTicket) : dict float :=
  map (fun s => (s, fdiv (stage_total tickets s) (of_Z (stage_count tickets s))))
      (stages tickets).

(** the tickets that have an entry for stage [s], and their entries *)
Definition tickets_with (s : string) (tickets : list Ticket.ITTicket)
  : list Ticket.ITTicket :=
  List.filter (fun t => dict_mem s (Ticket.stage_times t)) tickets.

Definition entries_for (s : string) (tickets : list Ticket.ITTicket) : list float :=
  flat_map (fun t => match dict_get s (Ticket.stage_times t) with
                     | Some v => [v]
                     | None => []
                     end) tickets.

(** the stage mean as the specification words it: over the tickets whose
    entry for the stage is nonzero *)
Definition claimed_stage_mean (tickets : list Ticket.ITTicket) (s : string) : float :=
  mean (List.filter truthy (entries_for s tickets)).

(** the percentage as the specification words it, without a guard *)
Definition claimed_percentage (total all_totals : float) : float :=
  fmul (fdiv total all_totals) (of_Z 100).

Definition staged_ticket (items : dict float) : Ticket.ITTicket :=
  Ticket.mkTicket "T-1" "A" "Medium" 0 "New" zero None items.

(** ** Further readings: entities, repositories and services *)

Definition severities : list string := ["High"; "Medium"; "Low"]%string.

Definition incident_statuses : list string :=
  ["Unresolved"; "In Progress"; "Resolved"]%string.

Definition priorities : list string :=
  ["Critical"; "High"; "Medium"; "Low"]%string.

(** the keys [SecurityIncident.from_dict] reads with [data[k]], in the
    order it reads them *)
Definition required_incident_keys : list string :=
  ["Date"; "Threat Category"; "Severity"; "Status"]%string.

(** [r] is the first of the items of [l] with the largest key: the items
    before it have a strictly smaller key, those after it a key that is
    no larger *)
Definition first_maximum {A : Type} (key : A -> float) (l : list A) (r : A)
  : Prop :=
  exists before after,
    l = before ++ r :: after /\
    (forall y, In y before -> flt (key y) (key r) = true) /\
    (forall y, In y after -> fle (key y) (key r) = true).

(** [add] called once for each item of [xs], in order *)
Fixpoint add_each {E : Type} (self : Heap.repository) (xs : list Heap.loc)
    (h : Heap.heap E) : option (Heap.heap E) :=
  match xs with
  | [] => Some h
  | x :: xs' =>
      match Heap.add self x h with
      | Some h' => add_each self xs' h'
      | None => None
      end
  end.

(** a heap with two list objects: at address 1 a list of the entities at
    addresses 5 and 6, at address 2 a list of the entity at address 7 *)
Definition two_lists : Heap.heap nat :=
  Heap.mkHeap
    (<[1%positive := [5%positive; 6%positive]]>
       (<[2%positive := [7%positive]]> empty))
    (<[5%positive := 500%nat]>
       (<[6%positive := 100%nat]> (<[7%positive := 50%nat]> empty))).

(** [r] is the top [k] of [l] by an integer [key], ties in the order of
    [l]: [r] and the rest [l] leaves behind split [l]; [r] has [k] items,
    is sorted from the largest key down and no item left behind has a
    larger key; and for every key value the items of [l] carrying it are
    those of [r] followed by those left behind, in the order they have
    in [l]. *)
Definition top_n_by_int {A : Type} (key : A -> Z) (k : nat) (l r : list A)
  : Prop :=
  exists rest,
    Permutation (r ++ rest) l /\
    List.length r = k /\
    StronglySorted (fun x y => key y <= key x) r /\
    (forall x y, In x r -> In y rest -> key y <= key x) /\
    (forall v, with_key key Z.eqb v l
               = with_key key Z.eqb v r ++ with_key key Z.eqb v rest).

(** what one call of [get_archive_candidates] does to one entity: nothing,
    or, for an entity without a score, the assignment of its score *)
Definition untouched_or_scored (d d' : Dataset) : Prop :=
  d' = d \/
  (archive_score d = None /\
   exists v, archive_score_expr d = Ok v /\ d' = set_archive_score d (Some v)).

(** the sum of a list of ints *)
Definition sum_Z (l : list Z) : Z := fold_right Z.add 0 l.

(** three catalogued datasets, the second one still to be checked and
    the third one with a score *)
Definition catalogue : list Dataset :=
  [mkDataset "sales" "Finance" (of_Z 500) (of_Z 12) 0 0 200 "Passed" 2 3 (of_Z 11) None;
   mkDataset "logs" "IT" (of_Z 100) (of_Z 90) 0 0 10 "Pending" 0 40 (of_Z 2) None;
   mkDataset "audit" "Finance" (of_Z 20) (of_Z 1) 0 0 400 "Passed" 4 0 (of_Z 1)
     (Some (of_Z 70))]%string.

(** two resolved incidents of different categories, both taking 10
    hours, and an unresolved one *)
Definition three_incidents : list Incident.SecurityIncident :=
  [Incident.mkIncident 63929260800000000 "Malware" "High" "Resolved" (Some (of_Z 10));
   Incident.mkIncident 63929260800000000 "Phishing" "Low" "Resolved" (Some (of_Z 10));
   Incident.mkIncident 63929260800000000 "Phishing" "High" "Unresolved" None]%string.

(** four tickets: two resolved by different staff in 8 hours each with
    equal stage times, one waiting for the user, one new *)
Definition helpdesk : list Ticket.ITTicket :=
  [Ticket.mkTicket "T-1" "Ann" "High" 0 "Resolved" (of_Z 8) (Some 1)
     [("New", of_Z 2); ("In Progress", of_Z 6)];
   Ticket.mkTicket "T-2" "Bob" "Low" 0 "Resolved" (of_Z 8) (Some 1)
     [("New", of_Z 6); ("In Progress", of_Z 2)];
   Ticket.mkTicket "T-3" "Ann" "Medium" 0 "Waiting for User" zero None [];
   Ticket.mkTicket "T-4" "Bob" "Critical" 0 "New" zero None []]%string.

(** * Facts about the embedding *)

(** ** The order of binary64 values

    Every comparison fact the analytics need (the strict order is
    transitive, equal keys are never strictly ordered, numbers are
    totally ordered) follows from the rank by linear arithmetic. *)

Lemma SFcompare_rank (x y : float) :
  is_nan x = false -> is_nan y = false ->
  SFcompare x y = Some (lex3 (float_rank x) (float_rank y)).
Proof.
  destruct x as [sx|sx| |sx mx ex], y as [sy|sy| |sy my ey];
    try discriminate; intros _ _;
    try (destruct sx); try (destruct sy); try reflexivity.
  cbn [SFcompare float_rank lex3]. f_equal.
  change (-1 ?= -1) with Eq. cbn iota.
  rewrite Z.compare_opp.
  destruct (Z.compare_spec ex ey) as [H|H|H].
  - subst. rewrite Z.compare_refl. reflexivity.
  - rewrite (proj2 (Z.compare_gt_iff ey ex)) by lia. reflexivity.
  - rewrite (proj2 (Z.compare_lt_iff ey ex)) by lia. reflexivity.
Qed.

Lemma lex3_Lt (a b c a' b' c' : Z) :
  lex3 (a, b, c) (a', b', c') = Lt <->
  a < a' \/ (a = a' /\ (b < b' \/ (b = b' /\ c < c'))).
Proof.
  unfold lex3.
  destruct (Z.compare_spec a a'); destruct (Z.compare_spec b b');
    destruct (Z.compare_spec c c'); split; intros; try discriminate;
    try reflexivity; lia.
Qed.

Lemma lex3_Eq (a b c a' b' c' : Z) :
  lex3 (a, b, c) (a', b', c') = Eq <-> a = a' /\ b = b' /\ c = c'.
Proof.
  unfold lex3.
  destruct (Z.compare_spec a a'); destruct (Z.compare_spec b b');
    destruct (Z.compare_spec c c'); split; intros; try discriminate;
    try reflexivity; lia.
Qed.


Lemma flt_true (x y : float) :
  flt x y = true <->
  is_nan x = false /\ is_nan y = false /\ rank_lt (float_rank x) (float_rank y).
Proof.
  unfold flt, SFltb.
  destruct (is_nan x) eqn:Hx; [destruct x; try discriminate; cbn; intuition discriminate|].
  destruct (is_nan y) eqn:Hy;
    [destruct y; try discriminate; destruct x; cbn; intuition discriminate|].
  rewrite (SFcompare_rank x y Hx Hy).
  destruct (float_rank x) as [[a b] c], (float_rank y) as [[a' b'] c'].
  pose proof (lex3_Lt a b c a' b' c') as HL. cbn [rank_lt].
  destruct (lex3 (a, b, c) (a', b', c')); intuition (try discriminate; auto).
Qed.

Lemma feq_true (x y : float) :
  feq x y = true <->
  is_nan x = false /\ is_nan y = false /\ float_rank x = float_rank y.
Proof.
  unfold feq, SFeqb.
  destruct (is_nan x) eqn:Hx; [destruct x; try discriminate; cbn; intuition discriminate|].
  destruct (is_nan y) eqn:Hy;
    [destruct y; try discriminate; destruct x; cbn; intuition discriminate|].
  rewrite (SFcompare_rank x y Hx Hy).
  destruct (float_rank x) as [[a b] c], (float_rank y) as [[a' b'] c'].
  pose proof (lex3_Eq a b c a' b' c') as HL.
  destruct (lex3 (a, b, c) (a', b', c')); split; intros H;
    try discriminate; try (split; [reflexivity|split; [reflexivity|]]).
  - destruct HL as [HL _]. destruct (HL eq_refl) as (-> & -> & ->). reflexivity.
  - reflexivity.
  - destruct H as (_ & _ & H). injection H as -> -> ->.
    destruct HL as [_ HL]. discriminate HL; auto.
  - destruct H as (_ & _ & H). injection H as -> -> ->.
    destruct HL as [_ HL]. discriminate HL; auto.
Qed.

Lemma fle_true (x y : float) :
  fle x y = true <-> flt x y = true \/ feq x y = true.
Proof.
  unfold fle, flt, feq, SFleb, SFltb, SFeqb.
  destruct (SFcompare x y) as [[ | | ]|]; intuition discriminate.
Qed.

(** The strict order is transitive, NaN included. *)
Lemma flt_trans (x y z : float) :
  flt x y = true -> flt y z = true -> flt x z = true.
Proof.
  rewrite !flt_true. intros (Hx & Hy & H1) (_ & Hz & H2).
  repeat split; auto.
  destruct (float_rank x) as [[a b] c], (float_rank y) as [[a' b'] c'],
    (float_rank z) as [[a'' b''] c'']. cbn [rank_lt] in *. lia.
Qed.

Lemma flt_asym (x y : float) : flt x y = true -> flt y x = false.
Proof.
  intros H. destruct (flt y x) eqn:E; [|reflexivity].
  apply flt_true in H, E. destruct H as (_ & _ & H), E as (_ & _ & E).
  destruct (float_rank x) as [[a b] c], (float_rank y) as [[a' b'] c'].
  cbn [rank_lt] in *. lia.
Qed.

(** Two keys equal to the same value are never strictly ordered. *)
Lemma flt_feq_compat (x y k : float) :
  flt x y = true -> feq y k = true -> feq x k = false.
Proof.
  intros H E. destruct (feq x k) eqn:E'; [|reflexivity].
  apply flt_true in H. apply feq_true in E, E'.
  destruct H as (_ & _ & H), E as (_ & _ & E), E' as (_ & _ & E').
  rewrite E, E' in H.
  destruct (float_rank k) as [[a b] c]. cbn [rank_lt] in H. lia.
Qed.

(** On numbers the order is total. *)
Lemma flt_false_fle (x y : float) :
  is_nan x = false -> is_nan y = false -> flt x y = false -> fle y x = true.
Proof.
  intros Hx Hy H. apply fle_true.
  destruct (flt y x) eqn:E1; [now left|]. right.
  apply feq_true. repeat split; auto.
  assert (N1 : ~ rank_lt (float_rank x) (float_rank y)).
  { intros C. assert (flt x y = true) by (apply flt_true; auto). congruence. }
  assert (N2 : ~ rank_lt (float_rank y) (float_rank x)).
  { intros C. assert (flt y x = true) by (apply flt_true; auto). congruence. }
  destruct (float_rank x) as [[a b] c], (float_rank y) as [[a' b'] c'].
  cbn [rank_lt] in *. f_equal; [f_equal|]; lia.
Qed.

Lemma flt_negtrans (x y z : float) :
  is_nan x = false -> is_nan y = false -> is_nan z = false ->
  flt x y = false -> flt y z = false -> flt x z = false.
Proof.
  intros Hx Hy Hz H1 H2. destruct (flt x z) eqn:E; [|reflexivity].
  assert (N1 : ~ rank_lt (float_rank x) (float_rank y)).
  { intros C. assert (flt x y = true) by (apply flt_true; auto). congruence. }
  assert (N2 : ~ rank_lt (float_rank y) (float_rank z)).
  { intros C. assert (flt y z = true) by (apply flt_true; auto). congruence. }
  apply flt_true in E. destruct E as (_ & _ & E).
  destruct (float_rank x) as [[a b] c], (float_rank y) as [[a' b'] c'],
    (float_rank z) as [[a'' b''] c'']. cbn [rank_lt] in *. lia.
Qed.

(** ** [sorted]: a stable sort *)

Lemma in_firstn_in {A : Type} (n : nat) (l : list A) (x : A) :
  In x (firstn n l) -> In x l.
Proof.
  intros H. rewrite <- (firstn_skipn n l). apply in_or_app. now left.
Qed.

Lemma in_skipn_in {A : Type} (n : nat) (l : list A) (x : A) :
  In x (skipn n l) -> In x l.
Proof.
  intros H. rewrite <- (firstn_skipn n l). apply in_or_app. now right.
Qed.

Section SortedFacts.
Context {A K : Type}.
Variable key : A -> K.
Variable ltb : K -> K -> bool.

Lemma insert_stable_perm (x : A) (l : list A) :
  Permutation (insert_stable key ltb x l) (x :: l).
Proof.
  induction l as [|y l IH]; cbn; [reflexivity|].
  destruct (ltb (key y) (key x)); [|reflexivity].
  rewrite IH. apply perm_swap.
Qed.

Lemma stable_sort_perm (l : list A) : Permutation (stable_sort key ltb l) l.
Proof.
  induction l as [|x l IH]; cbn; [reflexivity|].
  rewrite insert_stable_perm. now constructor.
Qed.

Lemma sorted_perm (reverse : bool) (l : list A) :
  Permutation (sorted key ltb reverse l) l.
Proof.
  unfold sorted. destruct reverse; [|apply stable_sort_perm].
  rewrite <- Permutation_rev, stable_sort_perm. symmetry. apply Permutation_rev.
Qed.

(** *** Stability: elements with one key keep their relative order *)
Section Stable.
Variable eqb : K -> K -> bool.
Hypothesis ltb_eqb_compat :
  forall a b k, ltb a b = true -> eqb b k = true -> eqb a k = false.

Lemma insert_stable_with_key (k : K) (x : A) (l : list A) :
  with_key key eqb k (insert_stable key ltb x l) = with_key key eqb k (x :: l).
Proof.
  induction l as [|y l IH]; [reflexivity|].
  cbn [insert_stable]. destruct (ltb (key y) (key x)) eqn:E; [|reflexivity].
  unfold with_key in *. cbn [List.filter] in *. rewrite IH.
  destruct (eqb (key x) k) eqn:Ex; [|reflexivity].
  now rewrite (ltb_eqb_compat _ _ _ E Ex).
Qed.

Lemma stable_sort_with_key (k : K) (l : list A) :
  with_key key eqb k (stable_sort key ltb l) = with_key key eqb k l.
Proof.
  induction l as [|x l IH]; [reflexivity|].
  cbn [stable_sort fold_right]. fold (stable_sort key ltb l).
  rewrite insert_stable_with_key. unfold with_key in *. cbn [List.filter].
  now rewrite IH.
Qed.

Lemma with_key_rev (k : K) (l : list A) :
  with_key key eqb k (rev l) = rev (with_key key eqb k l).
Proof.
  unfold with_key. induction l as [|x l IH]; [reflexivity|].
  cbn [rev List.filter]. rewrite List.filter_app, IH. cbn [List.filter].
  destruct (eqb (key x) k); [reflexivity|]. now rewrite app_nil_r.
Qed.

Lemma sorted_with_key (reverse : bool) (k : K) (l : list A) :
  with_key key eqb k (sorted key ltb reverse l) = with_key key eqb k l.
Proof.
  unfold sorted. destruct reverse; [|apply stable_sort_with_key].
  now rewrite with_key_rev, stable_sort_with_key, with_key_rev, rev_involutive.
Qed.

Lemma with_key_firstn (k : K) (n : nat) (l : list A) :
  with_key key eqb k l =
  with_key key eqb k (firstn n l) ++ with_key key eqb k (skipn n l).
Proof.
  unfold with_key. now rewrite <- List.filter_app, firstn_skipn.
Qed.
End Stable.

(** *** Order: on keys that [<] orders totally the result is sorted *)
Section Ordered.
Variable good : K -> Prop.
Hypothesis ltb_asym : forall a b, ltb a b = true -> ltb b a = false.
Hypothesis ltb_negtrans :
  forall a b c, good a -> good b -> good c ->
    ltb a b = false -> ltb b c = false -> ltb a c = false.

Lemma insert_stable_ascending (x : A) (l : list A) :
  good (key x) -> Forall (fun y => good (key y)) l ->
  ascending key ltb l -> ascending key ltb (insert_stable key ltb x l).
Proof.
  unfold ascending. intros Gx Gl Hs. induction Hs as [|y l Hs IH Hy]; cbn.
  - repeat constructor.
  - apply Forall_cons_iff in Gl as [Gy Gl].
    destruct (ltb (key y) (key x)) eqn:E.
    + constructor; [exact (IH Gl)|].
      rewrite (insert_stable_perm x l). constructor; [|assumption].
      now apply ltb_asym.
    + constructor; [now constructor|].
      constructor; [assumption|].
      rewrite Forall_forall in *. intros z Hz.
      apply (ltb_negtrans (key z) (key y) (key x)); auto.
Qed.

Lemma stable_sort_ascending (l : list A) :
  Forall (fun y => good (key y)) l -> ascending key ltb (stable_sort key ltb l).
Proof.
  induction l as [|x l IH]; intros G; cbn; [constructor|].
  apply Forall_cons_iff in G as [Gx G].
  apply insert_stable_ascending; auto.
  now rewrite (stable_sort_perm l).
Qed.

Lemma descending_snoc (l : list A) (x : A) :
  descending key ltb l -> Forall (fun y => ltb (key y) (key x) = false) l ->
  descending key ltb (l ++ [x]).
Proof.
  unfold descending. intros Hs Hx. induction Hs as [|y l Hs IH Hy]; cbn.
  - repeat constructor.
  - apply Forall_cons_iff in Hx as [Hyx Hx]. constructor; [exact (IH Hx)|].
    apply Forall_app. split; [assumption|]. now repeat constructor.
Qed.

Lemma ascending_rev (l : list A) :
  ascending key ltb l -> descending key ltb (rev l).
Proof.
  intros Hs. induction Hs as [|y l Hs IH Hy]; cbn; [constructor|].
  apply descending_snoc; [assumption|].
  apply Forall_rev. assumption.
Qed.

Lemma sorted_descending (l : list A) :
  Forall (fun y => good (key y)) l -> descending key ltb (sorted key ltb true l).
Proof.
  intros G. unfold sorted. apply ascending_rev, stable_sort_ascending.
  now apply Forall_rev.
Qed.

Lemma descending_firstn_skipn (n : nat) (l : list A) :
  descending key ltb l ->
  descending key ltb (firstn n l) /\
  forall x y, In x (firstn n l) -> In y (skipn n l) ->
    ltb (key x) (key y) = false.
Proof.
  unfold descending. intros Hs. revert n.
  induction Hs as [|z l Hs IH Hz]; intros [|n]; cbn.
  - split; [constructor|contradiction].
  - split; [constructor|contradiction].
  - split; [constructor|contradiction].
  - destruct (IH n) as [IH1 IH2]. split.
    + constructor; [assumption|].
      rewrite Forall_forall in *. intros y Hy. apply Hz.
      now apply (in_firstn_in n).
    + intros x y [<-|Hx] Hy.
      * rewrite Forall_forall in Hz. apply Hz. now apply (in_skipn_in n).
      * now apply IH2.
Qed.
End Ordered.
End SortedFacts.

(** ** [max] with a key *)
Section MaxFacts.
Context {A : Type}.
Variable key : A -> float.

Lemma max_from_spec (l : list A) (best : A) :
  In (max_from key best l) (best :: l) /\
  (max_from key best l = best \/ flt (key best) (key (max_from key best l)) = true) /\
  forall y, In y (best :: l) -> flt (key (max_from key best l)) (key y) = false.
Proof.
  revert best. induction l as [|x l IH]; intros best; cbn [max_from].
  - split; [now left|]. split; [now left|].
    intros y [<-|[]]. destruct (flt (key best) (key best)) eqn:E; [|reflexivity].
    now rewrite (flt_asym _ _ E) in E.
  - unfold fgt. destruct (SFltb (key best) (key x)) eqn:E; fold (flt (key best) (key x)) in E.
    + destruct (IH x) as (Hin & Hrel & Hmax). split; [now right|].
      assert (Hb : flt (key best) (key (max_from key x l)) = true).
      { destruct Hrel as [->|Hrel]; [assumption|].
        eapply flt_trans; eassumption. }
      split; [now right|].
      intros y [<-|Hy]; [now apply flt_asym|now apply Hmax].
    + destruct (IH best) as (Hin & Hrel & Hmax). split.
      { destruct Hin as [Hin|Hin]; [now left|right; now right]. }
      split; [assumption|].
      intros y [Hy|[Hy|Hy]].
      * apply Hmax. now left.
      * subst y. destruct Hrel as [->|Hrel]; [assumption|].
        destruct (flt (key (max_from key best l)) (key x)) eqn:E'; [|reflexivity].
        now rewrite (flt_trans _ _ _ Hrel E') in E.
      * apply Hmax. now right.
Qed.

Lemma py_max_spec (l : list A) :
  l <> [] ->
  exists r, py_max key l = Ok r /\ In r l /\
            forall y, In y l -> fgt (key y) (key r) = false.
Proof.
  destruct l as [|x l]; [congruence|]. intros _.
  destruct (max_from_spec l x) as (Hin & _ & Hmax).
  exists (max_from key x l). repeat split; auto.
Qed.
End MaxFacts.

(** ** Dictionaries and grouping *)

Section DictFacts.
Context {V : Type}.
Implicit Types (d : dict V) (k : string).

Lemma dict_mem_cons k k' (v : V) d :
  dict_mem k ((k', v) :: d) = String.eqb k' k || dict_mem k d.
Proof. unfold dict_mem. cbn. now destruct (String.eqb k' k). Qed.

Lemma dict_get_app_notin k d d' :
  dict_mem k d = false -> dict_get k (d ++ d') = dict_get k d'.
Proof.
  induction d as [|[k' v] d IH]; [reflexivity|].
  rewrite dict_mem_cons. intros H. apply orb_false_iff in H as [H1 H2].
  cbn. rewrite H1. auto.
Qed.

Lemma dict_set_app_notin k (v : V) d d' :
  dict_mem k d = false -> dict_set k v (d ++ d') = d ++ dict_set k v d'.
Proof.
  induction d as [|[k' v'] d IH]; [reflexivity|].
  rewrite dict_mem_cons. intros H. apply orb_false_iff in H as [H1 H2].
  cbn. rewrite H1. f_equal. auto.
Qed.

Lemma dict_set_notin k (v : V) d :
  dict_mem k d = false -> dict_set k v d = d ++ [(k, v)].
Proof.
  intros H. rewrite <- (app_nil_r d) at 1. now rewrite dict_set_app_notin.
Qed.

(** dictionaries whose values are a function of the key *)
Lemma dict_get_tabulate k (g : string -> V) (ks : list string) :
  dict_get k (map (fun c => (c, g c)) ks) =
  if existsb (String.eqb k) ks then Some (g k) else None.
Proof.
  induction ks as [|c ks IH]; [reflexivity|]. cbn.
  rewrite (String.eqb_sym k c).
  destruct (String.eqb_spec c k) as [->|Hne]; [reflexivity|]. exact IH.
Qed.

Lemma dict_mem_tabulate k (g : string -> V) (ks : list string) :
  dict_mem k (map (fun c => (c, g c)) ks) = existsb (String.eqb k) ks.
Proof. unfold dict_mem. rewrite dict_get_tabulate. now destruct (existsb _ ks). Qed.

Lemma dict_set_tabulate k (v : V) (g : string -> V) (ks : list string) :
  NoDup ks -> In k ks ->
  dict_set k v (map (fun c => (c, g c)) ks) =
  map (fun c => (c, if String.eqb c k then v else g c)) ks.
Proof.
  induction 1 as [|c ks Hc Hnd IH]; [contradiction|]. intros Hin. cbn.
  destruct (String.eqb_spec c k) as [->|Hne].
  - f_equal. apply map_ext_in. intros c Hc'.
    destruct (String.eqb_spec c k) as [->|_]; [contradiction|reflexivity].
  - f_equal. apply IH. destruct Hin; [contradiction|assumption].
Qed.
End DictFacts.

Lemma existsb_eqb_In (k : string) (l : list string) :
  existsb (String.eqb k) l = true <-> In k l.
Proof.
  rewrite existsb_exists. split.
  - intros (x & Hx & E). apply String.eqb_eq in E. now subst.
  - intros H. exists k. split; [assumption|apply String.eqb_refl].
Qed.

Lemma In_distinct (x : string) (l : list string) : In x (distinct l) <-> In x l.
Proof.
  induction l as [|y l IH]; [reflexivity|]. cbn.
  rewrite List.filter_In, IH, negb_true_iff.
  destruct (String.eqb_spec y x) as [->|Hne]; intuition congruence.
Qed.

Lemma NoDup_distinct (l : list string) : NoDup (distinct l).
Proof.
  induction l as [|y l IH]; cbn; constructor.
  - rewrite List.filter_In, String.eqb_refl. intros [_ H]. discriminate.
  - now apply List.NoDup_filter.
Qed.

Lemma existsb_distinct (k : string) (l : list string) :
  existsb (String.eqb k) (distinct l) = existsb (String.eqb k) l.
Proof.
  apply eq_true_iff_eq. rewrite !existsb_eqb_In. apply In_distinct.
Qed.

Lemma distinct_snoc (l : list string) (k : string) :
  distinct (l ++ [k]) =
  if existsb (String.eqb k) l then distinct l else distinct l ++ [k].
Proof.
  induction l as [|y l IH]; [reflexivity|]. cbn. rewrite IH.
  rewrite (String.eqb_sym k y).
  destruct (String.eqb_spec y k) as [->|Hne]; cbn.
  - destruct (existsb (String.eqb k) l); [reflexivity|].
    rewrite List.filter_app. cbn. rewrite String.eqb_refl. cbn.
    now rewrite app_nil_r.
  - destruct (existsb (String.eqb k) l); [reflexivity|].
    rewrite List.filter_app. cbn.
    destruct (String.eqb_spec y k); [contradiction|reflexivity].
Qed.

Lemma vals_of_snoc {X : Type} (c k : string) (x : X) (kvs : list (string * X)) :
  vals_of c (kvs ++ [(k, x)]) =
  vals_of c kvs ++ (if String.eqb k c then [x] else []).
Proof.
  unfold vals_of. rewrite List.filter_app, map_app. cbn.
  now destruct (String.eqb k c).
Qed.

Lemma vals_of_notin {X : Type} (k : string) (kvs : list (string * X)) :
  ~ In k (map fst kvs) -> vals_of k kvs = [].
Proof.
  unfold vals_of. induction kvs as [|[k' x] kvs IH]; [reflexivity|]. cbn.
  intros H. destruct (String.eqb_spec k' k) as [->|Hne]; [tauto|]. apply IH. tauto.
Qed.

(** One more item: the loop body applied to the grouping of the items
    seen so far is the grouping of the longer list. *)
Lemma dict_accum_grouped {V X : Type} (init : V) (step : V -> X -> V)
    (kvs : list (string * X)) (k : string) (x : X) :
  dict_accum init step (grouped init step kvs) k x =
  grouped init step (kvs ++ [(k, x)]).
Proof.
  unfold dict_accum, dict_update, grouped. rewrite map_app. cbn [map fst].
  rewrite distinct_snoc, dict_mem_tabulate.
  pose proof (existsb_distinct k (map fst kvs)) as Hex.
  rewrite Hex. destruct (existsb (String.eqb k) (map fst kvs)) eqn:E; cbv iota.
  - rewrite dict_get_tabulate, Hex.
    rewrite dict_set_tabulate;
      [|apply NoDup_distinct|apply In_distinct; now apply existsb_eqb_In].
    apply map_ext. intros c. f_equal. rewrite vals_of_snoc, fold_left_app.
    rewrite (String.eqb_sym c k). now destruct (String.eqb_spec k c) as [->|].
  - assert (Hm : dict_mem k
        (map (fun c => (c, fold_left step (vals_of c kvs) init))
             (distinct (map fst kvs))) = false).
    { now rewrite dict_mem_tabulate, Hex. }
    rewrite (dict_set_notin _ _ _ Hm).
    rewrite (dict_get_app_notin _ _ _ Hm). cbn. rewrite String.eqb_refl.
    rewrite (dict_set_app_notin _ _ _ _ Hm). cbn. rewrite String.eqb_refl.
    rewrite map_app. cbn. f_equal.
    + apply map_ext_in. intros c Hc. f_equal. rewrite vals_of_snoc.
      destruct (String.eqb_spec k c) as [->|_]; [|now rewrite app_nil_r].
      apply (proj1 (In_distinct _ _)), (proj2 (existsb_eqb_In _ _)) in Hc.
      congruence.
    + rewrite vals_of_snoc, String.eqb_refl, fold_left_app.
      rewrite vals_of_notin; [reflexivity|].
      intros Hin. apply (proj2 (existsb_eqb_In _ _)) in Hin. congruence.
Qed.

Lemma fold_dict_accum {V X : Type} (init : V) (step : V -> X -> V)
    (kvs : list (string * X)) :
  fold_left (fun d kv => dict_accum init step d (fst kv) (snd kv)) kvs [] =
  grouped init step kvs.
Proof.
  induction kvs as [|[k x] kvs IH] using rev_ind; [reflexivity|].
  rewrite fold_left_app. cbn. rewrite IH. apply dict_accum_grouped.
Qed.

(** ** Rounding: the true division of integers does not overflow

    [binary_round_aux] shifts the mantissa right until it has at most 53
    digits, rounds, and shifts once more; the exponent it ends with is
    bounded by the number of digits of the mantissa plus the exponent it
    started from. *)

Lemma digits2_pos_size (p : positive) : digits2_pos p = Pos.size p.
Proof. induction p; cbn; congruence. Qed.

Lemma Zdigits2_log2 (p : positive) : Zdigits2 (Zpos p) = Z.log2 (Zpos p) + 1.
Proof.
  cbn [Zdigits2]. rewrite digits2_pos_size.
  destruct p; cbn [Pos.size Z.log2]; lia.
Qed.

Lemma Zdigits2_nonneg (m : Z) : 0 <= Zdigits2 m.
Proof. destruct m; cbn; lia. Qed.

(** [m < 2^k] bounds the number of digits *)
Lemma Zdigits2_le (m k : Z) : 0 <= m -> 0 <= k -> m < 2 ^ k -> Zdigits2 m <= k.
Proof.
  intros Hm Hk H. destruct m as [|p|p]; [assumption| |lia].
  rewrite Zdigits2_log2.
  assert (Z.log2 (Zpos p) < k) by (apply Z.log2_lt_pow2; lia). lia.
Qed.

Lemma Zdigits2_gt (m : Z) : 0 <= m -> m < 2 ^ Zdigits2 m.
Proof.
  intros Hm. destruct m as [|p|p]; [reflexivity| |lia].
  rewrite Zdigits2_log2.
  pose proof (Z.log2_spec (Zpos p) ltac:(lia)) as [_ H].
  now rewrite Z.add_1_r.
Qed.

Lemma shr_m_shr_1 (mrs : shr_record) :
  0 <= shr_m mrs -> shr_m (shr_1 mrs) = Z.div2 (shr_m mrs).
Proof.
  destruct mrs as [m r s]. cbn [shr_m]. intros H.
  destruct m as [|[p|p|]|p]; try reflexivity; lia.
Qed.

Lemma shr_m_iter (p : positive) (mrs : shr_record) :
  0 <= shr_m mrs ->
  shr_m (iter_pos shr_1 p mrs) = Z.shiftr (shr_m mrs) (Zpos p).
Proof.
  revert mrs. induction p as [p IH|p IH|]; intros mrs H; cbn [iter_pos].
  - assert (H1 : 0 <= shr_m (shr_1 mrs)).
    { rewrite shr_m_shr_1 by assumption. rewrite Z.div2_spec.
      now apply Z.shiftr_nonneg. }
    assert (H2 : 0 <= shr_m (iter_pos shr_1 p (shr_1 mrs))).
    { rewrite IH by assumption. now apply Z.shiftr_nonneg. }
    rewrite IH by assumption. rewrite IH by assumption.
    rewrite shr_m_shr_1 by assumption. rewrite Z.div2_spec.
    rewrite !Z.shiftr_shiftr by lia. f_equal. lia.
  - assert (H2 : 0 <= shr_m (iter_pos shr_1 p mrs)).
    { rewrite IH by assumption. now apply Z.shiftr_nonneg. }
    rewrite IH by assumption. rewrite IH by assumption.
    rewrite !Z.shiftr_shiftr by lia. f_equal. lia.
  - rewrite shr_m_shr_1 by assumption. now rewrite Z.div2_spec.
Qed.

Lemma Zdigits2_shiftr (m : Z) (p : positive) :
  0 <= m ->
  Z.shiftr m (Zpos p) = 0 \/
  Zdigits2 (Z.shiftr m (Zpos p)) = Zdigits2 m - Zpos p.
Proof.
  intros Hm. destruct (Z.eq_dec (Z.shiftr m (Zpos p)) 0) as [E|E]; [now left|right].
  assert (Hs : 0 <= Z.shiftr m (Zpos p)) by now apply Z.shiftr_nonneg.
  assert (Hm' : 0 < m).
  { destruct (Z.eq_dec m 0) as [->|]; [|lia]. now rewrite Z.shiftr_0_l in E. }
  destruct (Z.lt_ge_cases (Z.log2 m) (Zpos p)) as [Hlt|Hge].
  { exfalso. apply E. apply Z.shiftr_eq_0; lia. }
  destruct m as [|q|q]; try lia.
  destruct (Z.shiftr (Zpos q) (Zpos p)) as [|q'|q'] eqn:Eq; try lia.
  rewrite !Zdigits2_log2. rewrite <- Eq.
  rewrite Z.log2_shiftr by lia. lia.
Qed.

Lemma shr_fexp_bound (m e K : Z) (l : location) :
  0 <= m -> Zdigits2 m + e <= K ->
  0 <= shr_m (fst (shr_fexp 53 1024 m e l)) /\
  snd (shr_fexp 53 1024 m e l) <= Z.max e (Z.max (K - 53) (-1074)) /\
  Zdigits2 (shr_m (fst (shr_fexp 53 1024 m e l))) + snd (shr_fexp 53 1024 m e l)
    <= Z.max K (-1074).
Proof.
  intros Hm HK. unfold shr_fexp, shr.
  assert (Hrec : shr_m (shr_record_of_loc m l) = m).
  { destruct l as [|[ | | ]]; reflexivity. }
  assert (Hf : fexp 53 1024 (Zdigits2 m + e) <= Z.max (K - 53) (-1074)).
  { unfold fexp, emin. lia. }
  destruct (fexp 53 1024 (Zdigits2 m + e) - e) as [|p|p] eqn:En;
    cbn [fst snd]; rewrite ?Hrec.
  - repeat split; lia.
  - rewrite shr_m_iter by (rewrite Hrec; assumption). rewrite Hrec.
    split; [now apply Z.shiftr_nonneg|]. split; [lia|].
    destruct (Zdigits2_shiftr m p Hm) as [E|E]; rewrite E; cbn [Zdigits2]; lia.
  - repeat split; lia.
Qed.

Lemma round_nearest_even_bound (m : Z) (l : location) :
  m <= round_nearest_even m l <= m + 1.
Proof.
  destruct l as [|[ | | ]]; cbn [round_nearest_even]; try lia.
  destruct (Z.even m); lia.
Qed.

Lemma Zdigits2_succ_le (m m' : Z) :
  0 <= m -> m <= m' <= m + 1 -> Zdigits2 m' <= Zdigits2 m + 1.
Proof.
  intros Hm Hm'. pose proof (Zdigits2_gt m Hm) as Hgt.
  pose proof (Zdigits2_nonneg m) as Hd.
  apply Zdigits2_le; try lia.
  rewrite Z.pow_add_r by lia. change (2 ^ 1) with 2. lia.
Qed.

(** Rounding a non-negative mantissa below the overflow threshold gives a
    zero or a finite number of the given sign. *)
Lemma binary_round_aux_finite (sx : bool) (mx ex : Z) (lx : location) :
  0 <= mx -> ex <= 971 -> Zdigits2 mx + ex <= 1023 ->
  binary_round_aux 53 1024 sx mx ex lx = S754_zero sx \/
  exists m e, binary_round_aux 53 1024 sx mx ex lx = S754_finite sx m e.
Proof.
  intros Hm He HK. unfold binary_round_aux.
  destruct (shr_fexp_bound mx ex 1023 lx Hm HK) as (H1 & H2 & H3).
  destruct (shr_fexp 53 1024 mx ex lx) as [mrs' e'] eqn:E1. cbn [fst snd] in *.
  set (m1 := round_nearest_even (shr_m mrs') (loc_of_shr_record mrs')).
  pose proof (round_nearest_even_bound (shr_m mrs') (loc_of_shr_record mrs')) as Hr.
  fold m1 in Hr.
  pose proof (Zdigits2_succ_le (shr_m mrs') m1 H1 Hr) as Hd.
  assert (Hm1 : 0 <= m1) by lia.
  assert (HK1 : Zdigits2 m1 + e' <= 1024) by lia.
  destruct (shr_fexp_bound m1 e' 1024 loc_Exact Hm1 HK1) as (G1 & G2 & G3).
  destruct (shr_fexp 53 1024 m1 e' loc_Exact) as [mrs'' e''] eqn:E2.
  cbn [fst snd] in *.
  destruct (shr_m mrs'') as [|m|m]; [now left| |lia].
  right. rewrite (proj2 (Z.leb_le e'' (1024 - 53))) by lia. eauto.
Qed.

Lemma shiftl_digits (m s : Z) :
  0 <= m -> 0 <= s -> Z.shiftl m s < 2 ^ (Zdigits2 m + s).
Proof.
  intros Hm Hs. rewrite Z.shiftl_mul_pow2 by assumption.
  pose proof (Zdigits2_gt m Hm). pose proof (Zdigits2_nonneg m).
  rewrite Z.pow_add_r by lia.
  apply Z.mul_lt_mono_pos_r; [apply Z.pow_pos_nonneg; lia|assumption].
Qed.

(** The quotient of two integers of which the dividend is below 2^1023
    is zero or finite: the true division cannot overflow. *)
Lemma SFdiv_ints_finite (sx sy : bool) (mx my : positive) :
  Zpos mx < 2 ^ 1023 ->
  SFdiv 53 1024 (S754_finite sx mx 0) (S754_finite sy my 0)
    = S754_zero (xorb sx sy) \/
  exists m e, SFdiv 53 1024 (S754_finite sx mx 0) (S754_finite sy my 0)
              = S754_finite (xorb sx sy) m e.
Proof.
  intros Hmx. cbn [SFdiv]. unfold SFdiv_core_binary.
  set (d1 := Zdigits2 (Zpos mx)). set (d2 := Zdigits2 (Zpos my)).
  set (e' := Z.min (fexp 53 1024 (d1 + 0 - (d2 + 0))) (0 - 0)).
  assert (He' : e' <= 0) by (unfold e'; lia).
  assert (Hd1 : d1 <= 1023) by (apply Zdigits2_le; lia).
  set (s := 0 - 0 - e').
  set (m' := match s with
             | 0 => Zpos mx
             | Zpos _ => Z.shiftl (Zpos mx) s
             | Zneg _ => 0
             end).
  assert (Hm' : 0 <= m' < 2 ^ (d1 + s)).
  { unfold m'. destruct s as [|p|p] eqn:Es; try lia.
    - rewrite Z.add_0_r. split; [lia|]. apply Zdigits2_gt. lia.
    - split; [apply Z.shiftl_nonneg; lia|]. apply shiftl_digits; lia. }
  assert (Hq : 0 <= m' / Zpos my <= m').
  { split; [apply Z.div_pos; lia|].
    apply Z.div_le_upper_bound; [lia|]. nia. }
  unfold Z.div in Hq.
  destruct (Z.div_eucl m' (Zpos my)) as [q r] eqn:Eq. cbn [fst] in Hq.
  assert (Hs : 0 <= s /\ e' = - s) by (unfold s; lia).
  assert (Hd0 : 0 <= d1) by apply Zdigits2_nonneg.
  apply binary_round_aux_finite; try lia.
  assert (Zdigits2 q <= d1 + s); [|lia].
  apply Zdigits2_le; lia.
Qed.

(** ** Signs *)

Lemma nonneg_fle (x : float) : nonneg x = fle zero x.
Proof. destruct x as [s|[|]| |[|] m e]; reflexivity. Qed.

Lemma shr_fexp_nonneg (m e : Z) (l : location) :
  0 <= m -> 0 <= shr_m (fst (shr_fexp 53 1024 m e l)).
Proof.
  intros Hm. now destruct (shr_fexp_bound m e (Zdigits2 m + e) l Hm (Z.le_refl _)).
Qed.

(** Rounding a non-negative mantissa never yields NaN and keeps the sign. *)
Lemma binary_round_aux_sign (sx : bool) (mx ex : Z) (lx : location) :
  0 <= mx ->
  match binary_round_aux 53 1024 sx mx ex lx with
  | S754_zero s | S754_infinity s | S754_finite s _ _ => s = sx
  | S754_nan => False
  end.
Proof.
  intros Hm. unfold binary_round_aux.
  pose proof (shr_fexp_nonneg mx ex lx Hm) as H1.
  destruct (shr_fexp 53 1024 mx ex lx) as [mrs' e']. cbn [fst] in H1.
  pose proof (round_nearest_even_bound (shr_m mrs') (loc_of_shr_record mrs')) as Hr.
  pose proof (shr_fexp_nonneg
                (round_nearest_even (shr_m mrs') (loc_of_shr_record mrs'))
                e' loc_Exact ltac:(lia)) as H2.
  destruct (shr_fexp 53 1024 _ e' loc_Exact) as [mrs'' e'']. cbn [fst] in H2.
  destruct (shr_m mrs'') as [|m|m]; [reflexivity| |lia].
  destruct (e'' <=? 1024 - 53); reflexivity.
Qed.

Lemma SFadd_nonneg (x y : spec_float) :
  nonneg x = true -> nonneg y = true -> nonneg (SFadd 53 1024 x y) = true.
Proof.
  destruct x as [sx|[|]| |[|] mx ex]; try discriminate;
    destruct y as [sy|[|]| |[|] my ey]; try discriminate; intros _ _;
    try reflexivity.
  - destruct sx, sy; reflexivity.
  - cbn [SFadd cond_Zopp]. unfold binary_normalize.
    set (a := fst (shl_align mx ex (Z.min ex ey))).
    set (b := fst (shl_align my ey (Z.min ex ey))).
    change (Zpos a + Zpos b) with (Zpos (a + b)). cbn iota.
    unfold binary_round.
    destruct (shl_align (a + b) (Z.min ex ey) _) as [mz ez].
    pose proof (binary_round_aux_sign false (Zpos mz) ez loc_Exact ltac:(lia)) as H.
    destruct (binary_round_aux 53 1024 false (Zpos mz) ez loc_Exact);
      try contradiction; subst; reflexivity.
Qed.

Lemma SFdiv_nonneg (x : spec_float) (my : positive) (ey : Z) :
  nonneg x = true ->
  nonneg (SFdiv 53 1024 x (S754_finite false my ey)) = true.
Proof.
  destruct x as [sx|[|]| |[|] mx ex]; try discriminate; intros _; try reflexivity.
  cbn [SFdiv xorb]. unfold SFdiv_core_binary.
  set (m' := match _ - _ - _ with 0 => _ | Zpos _ => _ | Zneg _ => _ end).
  assert (Hm' : 0 <= m').
  { unfold m'. destruct (_ - _ - _); try lia. apply Z.shiftl_nonneg. lia. }
  assert (Hq : 0 <= m' / Zpos my) by (apply Z.div_pos; lia).
  unfold Z.div in Hq.
  destruct (Z.div_eucl m' (Zpos my)) as [q r]. cbn [fst] in Hq.
  pose proof (binary_round_aux_sign false q
                (Z.min (fexp 53 1024 (Zdigits2 (Zpos mx) + ex
                                      - (Zdigits2 (Zpos my) + ey))) (ex - ey))
                (new_location (Zpos my) r) Hq) as H.
  destruct (binary_round_aux 53 1024 false q _ _);
    try contradiction; subst; reflexivity.
Qed.

(** ** The float of a positive integer *)

Lemma Zdigits2_mono (a b : Z) : 0 <= a <= b -> Zdigits2 a <= Zdigits2 b.
Proof.
  intros H. apply Zdigits2_le; [lia|apply Zdigits2_nonneg|].
  pose proof (Zdigits2_gt b ltac:(lia)). lia.
Qed.

Lemma Zdigits2_pos (m : Z) : 0 < m -> 0 < Zdigits2 m.
Proof. destruct m; cbn; lia. Qed.

Lemma shr_fexp_pos (m e : Z) (l : location) :
  0 < m -> -1021 <= Zdigits2 m + e ->
  0 < shr_m (fst (shr_fexp 53 1024 m e l)) /\
  Zdigits2 (shr_m (fst (shr_fexp 53 1024 m e l))) + snd (shr_fexp 53 1024 m e l)
    = Zdigits2 m + e.
Proof.
  intros Hm HK. unfold shr_fexp, shr.
  assert (Hrec : shr_m (shr_record_of_loc m l) = m).
  { destruct l as [|[ | | ]]; reflexivity. }
  assert (Hf : fexp 53 1024 (Zdigits2 m + e) - e = Zdigits2 m - 53).
  { unfold fexp, emin. lia. }
  rewrite Hf. destruct (Zdigits2 m - 53) as [|p|p] eqn:En; cbn [fst snd];
    rewrite ?Hrec; try (split; [assumption|reflexivity]).
  rewrite shr_m_iter by (rewrite Hrec; lia). rewrite Hrec.
  assert (Hnz : Z.shiftr m (Zpos p) <> 0).
  { intros E. apply Z.shiftr_eq_0_iff in E as [E|[_ E]]; [lia|].
    destruct m as [|q|q]; try lia. rewrite Zdigits2_log2 in En. lia. }
  pose proof (Z.shiftr_nonneg m (Zpos p)) as Hs.
  destruct (Zdigits2_shiftr m p ltac:(lia)) as [E|E]; [contradiction|].
  split; [lia|]. rewrite E. lia.
Qed.

(** Rounding a positive mantissa above the underflow threshold does not
    yield zero. *)
Lemma binary_round_aux_nonzero (sx : bool) (mx ex : Z) (lx : location) :
  0 < mx -> -1021 <= Zdigits2 mx + ex ->
  forall s, binary_round_aux 53 1024 sx mx ex lx <> S754_zero s.
Proof.
  intros Hm HK s. unfold binary_round_aux.
  destruct (shr_fexp_pos mx ex lx Hm HK) as (H1 & H2).
  destruct (shr_fexp 53 1024 mx ex lx) as [mrs' e']. cbn [fst snd] in *.
  set (m1 := round_nearest_even (shr_m mrs') (loc_of_shr_record mrs')).
  pose proof (round_nearest_even_bound (shr_m mrs') (loc_of_shr_record mrs')) as Hr.
  fold m1 in Hr.
  pose proof (Zdigits2_mono (shr_m mrs') m1 ltac:(lia)) as Hd.
  destruct (shr_fexp_pos m1 e' loc_Exact ltac:(lia) ltac:(lia)) as (G1 & _).
  destruct (shr_fexp 53 1024 m1 e' loc_Exact) as [mrs'' e'']. cbn [fst] in G1.
  destruct (shr_m mrs'') as [|m|m]; [lia| |discriminate].
  destruct (e'' <=? 1024 - 53); discriminate.
Qed.

Lemma digits2_pos_iter_xO (mx d : positive) :
  digits2_pos (Pos.iter xO mx d) = (digits2_pos mx + d)%positive.
Proof.
  induction d as [|d IH] using Pos.peano_ind.
  - cbn. now rewrite Pos.add_1_r.
  - rewrite Pos.iter_succ. cbn [digits2_pos]. rewrite IH.
    now rewrite Pos.add_succ_r.
Qed.

Lemma shl_align_digits (mx : positive) (ex ex' : Z) :
  Zdigits2 (Zpos (fst (shl_align mx ex ex'))) + snd (shl_align mx ex ex')
    = Zdigits2 (Zpos mx) + ex /\
  snd (shl_align mx ex ex') <= ex.
Proof.
  unfold shl_align. destruct (ex' - ex) as [|d|d] eqn:E; cbn [fst snd];
    try (split; [reflexivity|lia]).
  cbn [Zdigits2]. rewrite digits2_pos_iter_xO. split; lia.
Qed.

(** A positive integer below 2^1023 converts to a positive finite float. *)
Lemma binary_normalize_pos_finite (p : positive) :
  Zpos p < 2 ^ 1023 ->
  exists m e, binary_normalize 53 1024 (Zpos p) 0 false = S754_finite false m e.
Proof.
  intros Hp. cbn [binary_normalize]. unfold binary_round.
  destruct (shl_align_digits p 0 (fexp 53 1024 (Zpos (digits2_pos p) + 0)))
    as [Hd He].
  destruct (shl_align p 0 _) as [mz ez]. cbn [fst snd] in *.
  assert (HD : Zdigits2 (Zpos p) <= 1023) by (apply Zdigits2_le; lia).
  pose proof (Zdigits2_pos (Zpos p) ltac:(lia)) as HD0.
  destruct (binary_round_aux_finite false (Zpos mz) ez loc_Exact)
    as [E|(m & e & E)]; try lia.
  - exfalso. apply (binary_round_aux_nonzero false (Zpos mz) ez loc_Exact
                      ltac:(lia) ltac:(lia) false E).
  - eauto.
Qed.

Lemma int_true_div_returns (a b : Z) :
  b <> 0 -> fits_float a -> exists q, int_true_div a b = Ok q.
Proof.
  unfold fits_float. intros Hb Ha. unfold int_true_div.
  destruct b as [|pb|pb]; [congruence| |];
    (destruct a as [|pa|pa]; [eexists; reflexivity| |]);
    cbn [Z.abs Z.to_pos Z.ltb Z.compare]; unfold prec, emax;
    match goal with
    | |- context [SFdiv 53 1024 (S754_finite ?sx ?mx 0) (S754_finite ?sy ?my 0)] =>
        destruct (SFdiv_ints_finite sx sy mx my) as [E|(m & e & E)];
          [cbn [Z.abs] in Ha; lia| |]
    end;
    rewrite E; eexists; reflexivity.
Qed.

Lemma of_Z_pos_finite (n : Z) :
  0 < n -> fits_float n -> exists m e, of_Z n = S754_finite false m e.
Proof.
  unfold fits_float, of_Z, prec, emax. intros Hn Hf.
  destruct n as [|p|p]; try lia. apply binary_normalize_pos_finite. lia.
Qed.

Lemma py_sum_nonneg (xs : list float) :
  Forall (fun x => nonneg x = true) xs -> nonneg (py_sum xs) = true.
Proof.
  unfold py_sum. assert (H0 : nonneg zero = true) by reflexivity.
  revert H0. generalize zero as acc.
  induction xs as [|x xs IH]; intros acc Hacc H; [assumption|].
  apply Forall_cons_iff in H as [Hx H]. cbn [fold_left]. apply IH; [|assumption].
  unfold fadd, prec, emax. now apply SFadd_nonneg.
Qed.

(** The mean of non-negative numbers is a non-negative number. *)
Lemma mean_nonneg (xs : list float) :
  xs <> [] -> fits_float (Z.of_nat (List.length xs)) ->
  Forall (fun x => nonneg x = true) xs -> nonneg (mean xs) = true.
Proof.
  intros Hne Hlen Hxs. unfold mean.
  destruct (of_Z_pos_finite (Z.of_nat (List.length xs))) as (m & e & ->).
  - destruct xs; [congruence|]. cbn [List.length]. lia.
  - assumption.
  - unfold fdiv, prec, emax. apply SFdiv_nonneg. now apply py_sum_nonneg.
Qed.

(** * The claims *)

(** ** Archive score *)

Lemma archive_score_expr_frame (d : Dataset) (v : option float) :
  archive_score_expr (set_archive_score d v) = archive_score_expr d.
Proof. reflexivity. Qed.

(** C1 (as amended).  Whatever its other fields, a Dataset with
    days_since_access = 180, access_frequency_30d = 0, dependencies = 0 and
    size_gb = 500 gets the score 99.99999999999999 (100 - 2^-46: the four
    rounded weights 0.4, 0.3, 0.2, 0.1 add up to just under 1), and a
    Dataset whose four inputs are zero gets the score 50, since the
    access and dependency terms contribute 30 and 20. *)
Theorem archive_score_examples
    (n d : string) (rows cost : float) (up la : pydate) (qs : string)
    (old : option float) :
  fst (calculate_archive_score
         (mkDataset n d (of_Z 500) rows up la 180 qs 0 0 cost old))
    = Ok just_below_100 /\
  flt just_below_100 (of_Z 100) = true /\
  fst (calculate_archive_score
         (mkDataset n d zero rows up la 0 qs 0 0 cost old))
    = Ok (of_Z 50).
Proof. repeat split; vm_compute; reflexivity. Qed.

(** C1, the claim as written fails: the all-zero Dataset does not score 0
    (it scores 50), and the first Dataset does not score exactly 100. *)
Lemma archive_score_not_0_and_100 :
  fst (calculate_archive_score (scored_dataset zero 0 0 0)) = Ok (of_Z 50) /\
  feq (of_Z 50) zero = false /\
  fst (calculate_archive_score (scored_dataset (of_Z 500) 180 0 0))
    <> Ok (of_Z 100).
Proof. repeat split; vm_compute; congruence. Qed.

Lemma archive_score_expr_returns (d : Dataset) :
  fits_float (days_since_access d) -> fits_float (access_frequency_30d d) ->
  fits_float (dependencies d) ->
  exists v, archive_score_expr d = Ok v.
Proof.
  intros H1 H2 H3. unfold archive_score_expr.
  destruct (int_true_div_returns (days_since_access d) 180) as [a ->];
    [discriminate|assumption|].
  destruct (int_true_div_returns (access_frequency_30d d) 50) as [f ->];
    [discriminate|assumption|].
  destruct (int_true_div_returns (dependencies d) 5) as [q ->];
    [discriminate|assumption|].
  cbn [bind]. eexists. reflexivity.
Qed.

(** C5.  Calling [calculate_archive_score] twice in a row gives the same
    outcome both times; after a call the entity is the entity before it
    with [archive_score] set to the returned value and every other field
    untouched, and the second call leaves the entity as the first one
    left it.  The call returns a value whenever the three integer fields
    are below 2^1023 in magnitude; beyond the float range the true
    division raises [OverflowError], both times, and writes nothing. *)
Theorem calculate_archive_score_idempotent (d : Dataset) :
  (let '(r1, d1) := calculate_archive_score d in
   let '(r2, d2) := calculate_archive_score d1 in
   r2 = r1 /\ d2 = d1 /\
   d1 = match r1 with
        | Ok v => set_archive_score d (Some v)
        | Raise _ => d
        end) /\
  (fits_float (days_since_access d) -> fits_float (access_frequency_30d d) ->
   fits_float (dependencies d) ->
   exists v, calculate_archive_score d = (Ok v, set_archive_score d (Some v))).
Proof.
  unfold calculate_archive_score. split.
  - destruct (archive_score_expr d) as [v|e] eqn:E.
    + rewrite archive_score_expr_frame, E. repeat split; reflexivity.
    + rewrite E. repeat split; reflexivity.
  - intros H1 H2 H3.
    destruct (archive_score_expr_returns d H1 H2 H3) as [v ->].
    exists v. reflexivity.
Qed.

(** ** Construction of a Dataset *)

Lemma str_in_In (s : string) (l : list string) : str_in s l = true <-> In s l.
Proof.
  unfold str_in. rewrite existsb_exists. split.
  - intros (x & Hx & E). apply String.eqb_eq in E. now subst.
  - intros H. exists s. split; [assumption|apply String.eqb_refl].
Qed.

(** C9.  Constructing a Dataset raises [ValueError] exactly when
    [quality_status] is not one of "Passed", "Failed", "Pending" or
    [size_gb < 0]; otherwise it returns the entity with the fields as
    given.  Nothing else is validated: negative [dependencies],
    [days_since_access] and [access_frequency_30d] are accepted. *)
Theorem dataset_validation
    (n d : string) (size rows : float) (up la : pydate) (days : Z)
    (qs : string) (deps freq : Z) (cost : float) (score : option float) :
  ((exists msg, new_Dataset n d size rows up la days qs deps freq cost score
                = Raise (ValueError msg))
   <-> (~ In qs quality_statuses \/ flt size zero = true)) /\
  (new_Dataset n d size rows up la days qs deps freq cost score
   = Ok (mkDataset n d size rows up la days qs deps freq cost score)
   <-> (In qs quality_statuses /\ flt size zero = false)) /\
  new_Dataset n d zero rows up la (-30) "Passed" (-2) (-7) cost score
  = Ok (mkDataset n d zero rows up la (-30) "Passed" (-2) (-7) cost score).
Proof.
  unfold new_Dataset, Dataset_post_init. cbn [quality_status size_gb bind].
  split; [|split; [|reflexivity]].
  - destruct (str_in qs quality_statuses) eqn:Hq; cbn [negb].
    + apply str_in_In in Hq. destruct (flt size zero) eqn:Hs; cbn [bind].
      * split; [intros _; now right|intros _; eexists; reflexivity].
      * split; [intros [msg H]; discriminate|intros [H|H]; [tauto|discriminate]].
    + cbn [bind]. split; [intros _; left|intros _; eexists; reflexivity].
      intros H. apply str_in_In in H. congruence.
  - destruct (str_in qs quality_statuses) eqn:Hq; cbn [negb].
    + apply str_in_In in Hq. destruct (flt size zero) eqn:Hs; cbn [bind].
      * split; [discriminate|intros [_ H]; discriminate].
      * split; [intros _; now split|reflexivity].
    + cbn [bind]. split; [discriminate|].
      intros [H _]. apply str_in_In in H. congruence.
Qed.

(** ** Dependency risk *)

Lemma risk_fold (l : list Dataset) (acc : DatasetService.risk_counts) :
  let r := fold_left DatasetService.risk_step l acc in
  DatasetService.High r
    = DatasetService.High acc + count_where (fun x => 3 <=? dependencies x) l /\
  DatasetService.Medium r
    = DatasetService.Medium acc
      + count_where (fun x => (1 <=? dependencies x) && (dependencies x <? 3)) l /\
  DatasetService.Low r
    = DatasetService.Low acc + count_where (fun x => dependencies x <? 1) l.
Proof.
  revert acc. induction l as [|x l IH]; intros acc.
  - cbn. unfold count_where. cbn. lia.
  - cbn [fold_left]. specialize (IH (DatasetService.risk_step acc x)).
    cbn zeta in IH. destruct IH as (H1 & H2 & H3).
    cbn zeta. rewrite H1, H2, H3. clear H1 H2 H3.
    unfold count_where, DatasetService.risk_step, DatasetService.risk_of.
    cbn [List.filter].
    destruct (3 <=? dependencies x) eqn:E3;
      destruct (1 <=? dependencies x) eqn:E1;
      destruct (dependencies x <? 3) eqn:L3;
      destruct (dependencies x <? 1) eqn:L1;
      try (exfalso; lia);
      cbn [DatasetService.High DatasetService.Medium DatasetService.Low
           andb List.length];
      lia.
Qed.

Lemma risk_counts_total (l : list Dataset) :
  count_where (fun x => 3 <=? dependencies x) l
  + count_where (fun x => (1 <=? dependencies x) && (dependencies x <? 3)) l
  + count_where (fun x => dependencies x <? 1) l
  = Z.of_nat (List.length l).
Proof.
  unfold count_where. induction l as [|x l IH]; [reflexivity|].
  cbn [List.filter List.length].
  destruct (3 <=? dependencies x) eqn:E3;
    destruct (1 <=? dependencies x) eqn:E1;
    destruct (dependencies x <? 3) eqn:L3;
    destruct (dependencies x <? 1) eqn:L1;
    try (exfalso; lia); cbn [andb List.length]; lia.
Qed.

(** C7.  [get_dependency_analysis] puts every dataset of the snapshot into
    exactly one bucket: High counts the datasets with dependencies >= 3,
    Medium those with 1 <= dependencies < 3, Low the others (dependencies
    == 0, and the negative values the constructor lets through); the
    three counts add up to the size of the snapshot. *)
Theorem risk_buckets_partition (repository : DatasetRepository.t) :
  let r := DatasetService.risk_levels
             (DatasetService.get_dependency_analysis repository) in
  DatasetService.High r
    = count_where (fun x => 3 <=? dependencies x) repository /\
  DatasetService.Medium r
    = count_where (fun x => (1 <=? dependencies x) && (dependencies x <? 3))
        repository /\
  DatasetService.Low r = count_where (fun x => dependencies x <? 1) repository /\
  DatasetService.High r + DatasetService.Medium r + DatasetService.Low r
    = Z.of_nat (List.length repository) /\
  forall x : Dataset,
    (3 <= dependencies x -> DatasetService.risk_of x = DatasetService.RiskHigh) /\
    (1 <= dependencies x < 3 ->
       DatasetService.risk_of x = DatasetService.RiskMedium) /\
    (dependencies x = 0 -> DatasetService.risk_of x = DatasetService.RiskLow).
Proof.
  cbn zeta. unfold DatasetService.get_dependency_analysis.
  cbn [DatasetService.risk_levels]. unfold DatasetRepository.get_all.
  destruct (risk_fold repository (DatasetService.mkRisk 0 0 0)) as (H1 & H2 & H3).
  cbn [DatasetService.High DatasetService.Medium DatasetService.Low] in *.
  rewrite H1, H2, H3. repeat split; try lia.
  - cbn. apply risk_counts_total.
  - intros H. unfold DatasetService.risk_of.
    destruct (3 <=? dependencies x) eqn:E; [reflexivity|lia].
  - intros H. unfold DatasetService.risk_of.
    destruct (3 <=? dependencies x) eqn:E; [lia|].
    destruct (1 <=? dependencies x) eqn:E'; [reflexivity|lia].
  - intros H. unfold DatasetService.risk_of. now rewrite H.
Qed.

(** ** Phishing surge *)

Lemma us_per_day_eq : us_per_day = 86400000000.
Proof. reflexivity. Qed.

Lemma max_datetime_eq : max_datetime = 315537897599999999.
Proof. reflexivity. Qed.

(** the four date computations of the analysis succeed when the window
    start is representable *)
Lemma surge_dates_in_range (now : datetime) (days : Z) :
  0 < days -> valid_datetime now -> 0 <= now - days * 2 * us_per_day ->
  timedelta_days days = Ok (days * us_per_day) /\
  timedelta_days (days * 2) = Ok (days * 2 * us_per_day) /\
  datetime_sub now (days * us_per_day) = Ok (now - days * us_per_day) /\
  datetime_sub now (days * 2 * us_per_day) = Ok (now - days * 2 * us_per_day).
Proof.
  intros Hd [Hn0 Hn1] Hw. unfold timedelta_days, datetime_sub. cbv zeta.
  rewrite max_datetime_eq, ?us_per_day_eq in *.
  rewrite (proj2 (Z.leb_le (Z.abs days) 999999999)) by lia.
  rewrite (proj2 (Z.leb_le (Z.abs (days * 2)) 999999999)) by lia.
  rewrite (proj2 (Z.leb_le 0 (now - days * 86400000000))) by lia.
  rewrite (proj2 (Z.leb_le (now - days * 86400000000) _)) by lia.
  rewrite (proj2 (Z.leb_le 0 (now - days * 2 * 86400000000))) by lia.
  rewrite (proj2 (Z.leb_le (now - days * 2 * 86400000000) _)) by lia.
  repeat split; reflexivity.
Qed.

(** C2 (as amended).  For every snapshot and every positive [days] whose
    window start [now - 2*days] is a representable datetime (not before
    0001-01-01), the analysis counts as recent the Phishing incidents
    with [date >= now - days], as previous those with
    [now - 2*days <= date < now - days], and returns the two counts with
    [(recent - previous) / max(previous, 1) * 100].  An incident dated
    exactly [now - days] is recent and not previous, and no incident is in
    both windows. *)
Theorem surge_windows (repository : SecurityIncidentRepository.t)
    (now : datetime) (days : Z) :
  0 < days -> valid_datetime now -> 0 <= now - days * 2 * us_per_day ->
  SecurityIncidentService.get_phishing_surge_analysis repository now days
    = claimed_surge repository now days /\
  (fits_float (Z.of_nat (List.length repository)) ->
   exists q,
     SecurityIncidentService.get_phishing_surge_analysis repository now days
     = Ok (SecurityIncidentService.mkSurge
             (Z.of_nat (List.length
                          (List.filter (in_recent_window now days) repository)))
             (Z.of_nat (List.length
                          (List.filter (in_previous_window now days) repository)))
             (fmul q (of_Z 100)))) /\
  (forall inc,
     Incident.threat_category inc = "Phishing"%string ->
     Incident.date inc = now - days * us_per_day ->
     in_recent_window now days inc = true /\
     in_previous_window now days inc = false) /\
  (forall inc,
     in_recent_window now days inc && in_previous_window now days inc = false).
Proof.
  intros Hd [Hn0 Hn1] Hw.
  assert (Heq : SecurityIncidentService.get_phishing_surge_analysis
                  repository now days = claimed_surge repository now days).
  { pose proof (surge_dates_in_range now days Hd (conj Hn0 Hn1) Hw)
      as (E1 & E2 & E3 & E4).
    unfold SecurityIncidentService.get_phishing_surge_analysis.
    rewrite E1. cbn [bind]. rewrite E3. cbn [bind].
    rewrite E2. cbn [bind]. rewrite E4. cbn [bind]. reflexivity. }
  split; [exact Heq|]. split; [|split].
  - intros Hlen. rewrite Heq. unfold claimed_surge, surge_of_counts.
    pose proof (List.filter_length_le (in_recent_window now days) repository).
    pose proof (List.filter_length_le (in_previous_window now days) repository).
    destruct (int_true_div_returns
                (Z.of_nat (List.length
                             (List.filter (in_recent_window now days) repository))
                 - Z.of_nat (List.length
                               (List.filter (in_previous_window now days)
                                  repository)))
                (Z.max (Z.of_nat (List.length
                                    (List.filter (in_previous_window now days)
                                       repository))) 1))
      as [q Hq]; [lia|unfold fits_float in *; lia|].
    rewrite Hq. cbn [bind]. exists q. reflexivity.
  - intros inc Hc Hdate. unfold in_recent_window, in_previous_window.
    rewrite Hc, Hdate. cbn [String.eqb Ascii.eqb Bool.eqb andb].
    rewrite Z.leb_refl, Z.ltb_irrefl, andb_false_r. now split.
  - intros inc. unfold in_recent_window, in_previous_window.
    destruct (String.eqb _ _); [|reflexivity]. cbn [andb].
    destruct (Z.leb_spec (now - days * us_per_day) (Incident.date inc));
      [|reflexivity].
    destruct (Z.ltb_spec (Incident.date inc) (now - days * us_per_day));
      [lia|]. now rewrite andb_false_r.
Qed.

Lemma surge_windows_witness :
  SecurityIncidentService.get_phishing_surge_analysis
    [Incident.mkIncident (a_clock_reading - 7 * us_per_day)
       "Phishing" "High" "Unresolved" None]
    a_clock_reading 7
  = Ok (SecurityIncidentService.mkSurge 1 0 (of_Z 100)).
Proof.
  destruct (surge_windows
              [Incident.mkIncident (a_clock_reading - 7 * us_per_day)
                 "Phishing" "High" "Unresolved" None]
              a_clock_reading 7) as [H _].
  - reflexivity.
  - unfold valid_datetime. rewrite max_datetime_eq. unfold a_clock_reading. lia.
  - rewrite us_per_day_eq. unfold a_clock_reading. lia.
  - rewrite H. vm_compute. reflexivity.
Defined.

(** C2, the claim as written fails for a positive [days] that reaches
    before the first representable datetime: with [days = 400000] the
    call raises [OverflowError] where the claim promises a result. *)
Lemma surge_overflows_for_large_days :
  0 < 400000 /\ valid_datetime a_clock_reading /\
  SecurityIncidentService.get_phishing_surge_analysis [] a_clock_reading 400000
    = Raise OverflowError /\
  claimed_surge [] a_clock_reading 400000
    = Ok (SecurityIncidentService.mkSurge 0 0 zero).
Proof.
  split; [reflexivity|]. split.
  - unfold valid_datetime. rewrite max_datetime_eq. unfold a_clock_reading. lia.
  - split; vm_compute; reflexivity.
Qed.

(** ** [get_all] and object identity *)

Lemma list_copy_fresh {E : Type} (xs : Heap.loc) (h : Heap.heap E)
    (items : list Heap.loc) :
  Heap.lists h !! xs = Some items ->
  exists r,
    Heap.list_copy xs h
      = Some (r, Heap.mkHeap (<[r := items]> (Heap.lists h)) (Heap.objects h)) /\
    Heap.lists h !! r = None /\ r <> xs.
Proof.
  intros H. unfold Heap.list_copy. rewrite H.
  exists (fresh (dom (Heap.lists h))).
  assert (Hf : Heap.lists h !! fresh (dom (Heap.lists h)) = None).
  { apply not_elem_of_dom, is_fresh. }
  split; [reflexivity|]. split; [assumption|].
  intros Heq. rewrite Heq in Hf. congruence.
Qed.

(** C10.  [get_all] returns a new list object with the items of the
    snapshot: its address was unused and differs from the snapshot's, its
    items are the very references the snapshot holds, and the heap is
    otherwise unchanged.  Appending to or deleting from the returned list
    leaves the snapshot as it was; an entity written through the returned
    list is seen changed through the snapshot, for both lists hold the
    same object; the next call returns yet another list object. *)
Theorem get_all_shallow_copy {E : Type} (self : Heap.repository)
    (h : Heap.heap E) (items : list Heap.loc) :
  Heap.lists h !! Heap.snapshot self = Some items ->
  exists r h',
    Heap.get_all self h = Some (r, h') /\
    r <> Heap.snapshot self /\
    Heap.lists h !! r = None /\
    Heap.lists h' !! r = Some items /\
    Heap.lists h' !! Heap.snapshot self = Some items /\
    Heap.objects h' = Heap.objects h /\
    (forall x h'', Heap.list_append r x h' = Some h'' ->
       Heap.lists h'' !! r = Some (items ++ [x]) /\
       Heap.lists h'' !! Heap.snapshot self = Some items /\
       Heap.objects h'' = Heap.objects h) /\
    (forall i h'', Heap.list_delete r i h' = Some h'' ->
       Heap.lists h'' !! r = Some (firstn i items ++ skipn (S i) items) /\
       Heap.lists h'' !! Heap.snapshot self = Some items /\
       Heap.objects h'' = Heap.objects h) /\
    (forall i o f h'', nth_error items i = Some o ->
       Heap.object_write o f h' = Some h'' ->
       Heap.read_item (Heap.snapshot self) i h''
         = option_map f (Heap.objects h !! o) /\
       Heap.read_item r i h'' = Heap.read_item (Heap.snapshot self) i h'') /\
    (forall r2 h2, Heap.get_all self h' = Some (r2, h2) ->
       r2 <> r /\ r2 <> Heap.snapshot self /\
       Heap.lists h2 !! r2 = Some items).
Proof.
  intros H. destruct (list_copy_fresh _ _ _ H) as (r & Hc & Hf & Hne).
  exists r. eexists. split; [exact Hc|].
  cbn [Heap.lists Heap.objects].
  assert (Hr : <[r := items]> (Heap.lists h) !! r = Some items)
    by apply lookup_insert_eq.
  assert (Hs : <[r := items]> (Heap.lists h) !! Heap.snapshot self = Some items).
  { rewrite lookup_insert_ne by assumption. exact H. }
  repeat split; try assumption.
  - unfold Heap.list_append in H0. cbn [Heap.lists Heap.objects] in H0.
    rewrite Hr in H0. injection H0 as <-. cbn. apply lookup_insert_eq.
  - unfold Heap.list_append in H0. cbn [Heap.lists Heap.objects] in H0.
    rewrite Hr in H0. injection H0 as <-. cbn.
    rewrite lookup_insert_ne by assumption. exact Hs.
  - unfold Heap.list_append in H0. cbn [Heap.lists Heap.objects] in H0.
    rewrite Hr in H0. injection H0 as <-. reflexivity.
  - unfold Heap.list_delete in H0. cbn [Heap.lists Heap.objects] in H0.
    rewrite Hr in H0. destruct (Nat.ltb i (List.length items)); [|discriminate].
    injection H0 as <-. cbn. apply lookup_insert_eq.
  - unfold Heap.list_delete in H0. cbn [Heap.lists Heap.objects] in H0.
    rewrite Hr in H0. destruct (Nat.ltb i (List.length items)); [|discriminate].
    injection H0 as <-. cbn. rewrite lookup_insert_ne by assumption. exact Hs.
  - unfold Heap.list_delete in H0. cbn [Heap.lists Heap.objects] in H0.
    rewrite Hr in H0. destruct (Nat.ltb i (List.length items)); [|discriminate].
    injection H0 as <-. reflexivity.
  - unfold Heap.object_write in H1. cbn [Heap.lists Heap.objects] in H1.
    destruct (Heap.objects h !! o) as [v|] eqn:Ho; [|discriminate].
    injection H1 as <-. unfold Heap.read_item. cbn [Heap.lists Heap.objects].
    rewrite Hs, H0. cbn. apply lookup_insert_eq.
  - unfold Heap.object_write in H1. cbn [Heap.lists Heap.objects] in H1.
    destruct (Heap.objects h !! o) as [v|] eqn:Ho; [|discriminate].
    injection H1 as <-. unfold Heap.read_item. cbn [Heap.lists Heap.objects].
    now rewrite Hs, Hr.
  - intros Heq. subst r2.
    destruct (list_copy_fresh (Heap.snapshot self)
                (Heap.mkHeap (<[r := items]> (Heap.lists h)) (Heap.objects h))
                items Hs) as (r' & Hc' & Hf' & _).
    unfold Heap.get_all in H0. rewrite Hc' in H0. injection H0 as -> _.
    cbn [Heap.lists] in Hf'. congruence.
  - destruct (list_copy_fresh (Heap.snapshot self)
                (Heap.mkHeap (<[r := items]> (Heap.lists h)) (Heap.objects h))
                items Hs) as (r' & Hc' & _ & Hne').
    unfold Heap.get_all in H0. rewrite Hc' in H0. injection H0 as -> _.
    assumption.
  - destruct (list_copy_fresh (Heap.snapshot self)
                (Heap.mkHeap (<[r := items]> (Heap.lists h)) (Heap.objects h))
                items Hs) as (r' & Hc' & _ & _).
    unfold Heap.get_all in H0. rewrite Hc' in H0. injection H0 as -> <-.
    cbn. apply lookup_insert_eq.
Qed.

Lemma get_all_shallow_copy_witness :
  exists r h',
    Heap.get_all (Heap.mkRepository 1%positive) two_entities = Some (r, h') /\
    r <> 1%positive /\
    Heap.lists h' !! 1%positive = Some [5%positive; 6%positive].
Proof.
  destruct (get_all_shallow_copy (Heap.mkRepository 1%positive) two_entities
              [5%positive; 6%positive])
    as (r & h' & H1 & H2 & _ & _ & H5 & _).
  - apply lookup_insert_eq.
  - exists r, h'. auto.
Defined.

(** ** Top-n queries *)

Lemma StronglySorted_weaken {A : Type} (R R' : A -> A -> Prop) (l : list A) :
  (forall x y, In x l -> In y l -> R x y -> R' x y) ->
  StronglySorted R l -> StronglySorted R' l.
Proof.
  intros HR Hs. induction Hs as [|a l Hs IH Ha]; constructor.
  - apply IH. intros x y Hx Hy. apply HR; now right.
  - rewrite Forall_forall in *. intros y Hy.
    apply HR; [now left|now right|now apply Ha].
Qed.

Lemma slice_to_firstn {A : Type} (l : list A) (n : Z) :
  slice_to l n = firstn (slice_count n (List.length l)) l.
Proof.
  unfold slice_to, slice_count. destruct (0 <=? n); [|reflexivity].
  destruct (Nat.le_ge_cases (Z.to_nat n) (List.length l)) as [H|H].
  - now rewrite Nat.min_l.
  - rewrite Nat.min_r by assumption. rewrite !firstn_all2; auto.
Qed.

Lemma slice_count_le (n : Z) (len : nat) : (slice_count n len <= len)%nat.
Proof. unfold slice_count. destruct (Z.leb_spec 0 n); lia. Qed.

(** What [sorted(l, key=key, reverse=True)[:n]] returns when the keys are
    numbers. *)
Lemma sorted_slice_top_n {A : Type} (key : A -> float) (l : list A) (n : Z) :
  Forall (fun x => is_nan (key x) = false) l ->
  top_n_by key (slice_count n (List.length l)) l
    (slice_to (sorted key flt true l) n).
Proof.
  intros Hnum. rewrite slice_to_firstn.
  set (s := sorted key flt true l).
  assert (Hperm : Permutation s l) by apply sorted_perm.
  rewrite (Permutation_length Hperm).
  set (m := slice_count n (List.length l)).
  assert (Hnum' : forall x, In x s -> is_nan (key x) = false).
  { intros x Hx. rewrite Forall_forall in Hnum. apply Hnum.
    now apply (Permutation_in _ Hperm). }
  assert (Hdesc : descending key flt s).
  { apply (sorted_descending key flt (fun k => is_nan k = false)).
    - apply flt_asym.
    - intros a b c Ha Hb Hc. now apply flt_negtrans.
    - assumption. }
  destruct (descending_firstn_skipn key flt m s Hdesc) as [Hd1 Hd2].
  exists (skipn m s). repeat split.
  - now rewrite firstn_skipn.
  - rewrite length_firstn, (Permutation_length Hperm).
    pose proof (slice_count_le n (List.length l)). fold m in H. lia.
  - unfold descending_by.
    apply (StronglySorted_weaken
             (fun x y => flt (key x) (key y) = false)); [|exact Hd1].
    intros x y Hx Hy H. apply flt_false_fle; auto.
    + apply Hnum'. now apply (in_firstn_in m).
    + apply Hnum'. now apply (in_firstn_in m).
  - intros x y Hx Hy. apply flt_false_fle.
    + apply Hnum'. now apply (in_firstn_in m).
    + apply Hnum'. now apply (in_skipn_in m).
    + now apply Hd2.
  - intros k. rewrite <- (with_key_firstn key feq k m s).
    symmetry. apply sorted_with_key. apply flt_feq_compat.
Qed.

Lemma score_missing_scored (ds : list Dataset) :
  Forall scorable ds ->
  DatasetRepository.score_missing ds = (Ok tt, map scored ds).
Proof.
  induction 1 as [|d ds Hd Hds IH]; [reflexivity|].
  cbn [DatasetRepository.score_missing map]. unfold scored at 1.
  destruct (archive_score d) eqn:E.
  - now rewrite IH.
  - destruct (Hd E) as [v Hv]. unfold calculate_archive_score.
    rewrite Hv. now rewrite IH.
Qed.

(** integer fields inside the float range make a dataset scorable *)
Lemma fits_float_scorable (d : Dataset) :
  fits_float (days_since_access d) -> fits_float (access_frequency_30d d) ->
  fits_float (dependencies d) -> scorable d.
Proof. intros H1 H2 H3 _. now apply archive_score_expr_returns. Qed.

Lemma scored_has_score (d : Dataset) :
  scorable d -> exists v, archive_score (scored d) = Some v.
Proof.
  intros H. unfold scored. destruct (archive_score d) as [v|] eqn:E.
  - exists v. exact E.
  - destruct (H E) as [v Hv]. exists v. unfold calculate_archive_score.
    now rewrite Hv.
Qed.

Lemma archive_key_is_score (d : Dataset) (v : float) :
  archive_score d = Some v -> is_nan v = false ->
  feq (DatasetRepository.archive_key d) v = true.
Proof.
  intros E Hv. unfold DatasetRepository.archive_key. rewrite E.
  unfold truthy. destruct (feq v zero) eqn:Ez; cbn [negb].
  - apply feq_true in Ez. apply feq_true. destruct Ez as (_ & _ & Ez).
    repeat split; auto.
  - apply feq_true. repeat split; auto.
Qed.

Lemma score_missing_length (ds : list Dataset) :
  List.length (snd (DatasetRepository.score_missing ds)) = List.length ds.
Proof.
  induction ds as [|d ds IH]; [reflexivity|].
  cbn [DatasetRepository.score_missing].
  destruct (archive_score d).
  - destruct (DatasetRepository.score_missing ds) as [r rest]. cbn in *. now rewrite IH.
  - destruct (calculate_archive_score d) as [[v|e] d'].
    + destruct (DatasetRepository.score_missing ds) as [r rest]. cbn in *.
      now rewrite IH.
    + reflexivity.
Qed.

Lemma top_n_queries_general (self : DatasetRepository.t) (n : Z) :
  (Forall (fun d => is_nan (size_gb d) = false) self ->
   top_n_by size_gb (slice_count n (List.length self)) self
     (DatasetRepository.get_top_consumers self n)) /\
  (Forall scorable self ->
   Forall (fun d => is_nan (DatasetRepository.archive_key d) = false)
     (map scored self) ->
   exists r,
     DatasetRepository.get_archive_candidates self n = (Ok r, map scored self) /\
     top_n_by DatasetRepository.archive_key (slice_count n (List.length self))
       (map scored self) r /\
     forall d, In d (map scored self) ->
       exists v, archive_score d = Some v /\
                 (is_nan v = false ->
                  feq (DatasetRepository.archive_key d) v = true)).
Proof.
  split.
  - intros Hnum. unfold DatasetRepository.get_top_consumers.
    now apply sorted_slice_top_n.
  - intros Hsc Hnum. unfold DatasetRepository.get_archive_candidates.
    rewrite (score_missing_scored self Hsc).
    eexists. split; [reflexivity|]. split.
    + rewrite <- (length_map scored self). now apply sorted_slice_top_n.
    + intros d Hd. apply in_map_iff in Hd as (d0 & <- & Hd0).
      rewrite Forall_forall in Hsc.
      destruct (scored_has_score d0 (Hsc d0 Hd0)) as [v Hv].
      exists v. split; [assumption|]. now apply archive_key_is_score.
Qed.

(** C8 (as amended).  When the sizes are numbers, [get_top_consumers(n)]
    returns the top [n] datasets by [size_gb] from the largest down,
    equal sizes in snapshot order; when every dataset without a score
    can be scored and the scores are numbers, [get_archive_candidates(n)]
    gives every dataset a score and returns the top [n] by
    [archive_score] from the largest down, equal scores in snapshot
    order.  A negative [n] keeps all but the last [|n|] of the sorted
    list.  For the sizes 500, 100, 500, 50 in that order
    [get_top_consumers(2)] returns the first and the third dataset, in
    that order. *)
Theorem top_n_queries_stable :
  (forall (self : DatasetRepository.t) (n : Z),
     (Forall (fun d => is_nan (size_gb d) = false) self ->
      top_n_by size_gb (slice_count n (List.length self)) self
        (DatasetRepository.get_top_consumers self n)) /\
     (Forall scorable self ->
      Forall (fun d => is_nan (DatasetRepository.archive_key d) = false)
        (map scored self) ->
      exists r,
        DatasetRepository.get_archive_candidates self n
          = (Ok r, map scored self) /\
        top_n_by DatasetRepository.archive_key
          (slice_count n (List.length self)) (map scored self) r /\
        forall d, In d (map scored self) ->
          exists v, archive_score d = Some v /\
                    (is_nan v = false ->
                     feq (DatasetRepository.archive_key d) v = true))) /\
  (forall (n : Z) (len : nat),
     0 <= n -> slice_count n len = Nat.min (Z.to_nat n) len) /\
  map name (DatasetRepository.get_top_consumers four_sizes 2)
    = ["first"; "third"]%string.
Proof.
  split; [exact top_n_queries_general|]. split.
  - intros n len Hn. unfold slice_count. now rewrite (proj2 (Z.leb_le 0 n)).
  - vm_compute. reflexivity.
Qed.

Lemma top_n_queries_stable_witness :
  top_n_by size_gb 2 four_sizes (DatasetRepository.get_top_consumers four_sizes 2) /\
  exists r,
    DatasetRepository.get_archive_candidates four_sizes 2
      = (Ok r, map scored four_sizes) /\
    top_n_by DatasetRepository.archive_key 2 (map scored four_sizes) r.
Proof.
  destruct (proj1 top_n_queries_stable four_sizes 2) as [H1 H2].
  split.
  - apply H1. repeat constructor.
  - destruct H2 as (r & Hr & Htop & _).
    + repeat constructor; intros _; eexists; vm_compute; reflexivity.
    + repeat constructor.
    + exists r. split; assumption.
Defined.

(** C8, the claim as written fails on a snapshot that holds a size that
    is not a number.  The constructor accepts a NaN size ([nan < 0] is
    false); with the sizes 1, NaN, 2 no neighbouring pair of the reversed
    list is out of order for [<], the sort leaves it as it is, and
    [get_top_consumers(1)] returns the dataset of size 1 although one of
    size 2 is in the snapshot.  And [get_archive_candidates] raises
    [OverflowError] on a dataset whose missing score cannot be
    computed. *)
Lemma top_n_fails_on_nan_size :
  new_Dataset "odd" "Finance" S754_nan zero 0 0 0 "Passed" 0 0 zero None
    = Ok (sized_as "odd" S754_nan) /\
  map name (DatasetRepository.get_top_consumers sizes_with_nan 1)
    = ["small"%string] /\
  flt (size_gb (sized_as "small" (of_Z 1))) (size_gb (sized_as "large" (of_Z 2)))
    = true /\
  In (sized_as "large" (of_Z 2)) sizes_with_nan /\
  fst (DatasetRepository.get_archive_candidates [ancient] 1)
    = Raise OverflowError.
Proof.
  split; [reflexivity|]. split; [vm_compute; reflexivity|].
  split; [vm_compute; reflexivity|]. split; [right; right; now left|].
  vm_compute. reflexivity.
Qed.

(** ** Grouping loops and means *)

Lemma fold_left_snoc {X : Type} (xs acc : list X) :
  fold_left (fun l x => l ++ [x]) xs acc = acc ++ xs.
Proof.
  revert acc. induction xs as [|x xs IH]; intros acc; cbn.
  - now rewrite app_nil_r.
  - rewrite IH, <- app_assoc. reflexivity.
Qed.

Lemma vals_of_map {E X : Type} (keyf : E -> string) (valf : E -> X)
    (c : string) (l : list E) :
  vals_of c (map (fun e => (keyf e, valf e)) l)
  = map valf (List.filter (fun e => String.eqb (keyf e) c) l).
Proof.
  unfold vals_of. induction l as [|e l IH]; [reflexivity|]. cbn.
  destruct (String.eqb (keyf e) c); cbn; now rewrite IH.
Qed.

Lemma fold_left_map {E X B : Type} (f : B -> X -> B) (g : E -> X)
    (l : list E) (acc : B) :
  fold_left f (map g l) acc = fold_left (fun a e => f a (g e)) l acc.
Proof.
  revert acc. induction l as [|e l IH]; intros acc; [reflexivity|]. cbn. apply IH.
Qed.

(** The grouping loop followed by the dictionary comprehension of the
    averages computes the per-key means. *)
Lemma group_then_average {E : Type} (keyf : E -> string) (valf : E -> float)
    (l : list E) :
  map (fun '(c, times) => (c, mean times))
      (fold_left
         (fun d e => dict_accum [] (fun times x => times ++ [x]) d (keyf e) (valf e))
         l [])
  = means_by keyf valf l.
Proof.
  rewrite <- (fold_left_map
                (fun d kv => dict_accum [] (fun times x => times ++ [x]) d
                               (fst kv) (snd kv))
                (fun e => (keyf e, valf e))).
  rewrite fold_dict_accum. unfold grouped, means_by.
  rewrite (map_map (fun e => (keyf e, valf e)) fst). cbn [fst].
  rewrite map_map. apply map_ext. intros c.
  rewrite fold_left_snoc. cbn [app]. now rewrite vals_of_map.
Qed.

Lemma means_by_nonempty {E : Type} (keyf : E -> string) (valf : E -> float)
    (l : list E) :
  l <> [] -> means_by keyf valf l <> [].
Proof. destruct l; [congruence|]. intros _. discriminate. Qed.

Lemma is_empty_false {A : Type} (l : list A) : l <> [] -> is_empty l = false.
Proof. destruct l; [congruence|reflexivity]. Qed.

Lemma py_max_entry (d : dict float) :
  d <> [] ->
  exists c m, py_max snd d = Ok (c, m) /\ is_max_entry d c m.
Proof.
  intros H. destruct (py_max_spec snd d H) as ([c m] & Hr & Hin & Hmax).
  exists c, m. split; [assumption|]. split; [assumption|].
  intros c' m' Hin'. exact (Hmax (c', m') Hin').
Qed.

(** ** Resolution bottleneck *)

Lemma category_loop (l : list Incident.SecurityIncident) (acc : dict (list float)) :
  fold_left SecurityIncidentService.category_step l acc
  = fold_left
      (fun d e => dict_accum [] (fun times x => times ++ [x]) d
                    (Incident.threat_category e) (time_of e))
      (List.filter SecurityIncidentService.has_truthy_time l) acc.
Proof.
  revert acc. induction l as [|inc l IH]; intros acc; [reflexivity|].
  cbn [fold_left List.filter]. rewrite IH.
  assert (Hstep : SecurityIncidentService.category_step acc inc
                  = if SecurityIncidentService.has_truthy_time inc
                    then dict_accum [] (fun times x => times ++ [x]) acc
                           (Incident.threat_category inc) (time_of inc)
                    else acc).
  { unfold SecurityIncidentService.category_step,
      SecurityIncidentService.has_truthy_time, time_of.
    destruct (Incident.resolution_time_hours inc) as [t|]; reflexivity. }
  rewrite Hstep.
  destruct (SecurityIncidentService.has_truthy_time inc); reflexivity.
Qed.

Lemma considered_resolved (repository : SecurityIncidentRepository.t) :
  List.filter SecurityIncidentService.has_truthy_time
    (SecurityIncidentRepository.get_resolved repository)
  = considered repository.
Proof.
  unfold SecurityIncidentRepository.get_resolved, considered.
  induction repository as [|inc l IH]; [reflexivity|]. cbn [List.filter].
  destruct (String.eqb (Incident.status inc) "Resolved"); cbn [andb List.filter];
    [|exact IH].
  destruct (SecurityIncidentService.has_truthy_time inc); now rewrite IH.
Qed.

(** C6, what the code computes.  [get_resolution_bottleneck] uses
    exactly the incidents with status "Resolved" whose resolution time is
    present and not zero: the loop tests the truthiness of the field,
    where the constructor tests [is None].  When there is none it returns
    [None], without raising.
    Otherwise it returns the per-category arithmetic means of their
    resolution times, one entry per category in order of first
    occurrence, together with a category of that mapping whose mean no
    other category exceeds. *)
Theorem resolution_bottleneck_spec (repository : SecurityIncidentRepository.t) :
  (considered repository = [] ->
   SecurityIncidentService.get_resolution_bottleneck repository = Ok None) /\
  (considered repository <> [] ->
   exists c m,
     SecurityIncidentService.get_resolution_bottleneck repository
     = Ok (Some (SecurityIncidentService.mkBottleneck c m
                   (means_by Incident.threat_category time_of
                      (considered repository)))) /\
     is_max_entry
       (means_by Incident.threat_category time_of (considered repository)) c m).
Proof.
  unfold SecurityIncidentService.get_resolution_bottleneck.
  pose proof (considered_resolved repository) as Hc.
  pose proof (group_then_average Incident.threat_category time_of
                (considered repository)) as Hg.
  rewrite <- Hc in Hg at 1. rewrite <- category_loop in Hg.
  split.
  - intros Hnil.
    destruct (SecurityIncidentRepository.get_resolved repository) as [|i r] eqn:Er;
      [reflexivity|]. cbn [is_empty].
    rewrite Hnil in Hg.
    change (means_by Incident.threat_category time_of [])
      with (@nil (string * float)) in Hg.
    destruct (fold_left SecurityIncidentService.category_step (i :: r) []);
      [reflexivity|discriminate].
  - intros Hne.
    destruct (SecurityIncidentRepository.get_resolved repository) as [|i r] eqn:Er.
    { cbn in Hc. congruence. }
    cbn [is_empty].
    pose proof (means_by_nonempty Incident.threat_category time_of _ Hne) as Hm.
    destruct (fold_left SecurityIncidentService.category_step (i :: r) [])
      as [|e ct] eqn:Ef.
    { cbn [map] in Hg. congruence. }
    cbn [is_empty]. rewrite Hg.
    destruct (py_max_entry _ Hm) as (c & m & Hmax & Hentry).
    rewrite Hmax. cbn [bind fst snd]. exists c, m. split; [reflexivity|assumption].
Qed.

(** C6, the code departs from the specification: a resolved incident
    whose resolution time is present but zero is left out.  Alone it
    yields [None] where the specification reports its category; next to
    a 10-hour incident of the same category the reported mean is 10,
    not 5. *)
Lemma zero_resolution_time_is_skipped :
  claimed_considered [resolved_incident "Malware" zero] <> [] /\
  SecurityIncidentService.get_resolution_bottleneck
    [resolved_incident "Malware" zero] = Ok None /\
  SecurityIncidentService.get_resolution_bottleneck
    [resolved_incident "Malware" zero; resolved_incident "Malware" (of_Z 10)]
  = Ok (Some (SecurityIncidentService.mkBottleneck "Malware" (of_Z 10)
                [("Malware"%string, of_Z 10)])) /\
  claimed_bottleneck
    [resolved_incident "Malware" zero; resolved_incident "Malware" (of_Z 10)]
  = Ok (Some (SecurityIncidentService.mkBottleneck "Malware" (of_Z 5)
                [("Malware"%string, of_Z 5)])).
Proof.
  split; [discriminate|]. repeat split; vm_compute; reflexivity.
Qed.

(** ** Staff performance *)

Lemma staff_performance_general (repository : ITTicketRepository.t) :
  resolved_tickets repository <> [] ->
  exists s m,
    ITTicketService.get_staff_performance repository
    = Ok (ITTicketService.mkStaffReport
            (staff_means repository)
            (Some (ITTicketService.mkGap s m
                     (mean (values (staff_means repository)))
                     (fsub m (mean (values (staff_means repository))))
                     (if fgt (mean (values (staff_means repository))) zero
                      then fmul (fdiv (fsub m (mean (values (staff_means repository))))
                                      (mean (values (staff_means repository))))
                                (of_Z 100)
                      else zero)))
            (Some (mean (values (staff_means repository))))) /\
    is_max_entry (staff_means repository) s m.
Proof.
  intros Hne. unfold ITTicketService.get_staff_performance.
  unfold ITTicketRepository.get_resolved. fold (resolved_tickets repository).
  rewrite (is_empty_false _ Hne).
  rewrite (group_then_average Ticket.assigned_staff
             Ticket.total_resolution_time_hours (resolved_tickets repository)).
  fold (staff_means repository).
  assert (Hm : staff_means repository <> []) by now apply means_by_nonempty.
  rewrite (is_empty_false _ Hm).
  destruct (py_max_entry _ Hm) as (s & m & Hmax & Hentry).
  rewrite Hmax. cbn [bind fst snd]. exists s, m. split; [reflexivity|assumption].
Qed.

Lemma length_distinct_le (l : list string) :
  (List.length (distinct l) <= List.length l)%nat.
Proof.
  induction l as [|x l IH]; [reflexivity|]. cbn [distinct List.length].
  pose proof (List.filter_length_le (fun y => negb (String.eqb x y)) (distinct l)).
  lia.
Qed.

Lemma filter_key_nonempty {E : Type} (keyf : E -> string) (l : list E) (c : string) :
  In c (map keyf l) -> List.filter (fun e => String.eqb (keyf e) c) l <> [].
Proof.
  intros H. apply in_map_iff in H as (e & <- & He).
  intros Hnil.
  assert (Hin : In e (List.filter (fun e' => String.eqb (keyf e') (keyf e)) l)).
  { apply List.filter_In. split; [assumption|apply String.eqb_refl]. }
  now rewrite Hnil in Hin.
Qed.

(** Means of non-negative hours are non-negative numbers. *)
Lemma means_by_nonneg {E : Type} (keyf : E -> string) (valf : E -> float)
    (l : list E) :
  fits_float (Z.of_nat (List.length l)) ->
  Forall (fun e => nonneg (valf e) = true) l ->
  Forall (fun x => nonneg x = true) (values (means_by keyf valf l)).
Proof.
  intros Hlen Hl. unfold values, means_by. rewrite map_map. cbn [snd].
  apply Forall_forall. intros x Hx. apply in_map_iff in Hx as (c & <- & Hc).
  apply (proj1 (In_distinct c (map keyf l))) in Hc.
  pose proof (List.filter_length_le (fun e => String.eqb (keyf e) c) l) as Hle.
  apply mean_nonneg.
  - intros Hnil. apply map_eq_nil in Hnil.
    exact (filter_key_nonempty keyf l c Hc Hnil).
  - rewrite length_map. unfold fits_float in *. lia.
  - apply Forall_map. apply Forall_forall. intros e He.
    apply List.filter_In in He as [He _]. rewrite Forall_forall in Hl. now apply Hl.
Qed.

Lemma team_average_nonneg (repository : ITTicketRepository.t) :
  fits_float (Z.of_nat (List.length repository)) ->
  Forall (fun t => fle zero (Ticket.total_resolution_time_hours t) = true)
    (resolved_tickets repository) ->
  resolved_tickets repository <> [] ->
  nonneg (mean (values (staff_means repository))) = true.
Proof.
  intros Hlen Hh Hne.
  pose proof (List.filter_length_le Ticket.is_resolved repository) as Hle.
  fold (resolved_tickets repository) in Hle.
  assert (Hlen' : fits_float (Z.of_nat (List.length (resolved_tickets repository))))
    by (unfold fits_float in *; lia).
  apply mean_nonneg.
  - intros Hnil. apply map_eq_nil in Hnil.
    now apply (means_by_nonempty Ticket.assigned_staff
                 Ticket.total_resolution_time_hours _ Hne).
  - unfold values, staff_means, means_by. rewrite !length_map.
    pose proof (length_distinct_le
                  (map Ticket.assigned_staff (resolved_tickets repository))) as Hd.
    rewrite length_map in Hd. unfold fits_float in *. lia.
  - apply means_by_nonneg; [assumption|].
    apply Forall_forall. intros t Ht. rewrite nonneg_fle.
    rewrite Forall_forall in Hh. now apply Hh.
Qed.

(** On a non-negative team average the guard [team_avg > 0] of the code
    and the guard [team_avg == 0] of the specification agree. *)
Lemma gap_guards_agree (m team : float) :
  nonneg team = true ->
  (if fgt team zero
   then fmul (fdiv (fsub m team) team) (of_Z 100)
   else zero)
  = claimed_gap_percentage m team.
Proof.
  unfold claimed_gap_percentage.
  destruct team as [s|[|]| |[|] mt et]; try discriminate; intros _; reflexivity.
Qed.

(** C4 (as amended).  For every snapshot with at least one Resolved
    ticket, [get_staff_performance] reports the per-staff means of
    [total_resolution_time_hours] over the Resolved tickets, the team
    average as the unweighted mean of those per-staff means, and as
    slowest a staff member whose mean no other exceeds, with
    gap_hours = slowest_avg - team_avg and
    gap_percentage = gap_hours / team_avg * 100 when team_avg > 0 and 0
    otherwise.  When the hours of the Resolved tickets are numbers >= 0
    the team average is a number >= 0, and the percentage is the formula
    with 0 reported exactly when team_avg == 0.  For the three resolved
    tickets (A 10h, A 20h, B 5h) it reports the means A 15 and B 5, the
    team average 10, A as slowest, the gap 5h and 50%. *)
Theorem staff_performance_spec :
  (forall repository : ITTicketRepository.t,
     resolved_tickets repository <> [] ->
     exists s m,
       ITTicketService.get_staff_performance repository
       = Ok (ITTicketService.mkStaffReport
               (staff_means repository)
               (Some (ITTicketService.mkGap s m
                        (mean (values (staff_means repository)))
                        (fsub m (mean (values (staff_means repository))))
                        (if fgt (mean (values (staff_means repository))) zero
                         then fmul (fdiv (fsub m (mean (values (staff_means repository))))
                                         (mean (values (staff_means repository))))
                                   (of_Z 100)
                         else zero)))
               (Some (mean (values (staff_means repository))))) /\
       is_max_entry (staff_means repository) s m /\
       (fits_float (Z.of_nat (List.length repository)) ->
        Forall (fun t => fle zero (Ticket.total_resolution_time_hours t) = true)
          (resolved_tickets repository) ->
        fle zero (mean (values (staff_means repository))) = true /\
        (if fgt (mean (values (staff_means repository))) zero
         then fmul (fdiv (fsub m (mean (values (staff_means repository))))
                         (mean (values (staff_means repository))))
                   (of_Z 100)
         else zero)
        = claimed_gap_percentage m (mean (values (staff_means repository))))) /\
  ITTicketService.get_staff_performance three_tickets
  = Ok (ITTicketService.mkStaffReport
          [("A"%string, of_Z 15); ("B"%string, of_Z 5)]
          (Some (ITTicketService.mkGap "A" (of_Z 15) (of_Z 10) (of_Z 5) (of_Z 50)))
          (Some (of_Z 10))).
Proof.
  split; [|vm_compute; reflexivity].
  intros repository Hne.
  destruct (staff_performance_general repository Hne) as (s & m & H & Hmax).
  exists s, m. split; [assumption|]. split; [assumption|].
  intros Hlen Hh.
  pose proof (team_average_nonneg repository Hlen Hh Hne) as Hn.
  split; [now rewrite <- nonneg_fle|]. now apply gap_guards_agree.
Qed.

Lemma staff_performance_spec_witness :
  exists s m,
    is_max_entry (staff_means three_tickets) s m /\
    exists report,
      ITTicketService.get_staff_performance three_tickets = Ok report /\
      ITTicketService.staff_performance report = staff_means three_tickets.
Proof.
  destruct (proj1 staff_performance_spec three_tickets) as (s & m & H & Hmax & _).
  - intros E. vm_compute in E. discriminate.
  - exists s, m. split; [assumption|]. eexists. split; [exact H|reflexivity].
Defined.

(** C4, the claim as written fails when the team average is not a
    number: a Resolved ticket whose hours are NaN passes the validation
    ([nan < 0] is false), the team average is NaN, which is not equal to
    zero, and the reported gap percentage is 0 where the formula of the
    claim gives NaN. *)
Lemma gap_percentage_guard_is_positive_team_average :
  Ticket.post_init (resolved_ticket "A" S754_nan) = Ok tt /\
  ITTicketService.get_staff_performance [resolved_ticket "A" S754_nan]
  = Ok (ITTicketService.mkStaffReport
          [("A"%string, S754_nan)]
          (Some (ITTicketService.mkGap "A" S754_nan S754_nan S754_nan zero))
          (Some S754_nan)) /\
  feq S754_nan zero = false /\
  claimed_gap_percentage S754_nan S754_nan = S754_nan.
Proof. repeat split; vm_compute; reflexivity. Qed.

(** ** Process bottleneck *)

Lemma fold_left_flat_map {E X B : Type} (f : B -> X -> B) (g : E -> list X)
    (l : list E) (acc : B) :
  fold_left (fun a e => fold_left f (g e) a) l acc
  = fold_left f (flat_map g l) acc.
Proof.
  revert acc. induction l as [|e l IH]; intros acc; [reflexivity|].
  cbn [fold_left flat_map]. now rewrite fold_left_app, IH.
Qed.

Lemma count_fold {X : Type} (xs : list X) (a : Z) :
  fold_left (fun c _ => c + 1) xs a = a + Z.of_nat (List.length xs).
Proof.
  revert a. induction xs as [|x xs IH]; intros a; cbn [fold_left List.length].
  - lia.
  - rewrite IH. lia.
Qed.

(** The two dictionaries of the stage loop advance in step: they are the
    groupings of the items seen so far, by sum and by count. *)
Lemma stage_loop (kvs : list (string * float)) :
  fold_left ITTicketService.stage_step kvs ([], [])
  = (grouped zero fadd kvs, grouped 0 (fun c (_ : float) => c + 1) kvs).
Proof.
  induction kvs as [|[k x] kvs IH] using rev_ind; [reflexivity|].
  rewrite fold_left_app. cbn [fold_left]. rewrite IH.
  rewrite <- !dict_accum_grouped. unfold ITTicketService.stage_step, dict_accum.
  assert (Hmem : dict_mem k (grouped 0 (fun c (_ : float) => c + 1) kvs)
                 = dict_mem k (grouped zero fadd kvs)).
  { unfold grouped. now rewrite !dict_mem_tabulate. }
  rewrite Hmem. destruct (dict_mem k (grouped zero fadd kvs)); reflexivity.
Qed.

Lemma mapM_ok {A B : Type} (f : A -> result B) (g : A -> B) (l : list A) :
  (forall x, In x l -> f x = Ok (g x)) -> mapM f l = Ok (map g l).
Proof.
  induction l as [|x l IH]; intros H; [reflexivity|].
  cbn [mapM map]. rewrite (H x) by now left. cbn [bind].
  rewrite IH by (intros y Hy; apply H; now right). reflexivity.
Qed.

Lemma dict_item_tabulate {V : Type} (g : string -> V) (ks : list string)
    (k : string) :
  In k ks -> dict_item k (map (fun c => (c, g c)) ks) = Ok (g k).
Proof.
  intros H. unfold dict_item. rewrite dict_get_tabulate.
  now rewrite (proj2 (existsb_eqb_In k ks) H).
Qed.

Lemma stage_items_nil (tickets : list Ticket.ITTicket) :
  stage_items tickets = [] <-> Forall (fun t => Ticket.stage_times t = []) tickets.
Proof.
  unfold stage_items. induction tickets as [|t l IH]; cbn [flat_map].
  - split; [constructor|reflexivity].
  - split.
    + intros H. apply app_eq_nil in H as [H1 H2]. constructor; [assumption|].
      now apply IH.
    + intros H. apply Forall_cons_iff in H as [H1 H2]. rewrite H1.
      now apply IH.
Qed.

Lemma stage_means_entry (tickets : list Ticket.ITTicket) (s : string) (m : float) :
  In (s, m) (stage_means tickets) -> In s (stages tickets).
Proof.
  unfold stage_means. intros H. apply in_map_iff in H as (c & E & Hc).
  injection E as <- _. assumption.
Qed.

(** What the loops of [get_process_bottleneck] leave in the two
    dictionaries and in the dictionary of averages. *)
Lemma process_bottleneck_general (repository : ITTicketRepository.t) :
  stage_items repository <> [] ->
  exists s m,
    ITTicketService.get_process_bottleneck repository
    = Ok (Some (ITTicketService.mkProcessBottleneck s m
                  (stage_total repository s)
                  (if fgt (py_sum (map (stage_total repository) (stages repository)))
                          zero
                   then fmul (fdiv (stage_total repository s)
                                (py_sum (map (stage_total repository)
                                           (stages repository))))
                             (of_Z 100)
                   else zero)
                  (stage_means repository))) /\
    is_max_entry (stage_means repository) s m.
Proof.
  intros Hne. unfold ITTicketService.get_process_bottleneck.
  unfold ITTicketRepository.get_all.
  assert (Hrepo : repository <> []).
  { intros ->. now apply Hne. }
  rewrite (is_empty_false _ Hrepo).
  rewrite (fold_left_flat_map ITTicketService.stage_step Ticket.stage_times).
  fold (stage_items repository). rewrite stage_loop.
  set (totals := grouped zero fadd (stage_items repository)).
  set (counts := grouped 0 (fun c (_ : float) => c + 1) (stage_items repository)).
  assert (Ht : totals = map (fun s => (s, stage_total repository s))
                            (stages repository)) by reflexivity.
  assert (Hcn : counts = map (fun s => (s, stage_count repository s))
                             (stages repository)).
  { unfold counts, grouped, stages, stage_count. apply map_ext. intros s.
    now rewrite count_fold. }
  assert (Hst : stages repository <> []).
  { unfold stages. destruct (stage_items repository); [congruence|discriminate]. }
  assert (Hk : keys totals = stages repository).
  { rewrite Ht. unfold keys. rewrite map_map. cbn [fst]. apply map_id. }
  assert (Hte : is_empty totals = false).
  { apply is_empty_false. rewrite Ht.
    destruct (stages repository); [congruence|discriminate]. }
  rewrite Hte, Hk.
  rewrite (mapM_ok _ (fun s => (s, fdiv (stage_total repository s)
                                     (of_Z (stage_count repository s))))).
  2:{ intros s Hs. rewrite Ht, Hcn.
      rewrite (dict_item_tabulate _ _ _ Hs). cbn [bind].
      rewrite (dict_item_tabulate _ _ _ Hs). reflexivity. }
  cbn [bind]. fold (stage_means repository).
  assert (Hm : stage_means repository <> []).
  { unfold stage_means. destruct (stages repository); [congruence|discriminate]. }
  destruct (py_max_entry _ Hm) as (s & m & Hmax & Hentry).
  rewrite Hmax. cbn [bind fst snd].
  assert (Hs : In s (stages repository)).
  { destruct Hentry as [Hin _]. now apply (stage_means_entry _ _ m). }
  assert (Hv : values totals = map (stage_total repository) (stages repository)).
  { rewrite Ht. unfold values. now rewrite map_map. }
  assert (Hi : dict_item s totals = Ok (stage_total repository s)).
  { rewrite Ht. exact (dict_item_tabulate _ _ _ Hs). }
  rewrite Hv, Hi. cbn [bind]. exists s, m. split; [reflexivity|assumption].
Qed.

Lemma vals_of_app {X : Type} (s : string) (a b : list (string * X)) :
  vals_of s (a ++ b) = vals_of s a ++ vals_of s b.
Proof. unfold vals_of. now rewrite List.filter_app, map_app. Qed.

Lemma vals_of_wf_dict (d : dict float) (s : string) :
  dict_wf d ->
  vals_of s d = match dict_get s d with Some v => [v] | None => [] end.
Proof.
  unfold dict_wf, keys. induction d as [|[k v] d IH]; intros Hnd; [reflexivity|].
  cbn [map fst] in Hnd. apply NoDup_cons_iff in Hnd as [Hk Hnd].
  change (vals_of s ((k, v) :: d))
    with (vals_of s ([(k, v)] ++ d)). rewrite vals_of_app.
  unfold vals_of at 1. cbn [List.filter fst map snd dict_get].
  destruct (String.eqb_spec k s) as [->|Hne].
  - rewrite (vals_of_notin s d Hk). reflexivity.
  - cbn [map app]. now apply IH.
Qed.

Lemma stage_entries (tickets : list Ticket.ITTicket) (s : string) :
  Forall (fun t => dict_wf (Ticket.stage_times t)) tickets ->
  vals_of s (stage_items tickets) = entries_for s tickets /\
  List.length (entries_for s tickets) = List.length (tickets_with s tickets).
Proof.
  unfold stage_items, entries_for, tickets_with.
  induction 1 as [|t l Ht Hl [IH1 IH2]]; [split; reflexivity|].
  cbn [flat_map List.filter]. rewrite vals_of_app, IH1.
  rewrite (vals_of_wf_dict _ s Ht). split; [reflexivity|].
  rewrite length_app, IH2. unfold dict_mem.
  destruct (dict_get s (Ticket.stage_times t)); reflexivity.
Qed.

(** C3 (as amended).  When no ticket carries a stage-time entry,
    [get_process_bottleneck] returns [None].  Otherwise it returns, for
    every stage in order of first appearance, the stage's total hours
    divided by the number of its entries, together with a stage whose
    mean no other exceeds, that stage's total, and the percentage
    [total / sum of all stage totals * 100], which is 0 whenever the sum
    of all totals is not positive.  With well-formed [stage_times]
    dictionaries the entries of a stage are those of the tickets that
    have an entry for it, whatever its value, zero included, and their
    number is the number of those tickets. *)
Theorem process_bottleneck_spec (repository : ITTicketRepository.t) :
  (Forall (fun t => Ticket.stage_times t = []) repository ->
   ITTicketService.get_process_bottleneck repository = Ok None) /\
  (~ Forall (fun t => Ticket.stage_times t = []) repository ->
   exists s m,
     ITTicketService.get_process_bottleneck repository
     = Ok (Some (ITTicketService.mkProcessBottleneck s m
                   (stage_total repository s)
                   (if fgt (py_sum (map (stage_total repository)
                                      (stages repository))) zero
                    then fmul (fdiv (stage_total repository s)
                                 (py_sum (map (stage_total repository)
                                            (stages repository))))
                              (of_Z 100)
                    else zero)
                   (stage_means repository))) /\
     is_max_entry (stage_means repository) s m) /\
  (Forall (fun t => dict_wf (Ticket.stage_times t)) repository ->
   forall s,
     stage_total repository s = py_sum (entries_for s repository) /\
     stage_count repository s
       = Z.of_nat (List.length (tickets_with s repository)) /\
     List.length (entries_for s repository)
       = List.length (tickets_with s repository)).
Proof.
  split; [|split].
  - intros Hnil. apply stage_items_nil in Hnil.
    unfold ITTicketService.get_process_bottleneck, ITTicketRepository.get_all.
    destruct repository as [|t l]; [reflexivity|]. cbn [is_empty].
    rewrite (fold_left_flat_map ITTicketService.stage_step Ticket.stage_times).
    fold (stage_items (t :: l)). rewrite Hnil. reflexivity.
  - intros Hsome. apply process_bottleneck_general.
    intros Hnil. apply Hsome. now apply stage_items_nil.
  - intros Hwf s. destruct (stage_entries repository s Hwf) as [H1 H2].
    unfold stage_total, stage_count. rewrite H1, H2. repeat split.
Qed.

(** C3, the claim as written fails.  A zero-valued entry counts: with
    the entries 0 and 4 for one stage the reported mean is 2, while the
    mean over the tickets with a nonzero entry is 4.  And the percentage
    is guarded: when all stage totals sum to zero the reported
    percentage is 0, where [total / sum * 100] is not a number. *)
Lemma zero_entries_count_and_percentage_is_guarded :
  ITTicketService.get_process_bottleneck
    [staged_ticket [("New"%string, zero)];
     staged_ticket [("New"%string, of_Z 4)]]
  = Ok (Some (ITTicketService.mkProcessBottleneck "New" (of_Z 2) (of_Z 4)
                (of_Z 100) [("New"%string, of_Z 2)])) /\
  claimed_stage_mean
    [staged_ticket [("New"%string, zero)];
     staged_ticket [("New"%string, of_Z 4)]] "New"
  = of_Z 4 /\
  ITTicketService.get_process_bottleneck [staged_ticket [("New"%string, zero)]]
  = Ok (Some (ITTicketService.mkProcessBottleneck "New" zero zero zero
                [("New"%string, zero)])) /\
  claimed_percentage zero zero = S754_nan.
Proof. repeat split; vm_compute; reflexivity. Qed.

(** ** The first maximum *)

Lemma fle_flt_trans (x y z : float) :
  fle x y = true -> flt y z = true -> flt x z = true.
Proof.
  intros H1 H2. apply fle_true in H1 as [H1|H1]; [now apply (flt_trans x y z)|].
  apply feq_true in H1 as (Hx & _ & E). apply flt_true in H2 as (_ & Hz & H2).
  apply flt_true. repeat split; auto. now rewrite E.
Qed.

Section FirstMaximum.
Context {A : Type}.
Variable key : A -> float.

Lemma max_from_first (l : list A) :
  forall (before mid : list A) (best : A),
    (forall y, In y (before ++ best :: mid ++ l) -> is_nan (key y) = false) ->
    (forall y, In y before -> flt (key y) (key best) = true) ->
    (forall y, In y mid -> fle (key y) (key best) = true) ->
    first_maximum key (before ++ best :: mid ++ l) (max_from key best l).
Proof.
  induction l as [|x l IH]; intros before mid best Hnan Hb Hm.
  - cbn [max_from]. exists before, mid. rewrite app_nil_r. auto.
  - cbn [max_from]. unfold fgt.
    assert (Hx : is_nan (key x) = false).
    { apply Hnan. apply in_or_app. right. right. apply in_or_app. right. now left. }
    assert (Hbest : is_nan (key best) = false).
    { apply Hnan. apply in_or_app. right. now left. }
    destruct (SFltb (key best) (key x)) eqn:E; fold (flt (key best) (key x)) in E.
    + assert (Heq : before ++ best :: mid ++ x :: l
                    = (before ++ best :: mid) ++ x :: [] ++ l).
      { rewrite <- app_assoc. reflexivity. }
      rewrite Heq. apply IH.
      * rewrite <- Heq. exact Hnan.
      * intros y Hy. apply in_app_or in Hy as [Hy|[<-|Hy]].
        -- apply (flt_trans _ (key best)); auto.
        -- assumption.
        -- apply (fle_flt_trans _ (key best)); auto.
      * intros y [].
    + assert (Heq : before ++ best :: mid ++ x :: l
                    = before ++ best :: (mid ++ [x]) ++ l).
      { rewrite <- app_assoc. reflexivity. }
      rewrite Heq. apply IH.
      * rewrite <- Heq. exact Hnan.
      * assumption.
      * intros y Hy. apply in_app_or in Hy as [Hy|[<-|[]]]; [now apply Hm|].
        now apply flt_false_fle.
Qed.

(** On keys that are numbers [max] returns the first of the largest. *)
Lemma py_max_first (l : list A) :
  l <> [] -> Forall (fun y => is_nan (key y) = false) l ->
  exists r, py_max key l = Ok r /\ first_maximum key l r.
Proof.
  destruct l as [|x l]; [congruence|]. intros _ Hnan.
  exists (max_from key x l). split; [reflexivity|].
  apply (max_from_first l [] [] x).
  - rewrite Forall_forall in Hnan. exact Hnan.
  - intros y [].
  - intros y [].
Qed.

End FirstMaximum.

(** ** Reading a dictionary *)

Lemma dict_get_In_wf {V : Type} (d : dict V) (k : string) (v : V) :
  dict_wf d -> In (k, v) d -> dict_get k d = Some v.
Proof.
  unfold dict_wf, keys. induction d as [|[k' v'] d IH]; [contradiction|].
  cbn [map fst]. intros Hnd [E|Hin].
  - injection E as -> ->. cbn. now rewrite String.eqb_refl.
  - apply NoDup_cons_iff in Hnd as [Hk Hnd]. cbn.
    destruct (String.eqb_spec k' k) as [->|Hne]; [|now apply IH].
    exfalso. apply Hk. apply in_map_iff. exists (k, v). auto.
Qed.

(** ** Slices and scores *)

Lemma slice_to_split {A : Type} (l : list A) (n : Z) :
  (exists rest, slice_to l n ++ rest = l) /\
  List.length (slice_to l n) = slice_count n (List.length l).
Proof.
  rewrite slice_to_firstn. split.
  - exists (skipn (slice_count n (List.length l)) l). apply firstn_skipn.
  - rewrite length_firstn. pose proof (slice_count_le n (List.length l)). lia.
Qed.

Lemma int_true_div_raises (a b : Z) (e : exn) :
  b <> 0 -> int_true_div a b = Raise e -> e = OverflowError.
Proof.
  unfold int_true_div. intros Hb.
  destruct b; [congruence| |];
    match goal with
    | |- (if ?c then _ else _) = _ -> _ => destruct c
    end; congruence.
Qed.

(** The score expression can only fail with [OverflowError]. *)
Lemma archive_score_expr_raises (d : Dataset) (e : exn) :
  archive_score_expr d = Raise e -> e = OverflowError.
Proof.
  unfold archive_score_expr.
  destruct (int_true_div (days_since_access d) 180) eqn:E1; cbn [bind].
  2:{ intros H. injection H as H. subst.
      eapply (int_true_div_raises _ 180); [lia|eassumption]. }
  destruct (int_true_div (access_frequency_30d d) 50) eqn:E2; cbn [bind].
  2:{ intros H. injection H as H. subst.
      eapply (int_true_div_raises _ 50); [lia|eassumption]. }
  destruct (int_true_div (dependencies d) 5) eqn:E3; cbn [bind].
  2:{ intros H. injection H as H. subst.
      eapply (int_true_div_raises _ 5); [lia|eassumption]. }
  discriminate.
Qed.

(** What the scoring loop leaves behind, entity by entity. *)
Lemma score_missing_effect (ds : list Dataset) :
  Forall2 untouched_or_scored ds (snd (DatasetRepository.score_missing ds)) /\
  match fst (DatasetRepository.score_missing ds) with
  | Ok _ =>
      Forall (fun d' => archive_score d' <> None)
        (snd (DatasetRepository.score_missing ds))
  | Raise e =>
      e = OverflowError /\
      exists d, In d ds /\ In d (snd (DatasetRepository.score_missing ds)) /\
                archive_score d = None /\
                archive_score_expr d = Raise OverflowError
  end.
Proof.
  induction ds as [|d ds [IH1 IH2]].
  - split; constructor.
  - cbn [DatasetRepository.score_missing].
    destruct (archive_score d) as [v|] eqn:E.
    + destruct (DatasetRepository.score_missing ds) as [r rest].
      cbn [fst snd] in *. split.
      * constructor; [now left|assumption].
      * destruct r as [u|e].
        -- constructor; [congruence|assumption].
        -- destruct IH2 as (-> & d0 & H1 & H2 & H3 & H4). split; [reflexivity|].
           exists d0. repeat split; auto; now right.
    + unfold calculate_archive_score.
      destruct (archive_score_expr d) as [v|e] eqn:Ev.
      * destruct (DatasetRepository.score_missing ds) as [r rest].
        cbn [fst snd] in *. split.
        -- constructor; [|assumption]. right. split; [assumption|].
           exists v. split; [exact Ev|reflexivity].
        -- destruct r as [u|e].
           ++ constructor; [discriminate|assumption].
           ++ destruct IH2 as (-> & d0 & H1 & H2 & H3 & H4). split; [reflexivity|].
              exists d0. repeat split; auto; now right.
      * cbn [fst snd]. pose proof (archive_score_expr_raises d e Ev) as ->.
        split.
        -- constructor; [now left|].
           clear. induction ds; constructor; [now left|assumption].
        -- split; [reflexivity|]. exists d. repeat split; auto; now left.
Qed.

(** ** Sums over groups *)

Lemma sum_Z_app (a b : list Z) : sum_Z (a ++ b) = sum_Z a + sum_Z b.
Proof. unfold sum_Z. induction a as [|x a IH]; cbn; [reflexivity|]. rewrite IH. lia. Qed.

Lemma sum_Z_without (f : string -> Z) (k0 : string) (l : list string) :
  NoDup l ->
  sum_Z (map f l)
  = (if existsb (String.eqb k0) l then f k0 else 0)
    + sum_Z (map f (List.filter (fun y => negb (String.eqb k0 y)) l)).
Proof.
  induction 1 as [|x l Hx Hnd IH]; [reflexivity|].
  cbn [map List.filter existsb]. unfold sum_Z in *. cbn [fold_right].
  destruct (String.eqb_spec k0 x) as [<-|Hne]; cbn [negb orb].
  - rewrite IH.
    destruct (existsb (String.eqb k0) l) eqn:E; [|lia].
    apply existsb_eqb_In in E. contradiction.
  - cbn [map fold_right]. rewrite IH. lia.
Qed.

(** Counting by key and adding up the counts gives the number of items. *)
Lemma sum_of_counts {X : Type} (kvs : list (string * X)) :
  sum_Z (map (fun k => Z.of_nat (List.length (vals_of k kvs)))
           (distinct (map fst kvs)))
  = Z.of_nat (List.length kvs).
Proof.
  induction kvs as [|[k0 x] kvs IH]; [reflexivity|].
  cbn [map fst distinct List.length].
  change (sum_Z (?a :: ?l)) with (a + sum_Z l).
  assert (E0 : vals_of k0 ((k0, x) :: kvs) = x :: vals_of k0 kvs).
  { unfold vals_of. cbn. now rewrite String.eqb_refl. }
  rewrite E0. cbn [List.length].
  assert (E1 : map (fun k => Z.of_nat (List.length (vals_of k ((k0, x) :: kvs))))
                 (List.filter (fun y => negb (String.eqb k0 y))
                    (distinct (map fst kvs)))
             = map (fun k => Z.of_nat (List.length (vals_of k kvs)))
                 (List.filter (fun y => negb (String.eqb k0 y))
                    (distinct (map fst kvs)))).
  { apply map_ext_in. intros k Hk. apply List.filter_In in Hk as [_ Hk].
    unfold vals_of. cbn. destruct (String.eqb k0 k); [discriminate|reflexivity]. }
  rewrite E1.
  pose proof (sum_Z_without (fun k => Z.of_nat (List.length (vals_of k kvs))) k0
                (distinct (map fst kvs)) (NoDup_distinct _)) as Hs.
  rewrite IH in Hs.
  destruct (existsb (String.eqb k0) (distinct (map fst kvs))) eqn:E.
  - lia.
  - rewrite existsb_distinct in E.
    assert (Hn : vals_of k0 kvs = []).
    { apply vals_of_notin. intros Hin. apply existsb_eqb_In in Hin. congruence. }
    rewrite Hn. cbn [List.length]. lia.
Qed.

Lemma is_empty_filter_key {E : Type} (keyf : E -> string) (l : list E)
    (c : string) :
  is_empty (List.filter (fun e => String.eqb (keyf e) c) l)
  = negb (existsb (String.eqb c) (map keyf l)).
Proof.
  induction l as [|e l IH]; [reflexivity|]. cbn [List.filter map existsb].
  rewrite (String.eqb_sym c (keyf e)).
  destruct (String.eqb (keyf e) c); [reflexivity|exact IH].
Qed.

(** Reading an entry of a grouping. *)
Lemma dict_get_grouped {E V X : Type} (init : V) (step : V -> X -> V)
    (keyf : E -> string) (valf : E -> X) (l : list E) (c : string) :
  dict_get c (grouped init step (map (fun e => (keyf e, valf e)) l))
  = if is_empty (List.filter (fun e => String.eqb (keyf e) c) l) then None
    else Some (fold_left step
                 (map valf (List.filter (fun e => String.eqb (keyf e) c) l))
                 init).
Proof.
  unfold grouped. rewrite dict_get_tabulate, existsb_distinct, map_map.
  cbn [fst]. rewrite is_empty_filter_key, vals_of_map.
  now destruct (existsb (String.eqb c) (map keyf l)).
Qed.

Lemma keys_grouped {E V X : Type} (init : V) (step : V -> X -> V)
    (keyf : E -> string) (valf : E -> X) (l : list E) :
  keys (grouped init step (map (fun e => (keyf e, valf e)) l))
  = distinct (map keyf l).
Proof.
  unfold keys, grouped. rewrite !map_map. cbn [fst]. apply map_id.
Qed.

(** * Beyond the specification's claims

    ** Construction of incidents and tickets *)

(** X1.  Constructing a SecurityIncident raises [ValueError] exactly when
    the severity is not "High", "Medium" or "Low", or the status is not
    "Unresolved", "In Progress" or "Resolved", or the status is
    "Resolved" and no resolution time is given; otherwise it returns the
    entity with the fields as given.  The resolution time itself is not
    looked at: a resolved incident is accepted with any float, and an
    unresolved one may carry a time. *)
Theorem incident_validation (d : datetime) (cat sev st : string)
    (time : option float) :
  ((exists msg, Incident.new_SecurityIncident d cat sev st time
                = Raise (ValueError msg))
   <-> (~ In sev severities \/ ~ In st incident_statuses \/
        (st = "Resolved"%string /\ time = None))) /\
  (Incident.new_SecurityIncident d cat sev st time
   = Ok (Incident.mkIncident d cat sev st time)
   <-> (In sev severities /\ In st incident_statuses /\
        (st = "Resolved"%string -> time <> None))) /\
  (forall x,
     Incident.new_SecurityIncident d cat "Low" "Resolved" (Some x)
     = Ok (Incident.mkIncident d cat "Low" "Resolved" (Some x)) /\
     Incident.new_SecurityIncident d cat "Low" "Unresolved" (Some x)
     = Ok (Incident.mkIncident d cat "Low" "Unresolved" (Some x))).
Proof.
  unfold Incident.new_SecurityIncident, Incident.post_init.
  cbn [Incident.severity Incident.status Incident.resolution_time_hours].
  fold severities. fold incident_statuses.
  split; [|split; [|intros x; split; reflexivity]].
  - destruct (str_in sev severities) eqn:Hs; cbn [negb bind].
    2:{ split; [intros _; left|intros _; eexists; reflexivity].
        intros H. apply str_in_In in H. congruence. }
    apply str_in_In in Hs.
    destruct (str_in st incident_statuses) eqn:Ht; cbn [negb bind].
    2:{ split; [intros _; right; left|intros _; eexists; reflexivity].
        intros H. apply str_in_In in H. congruence. }
    apply str_in_In in Ht.
    destruct (String.eqb_spec st "Resolved") as [->|Hne]; cbn [andb].
    + destruct time as [x|]; cbn [bind].
      * split; [intros [msg H]; discriminate|].
        intros [H|[H|[_ H]]]; [tauto|tauto|discriminate].
      * split; [intros _; right; right; now split|intros _; eexists; reflexivity].
    + cbn [bind]. split; [intros [msg H]; discriminate|].
      intros [H|[H|[H _]]]; tauto.
  - destruct (str_in sev severities) eqn:Hs; cbn [negb bind].
    2:{ split; [discriminate|]. intros (H & _). apply str_in_In in H. congruence. }
    apply str_in_In in Hs.
    destruct (str_in st incident_statuses) eqn:Ht; cbn [negb bind].
    2:{ split; [discriminate|]. intros (_ & H & _). apply str_in_In in H. congruence. }
    apply str_in_In in Ht.
    destruct (String.eqb_spec st "Resolved") as [->|Hne]; cbn [andb].
    + destruct time as [x|]; cbn [bind].
      * split; [intros _; repeat split; auto; discriminate|reflexivity].
      * split; [discriminate|]. intros (_ & _ & H). now specialize (H eq_refl).
    + cbn [bind]. split; [|reflexivity]. intros _. repeat split; auto.
Qed.

(** X2.  Constructing an ITTicket raises [ValueError] exactly when the
    priority is not "Critical", "High", "Medium" or "Low" or the
    resolution time is below zero; otherwise it returns the entity with
    the fields as given.  The status is free text, and a resolution time
    that is NaN passes ([nan < 0] is false). *)
Theorem ticket_validation (tid staff prio : string) (created : pydate)
    (st : string) (hours : float) (resolved : option pydate)
    (stages : dict float) :
  ((exists msg, Ticket.new_ITTicket tid staff prio created st hours resolved stages
                = Raise (ValueError msg))
   <-> (~ In prio priorities \/ flt hours zero = true)) /\
  (Ticket.new_ITTicket tid staff prio created st hours resolved stages
   = Ok (Ticket.mkTicket tid staff prio created st hours resolved stages)
   <-> (In prio priorities /\ flt hours zero = false)) /\
  Ticket.new_ITTicket tid staff "Low" created st S754_nan resolved stages
  = Ok (Ticket.mkTicket tid staff "Low" created st S754_nan resolved stages).
Proof.
  unfold Ticket.new_ITTicket, Ticket.post_init.
  cbn [Ticket.priority Ticket.total_resolution_time_hours].
  fold priorities.
  split; [|split; [|reflexivity]].
  - destruct (str_in prio priorities) eqn:Hq; cbn [negb].
    + apply str_in_In in Hq. destruct (flt hours zero) eqn:Hs; cbn [bind].
      * split; [intros _; now right|intros _; eexists; reflexivity].
      * split; [intros [msg H]; discriminate|intros [H|H]; [tauto|discriminate]].
    + cbn [bind]. split; [intros _; left|intros _; eexists; reflexivity].
      intros H. apply str_in_In in H. congruence.
  - destruct (str_in prio priorities) eqn:Hq; cbn [negb].
    + apply str_in_In in Hq. destruct (flt hours zero) eqn:Hs; cbn [bind].
      * split; [discriminate|intros [_ H]; discriminate].
      * split; [intros _; now split|reflexivity].
    + cbn [bind]. split; [discriminate|].
      intros [H _]. apply str_in_In in H. congruence.
Qed.

(** ** The slowest stage of a ticket *)

(** X3.  [get_bottleneck_stage] returns [None] for a ticket without
    stage times and never raises; otherwise it returns a stage of the
    ticket whose time no other stage of the ticket exceeds, and
    [get_time_in_stage] of that stage is that time.  When the times are
    numbers it is the first such stage in the order of the dictionary.
    [get_time_in_stage] of a stage the ticket does not have is 0.0. *)
Theorem bottleneck_stage_spec (t : Ticket.ITTicket) :
  (Ticket.stage_times t = [] -> Ticket.get_bottleneck_stage t = Ok None) /\
  (Ticket.stage_times t <> [] ->
   exists s v,
     Ticket.get_bottleneck_stage t = Ok (Some s) /\
     In (s, v) (Ticket.stage_times t) /\
     (forall s' v', In (s', v') (Ticket.stage_times t) -> flt v v' = false) /\
     (dict_wf (Ticket.stage_times t) -> Ticket.get_time_in_stage t s = v) /\
     (Forall (fun e => is_nan (snd e) = false) (Ticket.stage_times t) ->
      first_maximum snd (Ticket.stage_times t) (s, v))) /\
  (forall s, dict_mem s (Ticket.stage_times t) = false ->
             Ticket.get_time_in_stage t s = zero).
Proof.
  unfold Ticket.get_bottleneck_stage, Ticket.get_time_in_stage.
  split; [|split].
  - intros ->. reflexivity.
  - intros Hne. rewrite (is_empty_false _ Hne).
    destruct (py_max_spec snd (Ticket.stage_times t) Hne)
      as ([s v] & Hr & Hin & Hmax).
    exists s, v. rewrite Hr. cbn [bind fst]. split; [reflexivity|].
    split; [assumption|]. split; [|split].
    + intros s' v' H. exact (Hmax (s', v') H).
    + intros Hwf. now rewrite (dict_get_In_wf _ _ _ Hwf Hin).
    + intros Hnan.
      destruct (py_max_first snd (Ticket.stage_times t) Hne Hnan)
        as (r & Hr' & Hfirst).
      rewrite Hr in Hr'. injection Hr' as <-. exact Hfirst.
  - intros s. unfold dict_mem.
    destruct (dict_get s (Ticket.stage_times t)); [discriminate|reflexivity].
Qed.

(** ** Incidents and dictionaries *)

(** X4.  [from_dict(to_dict(incident))] validates the incident once more
    and, when it is valid, gives back an incident with the same five
    field values; [to_dict] lists the five keys in a fixed order. *)
Theorem incident_dict_round_trip (inc : Incident.SecurityIncident) :
  Incident.from_dict (Incident.to_dict inc)
    = Some (try _u <- Incident.post_init inc then Ok inc) /\
  (Incident.post_init inc = Ok tt ->
   Incident.from_dict (Incident.to_dict inc) = Some (Ok inc)) /\
  keys (Incident.to_dict inc)
    = ["Date"; "Threat Category"; "Severity"; "Status";
       "Resolution Time (hours)"]%string.
Proof.
  assert (H : Incident.from_dict (Incident.to_dict inc)
              = Some (try _u <- Incident.post_init inc then Ok inc)).
  { destruct inc as [d c sev st [x|]]; reflexivity. }
  split; [exact H|]. split; [|reflexivity].
  intros Hv. rewrite H, Hv. reflexivity.
Qed.

(** X5.  [from_dict] raises [KeyError] for the first of "Date", "Threat
    Category", "Severity", "Status" that the dictionary lacks, whatever
    else it holds.  A dictionary without "Resolution Time (hours)" is
    read as having no resolution time: it gives a valid incident unless
    the status is "Resolved", and then the constructor raises
    [ValueError]. *)
Theorem incident_from_dict_missing_key (data : dict Incident.pyvalue) :
  (forall before k after,
     required_incident_keys = before ++ k :: after ->
     Forall (fun k' => dict_mem k' data = true) before ->
     dict_mem k data = false ->
     Incident.from_dict data = Some (Raise (KeyError k))) /\
  (forall d c sev st,
     dict_get "Date" data = Some (Incident.PyDatetime d) ->
     dict_get "Threat Category" data = Some (Incident.PyStr c) ->
     dict_get "Severity" data = Some (Incident.PyStr sev) ->
     dict_get "Status" data = Some (Incident.PyStr st) ->
     dict_get "Resolution Time (hours)" data = None ->
     Incident.from_dict data = Some (Incident.new_SecurityIncident d c sev st None) /\
     (st = "Resolved"%string ->
      exists msg, Incident.from_dict data = Some (Raise (ValueError msg)))).
Proof.
  split.
  - intros before k after Hk Hb Hm.
    assert (Hget : forall k', dict_mem k' data = true ->
                              exists v, dict_item k' data = Ok v).
    { intros k'. unfold dict_mem, dict_item.
      destruct (dict_get k' data) as [v|]; [eauto|discriminate]. }
    assert (Hmiss : dict_item k data = Raise (KeyError k)).
    { unfold dict_mem in Hm. unfold dict_item.
      destruct (dict_get k data); [discriminate|reflexivity]. }
    unfold Incident.from_dict, Incident.from_dict_arguments.
    unfold required_incident_keys in Hk.
    destruct before as [|k1 before].
    { injection Hk as <- _. now rewrite Hmiss. }
    injection Hk as <- Hk. apply Forall_cons_iff in Hb as [H1 Hb].
    destruct (Hget _ H1) as [v1 ->]. cbn [bind].
    destruct before as [|k2 before].
    { injection Hk as <- _. now rewrite Hmiss. }
    injection Hk as <- Hk. apply Forall_cons_iff in Hb as [H2 Hb].
    destruct (Hget _ H2) as [v2 ->]. cbn [bind].
    destruct before as [|k3 before].
    { injection Hk as <- _. now rewrite Hmiss. }
    injection Hk as <- Hk. apply Forall_cons_iff in Hb as [H3 Hb].
    destruct (Hget _ H3) as [v3 ->]. cbn [bind].
    destruct before as [|k4 before].
    { injection Hk as <- _. now rewrite Hmiss. }
    injection Hk as <- Hk. destruct before; discriminate.
  - intros d c sev st Hd Hc Hsev Hst Ht.
    assert (E : Incident.from_dict data
                = Some (Incident.new_SecurityIncident d c sev st None)).
    { unfold Incident.from_dict, Incident.from_dict_arguments, dict_item.
      rewrite Hd, Hc, Hsev, Hst, Ht. reflexivity. }
    split; [exact E|]. intros ->. rewrite E.
    unfold Incident.new_SecurityIncident, Incident.post_init.
    cbn [Incident.severity Incident.status Incident.resolution_time_hours].
    destruct (str_in sev _); cbn [negb bind]; eexists; reflexivity.
Qed.

(** ** Repositories as objects: the constructor, [add], [add_all] *)

Lemma list_append_some {E : Type} (xs x : Heap.loc) (h : Heap.heap E)
    (items : list Heap.loc) :
  Heap.lists h !! xs = Some items ->
  Heap.list_append xs x h
  = Some (Heap.mkHeap (<[xs := items ++ [x]]> (Heap.lists h)) (Heap.objects h)).
Proof. intros H. unfold Heap.list_append. now rewrite H. Qed.

Lemma add_each_some {E : Type} (self : Heap.repository) (more : list Heap.loc) :
  forall (h : Heap.heap E) (items : list Heap.loc),
    Heap.lists h !! Heap.snapshot self = Some items ->
    add_each self more h
    = Some (Heap.mkHeap (<[Heap.snapshot self := items ++ more]> (Heap.lists h))
              (Heap.objects h)).
Proof.
  induction more as [|x more IH]; intros h items H.
  - cbn [add_each]. rewrite app_nil_r, insert_id by assumption. now destruct h.
  - cbn [add_each]. unfold Heap.add. rewrite (list_append_some _ _ _ _ H).
    rewrite (IH _ (items ++ [x])) by (cbn; apply lookup_insert_eq).
    cbn [Heap.lists Heap.objects]. rewrite insert_insert_eq, <- app_assoc.
    reflexivity.
Qed.

(** X6.  A repository constructed from a list with [use_database=False]
    keeps that very list object, not a copy: [add] on the repository
    appends to the caller's list, and an item the caller appends to the
    list afterwards is counted by the repository and returned by its
    [get_all]. *)
Theorem init_keeps_the_given_list {E : Type} (h : Heap.heap E)
    (xs : Heap.loc) (items : list Heap.loc) (x : Heap.loc) :
  Heap.lists h !! xs = Some items ->
  exists self,
    Heap.init (Some xs) h = (self, h) /\
    Heap.snapshot self = xs /\
    (exists h1,
       Heap.add self x h = Some h1 /\
       Heap.lists h1 !! xs = Some (items ++ [x])) /\
    (exists h1 r h2,
       Heap.list_append xs x h = Some h1 /\
       Heap.count self h1 = Some (S (List.length items)) /\
       Heap.get_all self h1 = Some (r, h2) /\
       r <> xs /\
       Heap.lists h2 !! r = Some (items ++ [x])).
Proof.
  intros H. exists (Heap.mkRepository xs). split; [reflexivity|].
  split; [reflexivity|]. split.
  - eexists. unfold Heap.add. cbn [Heap.snapshot].
    rewrite (list_append_some _ _ _ _ H). split; [reflexivity|].
    cbn. apply lookup_insert_eq.
  - rewrite (list_append_some _ _ _ _ H).
    set (h1 := Heap.mkHeap (<[xs := items ++ [x]]> (Heap.lists h)) (Heap.objects h)).
    assert (H1 : Heap.lists h1 !! xs = Some (items ++ [x]))
      by (cbn; apply lookup_insert_eq).
    destruct (list_copy_fresh xs h1 _ H1) as (r & Hc & _ & Hne).
    exists h1, r. eexists. split; [reflexivity|]. split.
    + unfold Heap.count. cbn [Heap.snapshot]. rewrite H1.
      rewrite length_app. cbn. f_equal. lia.
    + split; [exact Hc|]. split; [assumption|]. cbn. apply lookup_insert_eq.
Qed.

Lemma init_keeps_the_given_list_witness :
  exists self,
    Heap.init (Some 1%positive) two_lists = (self, two_lists) /\
    exists h1,
      Heap.add self 7%positive two_lists = Some h1 /\
      Heap.lists h1 !! 1%positive = Some [5%positive; 6%positive; 7%positive].
Proof.
  destruct (init_keeps_the_given_list two_lists 1%positive
              [5%positive; 6%positive] 7%positive)
    as (self & Hi & _ & (h1 & Ha & Hl) & _).
  - apply lookup_insert_eq.
  - exists self. split; [exact Hi|]. exists h1. split; [exact Ha|exact Hl].
Defined.

(** X7.  A repository constructed without a list ([datasets=None],
    [use_database=False]) gets an empty list object of its own: no list
    that existed before is touched, two repositories made this way do
    not share their snapshot, and [add] on one leaves the other empty. *)
Theorem default_snapshots_are_separate {E : Type} (h : Heap.heap E)
    (x : Heap.loc) :
  exists r1 h1 r2 h2 h3,
    Heap.init None h = (r1, h1) /\
    Heap.init None h1 = (r2, h2) /\
    Heap.snapshot r1 <> Heap.snapshot r2 /\
    Heap.lists h !! Heap.snapshot r1 = None /\
    Heap.lists h !! Heap.snapshot r2 = None /\
    (forall ys l, Heap.lists h !! ys = Some l -> Heap.lists h2 !! ys = Some l) /\
    Heap.count r1 h2 = Some 0%nat /\
    Heap.count r2 h2 = Some 0%nat /\
    Heap.add r1 x h2 = Some h3 /\
    Heap.count r1 h3 = Some 1%nat /\
    Heap.count r2 h3 = Some 0%nat.
Proof.
  set (a := fresh (dom (Heap.lists h))).
  set (h1 := Heap.mkHeap (<[a := []]> (Heap.lists h)) (Heap.objects h)).
  set (b := fresh (dom (Heap.lists h1))).
  set (h2 := Heap.mkHeap (<[b := []]> (Heap.lists h1)) (Heap.objects h1)).
  assert (Ha : Heap.lists h !! a = None) by apply not_elem_of_dom, is_fresh.
  assert (Hb : Heap.lists h1 !! b = None) by apply not_elem_of_dom, is_fresh.
  assert (Hab : a <> b).
  { intros Heq. rewrite <- Heq in Hb. cbn in Hb.
    rewrite lookup_insert_eq in Hb. discriminate. }
  assert (Hb' : Heap.lists h !! b = None).
  { cbn in Hb. rewrite lookup_insert_ne in Hb by assumption. exact Hb. }
  assert (H2a : Heap.lists h2 !! a = Some []).
  { cbn. rewrite lookup_insert_ne by congruence. apply lookup_insert_eq. }
  assert (H2b : Heap.lists h2 !! b = Some []) by (cbn; apply lookup_insert_eq).
  exists (Heap.mkRepository a), h1, (Heap.mkRepository b), h2.
  eexists. split; [reflexivity|]. split; [reflexivity|].
  cbn [Heap.snapshot]. split; [assumption|]. split; [assumption|].
  split; [assumption|]. split.
  { intros ys l Hy. cbn.
    rewrite lookup_insert_ne by (intros <-; congruence).
    rewrite lookup_insert_ne by (intros <-; congruence). exact Hy. }
  unfold Heap.count, Heap.add. cbn [Heap.snapshot].
  rewrite H2a, H2b, (list_append_some _ _ _ _ H2a).
  repeat split; cbn [Heap.lists].
  - now rewrite lookup_insert_eq.
  - rewrite lookup_insert_ne by assumption. now rewrite H2b.
Qed.

(** X8.  [add] after [get_all]: the list a caller got from [get_all]
    before the call still has the old items, the snapshot has the new
    entity at its end, the count grows by one, and no entity and no
    other list is changed. *)
Theorem add_after_get_all {E : Type} (self : Heap.repository)
    (h : Heap.heap E) (items : list Heap.loc) (x : Heap.loc) :
  Heap.lists h !! Heap.snapshot self = Some items ->
  exists r h1 h2,
    Heap.get_all self h = Some (r, h1) /\
    Heap.add self x h1 = Some h2 /\
    Heap.lists h2 !! r = Some items /\
    Heap.lists h2 !! Heap.snapshot self = Some (items ++ [x]) /\
    Heap.count self h2 = Some (S (List.length items)) /\
    Heap.objects h2 = Heap.objects h /\
    (forall ys l, ys <> Heap.snapshot self ->
       Heap.lists h1 !! ys = Some l -> Heap.lists h2 !! ys = Some l).
Proof.
  intros H. destruct (list_copy_fresh _ _ _ H) as (r & Hc & Hf & Hne).
  set (h1 := Heap.mkHeap (<[r := items]> (Heap.lists h)) (Heap.objects h)) in *.
  assert (H1 : Heap.lists h1 !! Heap.snapshot self = Some items).
  { cbn. rewrite lookup_insert_ne by assumption. exact H. }
  exists r, h1. eexists. split; [exact Hc|].
  unfold Heap.add, Heap.count. rewrite (list_append_some _ _ _ _ H1).
  split; [reflexivity|]. cbn [Heap.lists Heap.objects].
  rewrite lookup_insert_eq. repeat split.
  - rewrite lookup_insert_ne by congruence. apply lookup_insert_eq.
  - rewrite length_app. cbn. f_equal. lia.
  - intros ys l Hy Hl. rewrite lookup_insert_ne by congruence. exact Hl.
Qed.

Lemma add_after_get_all_witness :
  exists r h1 h2,
    Heap.get_all (Heap.mkRepository 1%positive) two_lists = Some (r, h1) /\
    Heap.add (Heap.mkRepository 1%positive) 7%positive h1 = Some h2 /\
    Heap.lists h2 !! r = Some [5%positive; 6%positive] /\
    Heap.lists h2 !! 1%positive = Some [5%positive; 6%positive; 7%positive].
Proof.
  destruct (add_after_get_all (Heap.mkRepository 1%positive) two_lists
              [5%positive; 6%positive] 7%positive)
    as (r & h1 & h2 & Hg & Ha & Hr & Hs & _).
  - apply lookup_insert_eq.
  - exists r, h1, h2. auto.
Defined.

(** X9.  [add_all] appends the items of the given list to the snapshot
    in their order and leaves the entities alone; for a list other than
    the snapshot itself that list is unchanged and the result is the
    same as calling [add] for each of its items in turn.  (Given the
    snapshot's own list object, the snapshot is doubled.) *)
Theorem add_all_appends_in_order {E : Type} (self : Heap.repository)
    (h : Heap.heap E) (items : list Heap.loc) (ys : Heap.loc)
    (more : list Heap.loc) :
  Heap.lists h !! Heap.snapshot self = Some items ->
  Heap.lists h !! ys = Some more ->
  exists h',
    Heap.add_all self ys h = Some h' /\
    Heap.lists h' !! Heap.snapshot self = Some (items ++ more) /\
    Heap.count self h' = Some (List.length items + List.length more)%nat /\
    Heap.objects h' = Heap.objects h /\
    (ys <> Heap.snapshot self ->
     Heap.lists h' !! ys = Some more /\ add_each self more h = Some h').
Proof.
  intros H Hy. eexists. unfold Heap.add_all, Heap.list_extend, Heap.count.
  rewrite H, Hy. split; [reflexivity|]. cbn [Heap.lists Heap.objects].
  rewrite lookup_insert_eq. split; [reflexivity|].
  split; [now rewrite length_app|]. split; [reflexivity|].
  intros Hne. split.
  - rewrite lookup_insert_ne by congruence. exact Hy.
  - apply add_each_some. exact H.
Qed.

Lemma add_all_appends_in_order_witness :
  exists h',
    Heap.add_all (Heap.mkRepository 1%positive) 2%positive two_lists = Some h' /\
    Heap.lists h' !! 1%positive = Some [5%positive; 6%positive; 7%positive] /\
    add_each (Heap.mkRepository 1%positive) [7%positive] two_lists = Some h'.
Proof.
  destruct (add_all_appends_in_order (Heap.mkRepository 1%positive) two_lists
              [5%positive; 6%positive] 2%positive [7%positive])
    as (h' & Ha & Hs & _ & _ & Hn).
  - apply lookup_insert_eq.
  - reflexivity.
  - exists h'. split; [exact Ha|]. split; [exact Hs|].
    apply Hn. discriminate.
Defined.

(** ** Dataset repository and service *)

Lemma validated_size_nonneg (d : Dataset) :
  Dataset_post_init d = Ok tt -> is_nan (size_gb d) = false ->
  nonneg (size_gb d) = true.
Proof.
  unfold Dataset_post_init. intros H Hn.
  destruct (negb (str_in (quality_status d) quality_statuses)); [discriminate|].
  destruct (flt (size_gb d) zero) eqn:E; [discriminate|].
  rewrite nonneg_fle. now apply flt_false_fle.
Qed.

(** X10.  [get_metrics] of the dataset service, for every snapshot:
    [total_datasets] is the length of the snapshot and
    [pending_quality_checks] lies between 0 and [total_datasets].  When
    every dataset passed the constructor's validation with a size that
    is a number, [total_storage_gb] is a number that is not negative. *)
Theorem dataset_metrics_bounds (repository : DatasetRepository.t) :
  DatasetService.total_datasets (DatasetService.get_metrics repository)
    = Z.of_nat (List.length repository) /\
  0 <= DatasetService.pending_quality_checks (DatasetService.get_metrics repository)
    <= DatasetService.total_datasets (DatasetService.get_metrics repository) /\
  (Forall (fun d => Dataset_post_init d = Ok tt /\ is_nan (size_gb d) = false)
     repository ->
   fle zero (DatasetService.total_storage_gb (DatasetService.get_metrics repository))
     = true).
Proof.
  unfold DatasetService.get_metrics.
  cbn [DatasetService.total_datasets DatasetService.pending_quality_checks
       DatasetService.total_storage_gb].
  unfold DatasetRepository.get_all, DatasetRepository.get_by_quality_status,
    DatasetRepository.get_total_storage.
  split; [reflexivity|]. split.
  - pose proof (List.filter_length_le
                  (fun ds => String.eqb (quality_status ds) "Pending") repository).
    lia.
  - intros Hv. rewrite <- nonneg_fle. apply py_sum_nonneg. apply Forall_map.
    eapply Forall_impl; [|exact Hv]. intros d [H1 H2].
    now apply validated_size_nonneg.
Qed.

Lemma dataset_metrics_bounds_witness :
  DatasetService.total_datasets (DatasetService.get_metrics catalogue) = 3 /\
  fle zero (DatasetService.total_storage_gb (DatasetService.get_metrics catalogue))
    = true.
Proof.
  destruct (dataset_metrics_bounds catalogue) as (H1 & _ & H3).
  split; [exact H1|]. apply H3. repeat constructor.
Defined.

Lemma archive_candidates_drawn (self : DatasetRepository.t) (limit : Z)
    (cs : list Dataset) (self' : DatasetRepository.t) :
  DatasetRepository.get_archive_candidates self limit = (Ok cs, self') ->
  (exists rest, Permutation (cs ++ rest) self') /\
  List.length cs = slice_count limit (List.length self).
Proof.
  intros H. unfold DatasetRepository.get_archive_candidates in H.
  pose proof (score_missing_length self) as Hlen.
  destruct (DatasetRepository.score_missing self) as [[u|e] s']; [|discriminate].
  injection H as <- <-. cbn [snd] in Hlen.
  change (rev (stable_sort DatasetRepository.archive_key flt (rev s')))
    with (sorted DatasetRepository.archive_key flt true s').
  destruct (slice_to_split (sorted DatasetRepository.archive_key flt true s') limit)
    as [[rest' Hr'] Hl'].
  rewrite (Permutation_length
             (sorted_perm DatasetRepository.archive_key flt true s')) in Hl'.
  split.
  - exists rest'. rewrite Hr'. apply sorted_perm.
  - now rewrite Hl', Hlen.
Qed.

(** X11.  Whatever the sizes and scores are, numbers or not, the lists
    the two top-n queries return are drawn from the snapshot: every
    returned dataset is in it, none more often than the snapshot holds
    it, and the list has [min(n, len)] datasets for [n >= 0] and
    [max(len + n, 0)] for a negative [n].  So [get_top_consumers(0)] is
    empty and a limit of at least the length returns the whole snapshot
    reordered. *)
Theorem top_n_results_are_drawn_from_snapshot (self : DatasetRepository.t)
    (limit : Z) :
  (exists rest,
     Permutation (DatasetRepository.get_top_consumers self limit ++ rest) self) /\
  List.length (DatasetRepository.get_top_consumers self limit)
    = slice_count limit (List.length self) /\
  DatasetRepository.get_top_consumers self 0 = [] /\
  (Z.of_nat (List.length self) <= limit ->
   Permutation (DatasetRepository.get_top_consumers self limit) self) /\
  (forall cs self',
     DatasetRepository.get_archive_candidates self limit = (Ok cs, self') ->
     (exists rest, Permutation (cs ++ rest) self') /\
     List.length cs = slice_count limit (List.length self)).
Proof.
  unfold DatasetRepository.get_top_consumers.
  destruct (slice_to_split (sorted size_gb flt true self) limit) as [[rest Hr] Hl].
  rewrite (Permutation_length (sorted_perm size_gb flt true self)) in Hl.
  split; [|split; [exact Hl|split; [|split]]].
  - exists rest. rewrite Hr. apply sorted_perm.
  - reflexivity.
  - intros Hle. rewrite slice_to_firstn.
    rewrite (Permutation_length (sorted_perm size_gb flt true self)).
    assert (Hc : slice_count limit (List.length self) = List.length self).
    { unfold slice_count. rewrite (proj2 (Z.leb_le 0 limit)) by lia. lia. }
    rewrite Hc, <- (Permutation_length (sorted_perm size_gb flt true self)).
    rewrite firstn_all. apply sorted_perm.
  - intros cs self' H. now apply archive_candidates_drawn.
Qed.

(** X12.  The effect of [get_archive_candidates] on the snapshot: each
    entity is left as it was or, if it had no score, has its score
    assigned and nothing else changed; an entity that has a score keeps
    it, also a stale one.  When the call returns, every entity has a
    score.  The only exception is [OverflowError], raised for an entity
    without a score whose score cannot be computed; that entity stays
    unscored, and the ones scored before it keep their new score. *)
Theorem archive_candidates_effect (self : DatasetRepository.t) (limit : Z) :
  Forall2 untouched_or_scored self
    (snd (DatasetRepository.get_archive_candidates self limit)) /\
  (forall d d',
     untouched_or_scored d d' -> archive_score d <> None -> d' = d) /\
  match fst (DatasetRepository.get_archive_candidates self limit) with
  | Ok cs =>
      Forall (fun d' => archive_score d' <> None)
        (snd (DatasetRepository.get_archive_candidates self limit)) /\
      forall d', In d' cs ->
        In d' (snd (DatasetRepository.get_archive_candidates self limit))
  | Raise e =>
      e = OverflowError /\
      exists d,
        In d self /\
        In d (snd (DatasetRepository.get_archive_candidates self limit)) /\
        archive_score d = None /\
        archive_score_expr d = Raise OverflowError
  end.
Proof.
  destruct (score_missing_effect self) as [H1 H2].
  unfold DatasetRepository.get_archive_candidates.
  destruct (DatasetRepository.score_missing self) as [[u|e] s'];
    cbn [fst snd] in *.
  - split; [assumption|]. split.
    + intros d d' [H|[H _]] Hs; [assumption|contradiction].
    + split; [assumption|]. intros d' Hd.
      rewrite slice_to_firstn in Hd. apply in_firstn_in in Hd.
      revert Hd. apply Permutation_in. apply sorted_perm.
  - split; [assumption|]. split; [|assumption].
    intros d d' [H|[H _]] Hs; [assumption|contradiction].
Qed.

(** *** The datasets with the most dependencies *)

Lemma sorted_slice_top_n_int {A : Type} (key : A -> Z) (l : list A) (n : Z) :
  top_n_by_int key (slice_count n (List.length l)) l
    (slice_to (sorted key Z.ltb true l) n).
Proof.
  rewrite slice_to_firstn.
  set (s := sorted key Z.ltb true l).
  assert (Hperm : Permutation s l) by apply sorted_perm.
  rewrite (Permutation_length Hperm).
  set (m := slice_count n (List.length l)).
  assert (Hdesc : descending key Z.ltb s).
  { apply (sorted_descending key Z.ltb (fun _ => True)).
    - intros a b H. apply Z.ltb_lt in H. apply Z.ltb_ge. lia.
    - intros a b c _ _ _ H1 H2. apply Z.ltb_ge in H1, H2. apply Z.ltb_ge. lia.
    - apply Forall_forall. auto. }
  destruct (descending_firstn_skipn key Z.ltb m s Hdesc) as [Hd1 Hd2].
  exists (skipn m s). repeat split.
  - now rewrite firstn_skipn.
  - rewrite length_firstn, (Permutation_length Hperm).
    pose proof (slice_count_le n (List.length l)). fold m in H. lia.
  - apply (StronglySorted_weaken
             (fun x y => Z.ltb (key x) (key y) = false)); [|exact Hd1].
    intros x y _ _ H. apply Z.ltb_ge in H. exact H.
  - intros x y Hx Hy. apply Z.ltb_ge. now apply Hd2.
  - intros k. rewrite <- (with_key_firstn key Z.eqb k m s).
    symmetry. apply sorted_with_key.
    intros a b c H1 H2. apply Z.ltb_lt in H1. apply Z.eqb_eq in H2.
    apply Z.eqb_neq. lia.
Qed.

(** X13.  [get_dependency_analysis] lists as [high_dependency_datasets]
    the five datasets with the most dependencies (all of them when the
    snapshot has fewer), from the most down; no dataset left out has
    more dependencies than a listed one, and datasets with equally many
    dependencies appear in snapshot order. *)
Theorem high_dependency_top_five (repository : DatasetRepository.t) :
  top_n_by_int dependencies (Nat.min 5 (List.length repository)) repository
    (DatasetService.high_dependency_datasets
       (DatasetService.get_dependency_analysis repository)).
Proof.
  unfold DatasetService.get_dependency_analysis, DatasetRepository.get_all.
  cbn [DatasetService.high_dependency_datasets].
  exact (sorted_slice_top_n_int dependencies repository 5).
Qed.

(** *** Consumption by department *)

Lemma consumption_loop (l : list Dataset) :
  fold_left DatasetService.consumption_step l ([], [])
  = (grouped zero fadd (map (fun d => (department d, size_gb d)) l),
     grouped zero fadd (map (fun d => (department d, rows_millions d)) l)).
Proof.
  induction l as [|d l IH] using rev_ind; [reflexivity|].
  rewrite fold_left_app. cbn [fold_left]. rewrite IH, !map_app. cbn [map].
  rewrite <- !dict_accum_grouped.
  unfold DatasetService.consumption_step, dict_accum.
  assert (Hmem : dict_mem (department d)
                   (grouped zero fadd
                      (map (fun d0 => (department d0, rows_millions d0)) l))
                 = dict_mem (department d)
                     (grouped zero fadd
                        (map (fun d0 => (department d0, size_gb d0)) l))).
  { unfold grouped. rewrite !dict_mem_tabulate, !map_map. reflexivity. }
  rewrite Hmem.
  destruct (dict_mem (department d)
              (grouped zero fadd (map (fun d0 => (department d0, size_gb d0)) l)));
    reflexivity.
Qed.

(** X14.  [get_resource_consumption_by_department] returns two
    dictionaries with the same keys: the departments of the snapshot,
    each once, in the order of their first dataset.  The entry of a
    department is the running float sum, started at 0 and taken in
    snapshot order, of the sizes (of the row counts) of the datasets
    that [get_by_department] returns for it; a department without a
    dataset has no entry. *)
Theorem consumption_by_department_spec (repository : DatasetRepository.t) :
  keys (DatasetService.size_by_department
          (DatasetService.get_resource_consumption_by_department repository))
    = distinct (map department repository) /\
  keys (DatasetService.rows_by_department
          (DatasetService.get_resource_consumption_by_department repository))
    = distinct (map department repository) /\
  forall dept,
    dict_get dept
      (DatasetService.size_by_department
         (DatasetService.get_resource_consumption_by_department repository))
    = (if is_empty (DatasetRepository.get_by_department repository dept) then None
       else Some (fold_left fadd
                    (map size_gb
                       (DatasetRepository.get_by_department repository dept))
                    zero)) /\
    dict_get dept
      (DatasetService.rows_by_department
         (DatasetService.get_resource_consumption_by_department repository))
    = (if is_empty (DatasetRepository.get_by_department repository dept) then None
       else Some (fold_left fadd
                    (map rows_millions
                       (DatasetRepository.get_by_department repository dept))
                    zero)).
Proof.
  unfold DatasetService.get_resource_consumption_by_department,
    DatasetRepository.get_all, DatasetRepository.get_by_department.
  rewrite consumption_loop.
  cbn [DatasetService.size_by_department DatasetService.rows_by_department].
  rewrite !keys_grouped. split; [reflexivity|]. split; [reflexivity|].
  intros dept. split; apply dict_get_grouped.
Qed.

(** *** Archiving recommendations *)

(** X15.  [get_archiving_recommendations(limit)] fails exactly as
    [get_archive_candidates(limit)] does and otherwise reports its
    result as [candidates], with the float sums of their sizes and
    monthly costs.  The report carries
    [potential_cost_savings_annual], equal to twelve times the monthly
    sum, exactly when there is a candidate: for an empty snapshot or a
    limit that keeps nothing the key is absent. *)
Theorem archiving_recommendations_spec (repository : DatasetRepository.t)
    (limit : Z) :
  match DatasetRepository.get_archive_candidates repository limit with
  | (Raise e, repository') =>
      DatasetService.get_archiving_recommendations repository limit
      = (Raise e, repository')
  | (Ok cs, repository') =>
      exists rep,
        DatasetService.get_archiving_recommendations repository limit
        = (Ok rep, repository') /\
        DatasetService.candidates rep = cs /\
        DatasetService.potential_savings_gb rep = py_sum (map size_gb cs) /\
        DatasetService.potential_cost_savings_monthly rep
          = py_sum (map storage_cost_per_month cs) /\
        (DatasetService.potential_cost_savings_annual rep = None
         <-> slice_count limit (List.length repository) = 0%nat) /\
        (slice_count limit (List.length repository) <> 0%nat ->
         DatasetService.potential_cost_savings_annual rep
         = Some (fmul (DatasetService.potential_cost_savings_monthly rep)
                   (of_Z 12)))
  end.
Proof.
  unfold DatasetService.get_archiving_recommendations.
  pose proof (archive_candidates_drawn repository limit) as Hlen.
  destruct (DatasetRepository.get_archive_candidates repository limit)
    as [[cs|e] repository'] eqn:E; [|reflexivity].
  destruct (Hlen cs repository' eq_refl) as [_ Hl]. clear Hlen.
  destruct cs as [|c cs]; cbn [is_empty]; eexists; (split; [reflexivity|]);
    cbn [DatasetService.candidates DatasetService.potential_savings_gb
         DatasetService.potential_cost_savings_monthly
         DatasetService.potential_cost_savings_annual];
    repeat split; try reflexivity; cbn [List.length] in Hl;
    try congruence; try (intros; lia).
Qed.

(** ** Incident service *)

Lemma filter_two_length {A : Type} (p q r : A -> bool) (l : list A) :
  (forall x, p x = true -> r x = true) ->
  (forall x, q x = true -> r x = true) ->
  (forall x, p x && q x = false) ->
  (List.length (List.filter p l) + List.length (List.filter q l)
   <= List.length (List.filter r l))%nat.
Proof.
  intros Hp Hq Hpq. induction l as [|x l IH]; [reflexivity|].
  cbn [List.filter]. specialize (Hp x). specialize (Hq x). specialize (Hpq x).
  destruct (p x), (q x), (r x); cbn [List.length andb] in *;
    try discriminate; try lia;
    try (specialize (Hp eq_refl); discriminate);
    try (specialize (Hq eq_refl); discriminate).
Qed.

Lemma filter_filter {A : Type} (p q : A -> bool) (l : list A) :
  List.filter q (List.filter p l) = List.filter (fun x => p x && q x) l.
Proof.
  induction l as [|x l IH]; [reflexivity|]. cbn [List.filter].
  destruct (p x); cbn [List.filter andb]; [|exact IH].
  destruct (q x); now rewrite IH.
Qed.

(** X16.  [get_metrics] of the incident service: [total_incidents] is
    the repository's [count()]; [unresolved_high] counts the
    high-severity incidents among [get_by_status("Unresolved")] and
    [phishing_unresolved] the Phishing incidents among them; so
    [phishing_unresolved <= phishing_total <= total_incidents], and the
    two unresolved figures are at most the number of unresolved
    incidents. *)
Theorem incident_metrics_bounds (repository : SecurityIncidentRepository.t) :
  SecurityIncidentService.total_incidents
    (SecurityIncidentService.get_metrics repository)
    = SecurityIncidentRepository.count repository /\
  SecurityIncidentService.unresolved_high
    (SecurityIncidentService.get_metrics repository)
    = Z.of_nat (List.length
                  (List.filter Incident.is_high_severity
                     (SecurityIncidentRepository.get_by_status repository
                        "Unresolved"))) /\
  SecurityIncidentService.phishing_unresolved
    (SecurityIncidentService.get_metrics repository)
    = Z.of_nat (List.length
                  (List.filter
                     (fun inc => String.eqb (Incident.threat_category inc) "Phishing")
                     (SecurityIncidentRepository.get_by_status repository
                        "Unresolved"))) /\
  0 <= SecurityIncidentService.phishing_unresolved
         (SecurityIncidentService.get_metrics repository)
    <= SecurityIncidentService.phishing_total
         (SecurityIncidentService.get_metrics repository) /\
  SecurityIncidentService.phishing_total
    (SecurityIncidentService.get_metrics repository)
    <= SecurityIncidentService.total_incidents
         (SecurityIncidentService.get_metrics repository) /\
  0 <= SecurityIncidentService.unresolved_high
         (SecurityIncidentService.get_metrics repository)
    <= Z.of_nat (List.length
                   (SecurityIncidentRepository.get_by_status repository
                      "Unresolved")).
Proof.
  unfold SecurityIncidentService.get_metrics.
  cbn [SecurityIncidentService.total_incidents
       SecurityIncidentService.unresolved_high
       SecurityIncidentService.phishing_total
       SecurityIncidentService.phishing_unresolved].
  unfold SecurityIncidentRepository.get_all, SecurityIncidentRepository.count,
    SecurityIncidentRepository.get_unresolved_high_severity,
    SecurityIncidentRepository.get_by_category,
    SecurityIncidentRepository.get_by_status, Incident.is_unresolved.
  rewrite !filter_filter.
  assert (E : List.filter
                (fun x => String.eqb (Incident.threat_category x) "Phishing"
                          && String.eqb (Incident.status x) "Unresolved")
                repository
              = List.filter
                  (fun x => String.eqb (Incident.status x) "Unresolved"
                            && String.eqb (Incident.threat_category x) "Phishing")
                  repository).
  { apply List.filter_ext. intros x. apply andb_comm. }
  split; [reflexivity|]. split; [reflexivity|]. split; [now rewrite E|].
  rewrite <- !filter_filter.
  pose proof (List.filter_length_le
                (fun inc => String.eqb (Incident.status inc) "Unresolved")
                (List.filter
                   (fun inc => String.eqb (Incident.threat_category inc) "Phishing")
                   repository)).
  pose proof (List.filter_length_le
                (fun inc => String.eqb (Incident.threat_category inc) "Phishing")
                repository).
  pose proof (List.filter_length_le Incident.is_high_severity
                (List.filter
                   (fun inc => String.eqb (Incident.status inc) "Unresolved")
                   repository)).
  unfold Incident.is_unresolved. lia.
Qed.

(** X17.  [get_backlog_summary]: [by_category] has one entry for each
    threat category that has an unresolved incident, in the order of
    their first unresolved incident, holding the number of unresolved
    incidents of that category (never 0); a category without unresolved
    incidents has no entry; the entries add up to [total_unresolved],
    and [high_severity_unresolved] is at most [total_unresolved]. *)
Theorem backlog_summary_spec (repository : SecurityIncidentRepository.t) :
  keys (SecurityIncidentService.by_category
          (SecurityIncidentService.get_backlog_summary repository))
    = distinct (map Incident.threat_category
                  (SecurityIncidentRepository.get_by_status repository
                     "Unresolved")) /\
  (forall cat,
     dict_get cat (SecurityIncidentService.by_category
                     (SecurityIncidentService.get_backlog_summary repository))
     = let n := List.length
                  (List.filter
                     (fun inc => String.eqb (Incident.threat_category inc) cat)
                     (SecurityIncidentRepository.get_by_status repository
                        "Unresolved")) in
       if Nat.eqb n 0 then None else Some (Z.of_nat n)) /\
  sum_Z (values (SecurityIncidentService.by_category
                   (SecurityIncidentService.get_backlog_summary repository)))
    = SecurityIncidentService.total_unresolved
        (SecurityIncidentService.get_backlog_summary repository) /\
  0 <= SecurityIncidentService.high_severity_unresolved
         (SecurityIncidentService.get_backlog_summary repository)
    <= SecurityIncidentService.total_unresolved
         (SecurityIncidentService.get_backlog_summary repository).
Proof.
  unfold SecurityIncidentService.get_backlog_summary.
  cbn [SecurityIncidentService.by_category
       SecurityIncidentService.total_unresolved
       SecurityIncidentService.high_severity_unresolved].
  set (unresolved := SecurityIncidentRepository.get_by_status repository "Unresolved").
  rewrite <- (fold_left_map
                (fun d kv => dict_accum 0 (fun c (_ : unit) => c + 1) d
                               (fst kv) (snd kv))
                (fun inc => (Incident.threat_category inc, tt))).
  rewrite fold_dict_accum.
  split; [apply keys_grouped|]. split; [|split].
  - intros cat. rewrite dict_get_grouped. cbv zeta.
    rewrite count_fold, length_map.
    destruct (List.filter
                (fun e => String.eqb (Incident.threat_category e) cat) unresolved);
      reflexivity.
  - unfold grouped, values. rewrite map_map. cbn [snd].
    rewrite (map_ext _ (fun k => Z.of_nat
               (List.length
                  (vals_of k (map (fun inc => (Incident.threat_category inc, tt))
                                unresolved))))).
    + now rewrite sum_of_counts, length_map.
    + intros k. now rewrite count_fold.
  - unfold unresolved, SecurityIncidentRepository.get_by_status,
      SecurityIncidentRepository.get_unresolved_high_severity,
      Incident.is_unresolved.
    rewrite <- filter_filter.
    pose proof (List.filter_length_le Incident.is_high_severity
                  (List.filter
                     (fun inc => String.eqb (Incident.status inc) "Unresolved")
                     repository)).
    lia.
Qed.

(** X18.  The phishing surge analysis for any [days], also zero or
    negative: when it returns, no incident is counted in both windows,
    so [recent_count + previous_count] is at most the number of
    Phishing incidents, and for [days <= 0] the previous window is
    empty.  The only exception it raises is [OverflowError]; the
    division cannot fail on a zero divisor. *)
Theorem surge_counts_any_days (repository : SecurityIncidentRepository.t)
    (now : datetime) (days : Z) :
  match SecurityIncidentService.get_phishing_surge_analysis repository now days with
  | Ok s =>
      0 <= SecurityIncidentService.recent_count s /\
      0 <= SecurityIncidentService.previous_count s /\
      SecurityIncidentService.recent_count s
        + SecurityIncidentService.previous_count s
        <= Z.of_nat (List.length
                       (SecurityIncidentRepository.get_by_category repository
                          "Phishing")) /\
      (days <= 0 -> SecurityIncidentService.previous_count s = 0)
  | Raise e => e = OverflowError
  end.
Proof.
  unfold SecurityIncidentService.get_phishing_surge_analysis,
    SecurityIncidentRepository.get_all, timedelta_days, datetime_sub.
  cbv zeta.
  destruct (Z.abs days <=? 999999999); cbn [bind]; [|reflexivity].
  destruct ((0 <=? now - days * us_per_day)
            && (now - days * us_per_day <=? max_datetime)); cbn [bind];
    [|reflexivity].
  destruct (Z.abs (days * 2) <=? 999999999); cbn [bind]; [|reflexivity].
  destruct ((0 <=? now - days * 2 * us_per_day)
            && (now - days * 2 * us_per_day <=? max_datetime)); cbn [bind];
    [|reflexivity].
  set (recent := List.filter _ repository).
  set (previous := List.filter _ repository).
  destruct (int_true_div _ _) as [q|e] eqn:Eq; cbn [bind].
  2:{ eapply int_true_div_raises; [|exact Eq]. lia. }
  cbn [SecurityIncidentService.recent_count SecurityIncidentService.previous_count].
  split; [lia|]. split; [lia|]. split.
  - unfold SecurityIncidentRepository.get_by_category.
    pose proof (filter_two_length
                  (fun inc => String.eqb (Incident.threat_category inc) "Phishing"
                              && (now - days * us_per_day <=? Incident.date inc))
                  (fun inc => String.eqb (Incident.threat_category inc) "Phishing"
                              && ((now - days * 2 * us_per_day <=? Incident.date inc)
                                  && (Incident.date inc <? now - days * us_per_day)))
                  (fun inc => String.eqb (Incident.threat_category inc) "Phishing")
                  repository) as H.
    fold recent previous in H.
    assert (Hle : (List.length recent + List.length previous
                   <= List.length
                        (List.filter
                           (fun inc => String.eqb (Incident.threat_category inc)
                                         "Phishing") repository))%nat).
    { apply H.
      - intros x Hx. now apply andb_prop in Hx as [Hx _].
      - intros x Hx. now apply andb_prop in Hx as [Hx _].
      - intros x.
        destruct (String.eqb (Incident.threat_category x) "Phishing");
          [|reflexivity].
        cbn [andb].
        destruct (Z.leb_spec (now - days * us_per_day) (Incident.date x));
          [|reflexivity].
        destruct (Z.ltb_spec (Incident.date x) (now - days * us_per_day));
          [lia|]. now rewrite andb_false_r. }
    lia.
  - intros Hd.
    assert (Hnil : previous = []).
    { unfold previous. clear - Hd.
      induction repository as [|x l IH]; [reflexivity|]. cbn [List.filter].
      assert (E : (now - days * 2 * us_per_day <=? Incident.date x)
                  && (Incident.date x <? now - days * us_per_day) = false).
      { rewrite us_per_day_eq.
        destruct (Z.leb_spec (now - days * 2 * 86400000000) (Incident.date x));
          [|reflexivity].
        destruct (Z.ltb_spec (Incident.date x) (now - days * 86400000000));
          [lia|reflexivity]. }
      rewrite E, andb_false_r. exact IH. }
    rewrite Hnil. reflexivity.
Qed.

(** ** Which of several equal maxima is reported *)

Lemma resolution_bottleneck_unfold (repository : SecurityIncidentRepository.t) :
  SecurityIncidentService.get_resolution_bottleneck repository
  = if is_empty (considered repository) then Ok None
    else
      try longest <- py_max snd (means_by Incident.threat_category time_of
                                   (considered repository)) then
      Ok (Some (SecurityIncidentService.mkBottleneck (fst longest) (snd longest)
                  (means_by Incident.threat_category time_of
                     (considered repository)))).
Proof.
  unfold SecurityIncidentService.get_resolution_bottleneck.
  pose proof (considered_resolved repository) as Hc.
  pose proof (group_then_average Incident.threat_category time_of
                (considered repository)) as Hg.
  rewrite <- Hc in Hg at 1. rewrite <- category_loop in Hg.
  destruct (SecurityIncidentRepository.get_resolved repository) as [|i r] eqn:Er.
  { cbn in Hc. now rewrite <- Hc. }
  cbn [is_empty].
  destruct (considered repository) as [|c cs] eqn:Ec.
  - change (means_by Incident.threat_category time_of [])
      with (@nil (string * float)) in Hg.
    destruct (fold_left SecurityIncidentService.category_step (i :: r) []);
      [reflexivity|discriminate].
  - cbn [is_empty].
    destruct (fold_left SecurityIncidentService.category_step (i :: r) [])
      as [|e ct] eqn:Ef.
    { cbn [map] in Hg. discriminate. }
    cbn [is_empty]. now rewrite Hg.
Qed.

(** X19.  When several threat categories share the largest mean
    resolution time, [get_resolution_bottleneck] reports the one that
    comes first in [all_averages], and [all_averages] lists the
    categories in the order of their first incident that is resolved
    with a resolution time other than zero: every category listed
    before the reported one has a strictly smaller mean, every one
    after it a mean that is no larger.  (The means are assumed to be
    numbers.) *)
Theorem resolution_bottleneck_first_of_equals
    (repository : SecurityIncidentRepository.t)
    (b : SecurityIncidentService.bottleneck) :
  SecurityIncidentService.get_resolution_bottleneck repository = Ok (Some b) ->
  Forall (fun e => is_nan (snd e) = false)
    (SecurityIncidentService.all_averages b) ->
  first_maximum snd (SecurityIncidentService.all_averages b)
    (SecurityIncidentService.category b,
     SecurityIncidentService.avg_resolution_time b) /\
  keys (SecurityIncidentService.all_averages b)
    = distinct (map Incident.threat_category (considered repository)).
Proof.
  rewrite resolution_bottleneck_unfold.
  destruct (considered repository) as [|c cs] eqn:Ec; [discriminate|].
  cbn [is_empty]. rewrite <- Ec.
  set (M := means_by Incident.threat_category time_of (considered repository)).
  intros H Hnan.
  assert (HM : M <> []).
  { apply means_by_nonempty. rewrite Ec. discriminate. }
  destruct (py_max snd M) as [[s m]|e] eqn:Emax; [|discriminate].
  cbn [bind fst snd] in H. injection H as <-.
  cbn [SecurityIncidentService.all_averages SecurityIncidentService.category
       SecurityIncidentService.avg_resolution_time] in *.
  split.
  - destruct (py_max_first snd M HM Hnan) as (r & Hr & Hfirst).
    rewrite Emax in Hr. injection Hr as <-. exact Hfirst.
  - unfold M, means_by, keys. rewrite map_map. cbn [fst]. apply map_id.
Qed.

Lemma resolution_bottleneck_first_of_equals_witness :
  first_maximum snd [("Malware"%string, of_Z 10); ("Phishing"%string, of_Z 10)]
    ("Malware"%string, of_Z 10).
Proof.
  refine (proj1 (resolution_bottleneck_first_of_equals three_incidents
            (SecurityIncidentService.mkBottleneck "Malware" (of_Z 10)
               [("Malware"%string, of_Z 10); ("Phishing"%string, of_Z 10)])
            _ _)).
  - vm_compute. reflexivity.
  - repeat constructor.
Defined.

Lemma staff_performance_unfold (repository : ITTicketRepository.t) :
  resolved_tickets repository <> [] ->
  ITTicketService.get_staff_performance repository
  = try slowest <- py_max snd (staff_means repository) then
    Ok (ITTicketService.mkStaffReport
          (staff_means repository)
          (Some (ITTicketService.mkGap (fst slowest) (snd slowest)
                   (mean (values (staff_means repository)))
                   (fsub (snd slowest) (mean (values (staff_means repository))))
                   (if fgt (mean (values (staff_means repository))) zero
                    then fmul (fdiv (fsub (snd slowest)
                                       (mean (values (staff_means repository))))
                                 (mean (values (staff_means repository))))
                              (of_Z 100)
                    else zero)))
          (Some (mean (values (staff_means repository))))).
Proof.
  intros Hne. unfold ITTicketService.get_staff_performance.
  unfold ITTicketRepository.get_resolved. fold (resolved_tickets repository).
  rewrite (is_empty_false _ Hne).
  rewrite (group_then_average Ticket.assigned_staff
             Ticket.total_resolution_time_hours (resolved_tickets repository)).
  fold (staff_means repository).
  assert (Hm : staff_means repository <> []) by now apply means_by_nonempty.
  rewrite (is_empty_false _ Hm).
  destruct (py_max snd (staff_means repository)); reflexivity.
Qed.

(** X20.  [get_staff_performance] never raises.  Without a Resolved
    ticket it returns an empty [staff_performance], no [slowest_staff]
    and no ["team_average"] key at all; with one it returns all three,
    [staff_performance] listing the staff of the Resolved tickets, each
    once, in the order of their first Resolved ticket. *)
Theorem staff_performance_total (repository : ITTicketRepository.t) :
  exists rep,
    ITTicketService.get_staff_performance repository = Ok rep /\
    (ITTicketService.team_average rep = None
     <-> ITTicketRepository.get_resolved repository = []) /\
    (ITTicketService.slowest_staff rep = None
     <-> ITTicketRepository.get_resolved repository = []) /\
    keys (ITTicketService.staff_performance rep)
      = distinct (map Ticket.assigned_staff
                    (ITTicketRepository.get_resolved repository)).
Proof.
  destruct (ITTicketRepository.get_resolved repository) as [|t l] eqn:E.
  - exists (ITTicketService.mkStaffReport [] None None).
    unfold ITTicketService.get_staff_performance. rewrite E.
    repeat split; reflexivity.
  - assert (Hne : resolved_tickets repository <> []).
    { unfold resolved_tickets. unfold ITTicketRepository.get_resolved in E.
      rewrite E. discriminate. }
    destruct (staff_performance_general repository Hne) as (s & m & Hr & _).
    eexists. split; [exact Hr|].
    cbn [ITTicketService.team_average ITTicketService.slowest_staff
         ITTicketService.staff_performance].
    split; [split; discriminate|]. split; [split; discriminate|].
    unfold staff_means, means_by, keys, resolved_tickets.
    unfold ITTicketRepository.get_resolved in E. rewrite E.
    rewrite map_map. cbn [fst]. apply map_id.
Qed.

(** X21.  When several staff members share the largest mean resolution
    time, [get_staff_performance] reports as slowest the one listed
    first in [staff_performance], that is the one whose first Resolved
    ticket comes first in the snapshot: everyone listed before has a
    strictly smaller mean, everyone after a mean that is no larger.
    (The means are assumed to be numbers.) *)
Theorem slowest_staff_first_of_equals (repository : ITTicketRepository.t)
    (rep : ITTicketService.staff_report) (g : ITTicketService.performance_gap) :
  ITTicketService.get_staff_performance repository = Ok rep ->
  ITTicketService.slowest_staff rep = Some g ->
  Forall (fun e => is_nan (snd e) = false)
    (ITTicketService.staff_performance rep) ->
  first_maximum snd (ITTicketService.staff_performance rep)
    (ITTicketService.staff g, ITTicketService.avg_time g).
Proof.
  intros H Hg Hnan.
  destruct (resolved_tickets repository) as [|t l] eqn:E.
  { unfold ITTicketService.get_staff_performance in H.
    unfold ITTicketRepository.get_resolved in H.
    fold (resolved_tickets repository) in H. rewrite E in H.
    cbn [is_empty] in H. injection H as <-. discriminate. }
  assert (Hne : resolved_tickets repository <> []) by (rewrite E; discriminate).
  rewrite (staff_performance_unfold repository Hne) in H.
  assert (HM : staff_means repository <> []) by now apply means_by_nonempty.
  destruct (py_max snd (staff_means repository)) as [[s m]|e] eqn:Emax;
    [|discriminate].
  cbn [bind fst snd] in H. injection H as <-.
  cbn [ITTicketService.slowest_staff ITTicketService.staff_performance] in *.
  injection Hg as <-. cbn [ITTicketService.staff ITTicketService.avg_time].
  destruct (py_max_first snd (staff_means repository) HM Hnan) as (r & Hr & Hfirst).
  rewrite Emax in Hr. injection Hr as <-. exact Hfirst.
Qed.

Lemma slowest_staff_first_of_equals_witness :
  first_maximum snd [("Ann"%string, of_Z 8); ("Bob"%string, of_Z 8)]
    ("Ann"%string, of_Z 8).
Proof.
  refine (slowest_staff_first_of_equals helpdesk
            (ITTicketService.mkStaffReport
               [("Ann"%string, of_Z 8); ("Bob"%string, of_Z 8)]
               (Some (ITTicketService.mkGap "Ann" (of_Z 8) (of_Z 8) zero zero))
               (Some (of_Z 8)))
            (ITTicketService.mkGap "Ann" (of_Z 8) (of_Z 8) zero zero) _ _ _).
  - vm_compute. reflexivity.
  - reflexivity.
  - repeat constructor.
Defined.

(** ** Ticket repository and service *)

Lemma filter_partition {A : Type} (p : A -> bool) (l : list A) :
  Permutation (List.filter p l ++ List.filter (fun x => negb (p x)) l) l.
Proof.
  induction l as [|x l IH]; [constructor|]. cbn [List.filter].
  destruct (p x); cbn [negb app].
  - now constructor.
  - rewrite <- Permutation_middle. now constructor.
Qed.

(** X22.  Every ticket of the snapshot is returned by exactly one of
    [get_resolved] and [get_open], so [count()] is the sum of their
    lengths; [get_by_status("Resolved")] is [get_resolved()], and the
    tickets of [get_waiting_for_user] are the open tickets whose
    status is "Waiting for User", in snapshot order. *)
Theorem tickets_resolved_or_open (self : ITTicketRepository.t) :
  Permutation (ITTicketRepository.get_resolved self
               ++ ITTicketRepository.get_open self) self /\
  ITTicketRepository.count self
    = Z.of_nat (List.length (ITTicketRepository.get_resolved self))
      + Z.of_nat (List.length (ITTicketRepository.get_open self)) /\
  (forall t, In t (ITTicketRepository.get_resolved self) ->
             ~ In t (ITTicketRepository.get_open self)) /\
  ITTicketRepository.get_by_status self "Resolved"
    = ITTicketRepository.get_resolved self /\
  ITTicketRepository.get_waiting_for_user self
    = ITTicketRepository.get_by_status (ITTicketRepository.get_open self)
        "Waiting for User".
Proof.
  unfold ITTicketRepository.get_resolved, ITTicketRepository.get_open,
    ITTicketRepository.count, ITTicketRepository.get_by_status,
    ITTicketRepository.get_waiting_for_user.
  assert (Hp : Permutation (List.filter Ticket.is_resolved self
                            ++ List.filter Ticket.is_open self) self).
  { exact (filter_partition Ticket.is_resolved self). }
  split; [exact Hp|]. split; [|split; [|split]].
  - rewrite <- (Permutation_length Hp), length_app. lia.
  - intros t H1 H2. apply List.filter_In in H1 as [_ H1], H2 as [_ H2].
    unfold Ticket.is_open, Ticket.is_resolved in *. rewrite H1 in H2. discriminate.
  - reflexivity.
  - rewrite filter_filter. apply List.filter_ext. intros t.
    unfold Ticket.is_open.
    destruct (String.eqb_spec (Ticket.status t) "Waiting for User") as [->|Hne];
      [reflexivity|]. now rewrite andb_false_r.
Qed.

Lemma validated_hours_nonneg (t : Ticket.ITTicket) :
  Ticket.post_init t = Ok tt ->
  is_nan (Ticket.total_resolution_time_hours t) = false ->
  nonneg (Ticket.total_resolution_time_hours t) = true.
Proof.
  unfold Ticket.post_init. intros H Hn.
  destruct (negb (str_in (Ticket.priority t) _)); [discriminate|].
  destruct (flt (Ticket.total_resolution_time_hours t) zero) eqn:E; [discriminate|].
  rewrite nonneg_fle. now apply flt_false_fle.
Qed.

(** X23.  [get_metrics] of the ticket service, for a snapshot of tickets
    that passed the constructor's validation with resolution times that
    are numbers: [total_tickets] is [count()] and equals [open_tickets]
    plus the number of Resolved tickets, [tickets_waiting_user] is at
    most [open_tickets], and [avg_resolution_time] is 0 when no ticket
    is Resolved and otherwise the mean over the Resolved tickets, never
    negative. *)
Theorem ticket_metrics_bounds (repository : ITTicketRepository.t) :
  fits_float (Z.of_nat (List.length repository)) ->
  Forall (fun t => Ticket.post_init t = Ok tt /\
                   is_nan (Ticket.total_resolution_time_hours t) = false)
    repository ->
  ITTicketService.total_tickets (ITTicketService.get_metrics repository)
    = ITTicketRepository.count repository /\
  ITTicketService.total_tickets (ITTicketService.get_metrics repository)
    = ITTicketService.open_tickets (ITTicketService.get_metrics repository)
      + Z.of_nat (List.length (ITTicketRepository.get_resolved repository)) /\
  0 <= ITTicketService.tickets_waiting_user (ITTicketService.get_metrics repository)
    <= ITTicketService.open_tickets (ITTicketService.get_metrics repository) /\
  ITTicketService.avg_resolution_time (ITTicketService.get_metrics repository)
    = (if is_empty (ITTicketRepository.get_resolved repository) then zero
       else mean (map Ticket.total_resolution_time_hours
                    (ITTicketRepository.get_resolved repository))) /\
  fle zero (ITTicketService.avg_resolution_time
              (ITTicketService.get_metrics repository)) = true.
Proof.
  intros Hlen Hv. unfold ITTicketService.get_metrics.
  cbn [ITTicketService.total_tickets ITTicketService.open_tickets
       ITTicketService.avg_resolution_time ITTicketService.tickets_waiting_user].
  unfold ITTicketRepository.get_all, ITTicketRepository.count,
    ITTicketRepository.get_open, ITTicketRepository.get_waiting_for_user.
  pose proof (Permutation_length (filter_partition Ticket.is_resolved repository))
    as Hp.
  rewrite length_app in Hp. fold Ticket.is_open in Hp.
  split; [reflexivity|]. split; [|split; [|split; [reflexivity|]]].
  - unfold ITTicketRepository.get_resolved.
    change (fun x => negb (Ticket.is_resolved x)) with Ticket.is_open in Hp. lia.
  - assert (E : List.filter
                  (fun ticket => String.eqb (Ticket.status ticket) "Waiting for User")
                  repository
                = List.filter
                    (fun ticket => String.eqb (Ticket.status ticket)
                                     "Waiting for User")
                    (List.filter Ticket.is_open repository)).
    { rewrite filter_filter. apply List.filter_ext. intros t.
      unfold Ticket.is_open.
      destruct (String.eqb_spec (Ticket.status t) "Waiting for User") as [->|Hne];
        [reflexivity|]. now rewrite andb_false_r. }
    rewrite E.
    pose proof (List.filter_length_le
                  (fun ticket => String.eqb (Ticket.status ticket) "Waiting for User")
                  (List.filter Ticket.is_open repository)).
    lia.
  - rewrite <- nonneg_fle.
    destruct (ITTicketRepository.get_resolved repository) as [|t l] eqn:E;
      [reflexivity|]. cbn [is_empty]. rewrite <- E.
    pose proof (List.filter_length_le Ticket.is_resolved repository) as Hle.
    apply mean_nonneg.
    + rewrite E. discriminate.
    + rewrite length_map. unfold ITTicketRepository.get_resolved.
      unfold fits_float in *. lia.
    + apply Forall_map. unfold ITTicketRepository.get_resolved.
      apply Forall_forall. intros x Hx. apply List.filter_In in Hx as [Hx _].
      rewrite Forall_forall in Hv. destruct (Hv x Hx).
      now apply validated_hours_nonneg.
Qed.

Lemma ticket_metrics_bounds_witness :
  ITTicketService.total_tickets (ITTicketService.get_metrics helpdesk) = 4 /\
  fle zero (ITTicketService.avg_resolution_time
              (ITTicketService.get_metrics helpdesk)) = true.
Proof.
  destruct (ticket_metrics_bounds helpdesk) as (H1 & _ & _ & _ & H5).
  - unfold fits_float. cbn. lia.
  - repeat constructor.
  - split; [exact H1|exact H5].
Defined.

(** *** The reported stage *)

Lemma process_bottleneck_max (repository : ITTicketRepository.t)
    (b : ITTicketService.process_bottleneck) :
  ITTicketService.get_process_bottleneck repository = Ok (Some b) ->
  stage_items repository <> [] /\
  py_max snd (stage_means repository)
    = Ok (ITTicketService.stage b, ITTicketService.stage_avg_time b) /\
  ITTicketService.all_stages b = stage_means repository.
Proof.
  intros H.
  assert (Hne : stage_items repository <> []).
  { intros Hnil. unfold ITTicketService.get_process_bottleneck in H.
    unfold ITTicketRepository.get_all in H.
    destruct repository as [|t l]; [discriminate|]. cbn [is_empty] in H.
    rewrite (fold_left_flat_map ITTicketService.stage_step Ticket.stage_times) in H.
    fold (stage_items (t :: l)) in H. rewrite Hnil in H. discriminate. }
  split; [assumption|].
  unfold ITTicketService.get_process_bottleneck in H.
  unfold ITTicketRepository.get_all in H.
  assert (Hrepo : repository <> []).
  { intros ->. now apply Hne. }
  rewrite (is_empty_false _ Hrepo) in H.
  rewrite (fold_left_flat_map ITTicketService.stage_step Ticket.stage_times) in H.
  fold (stage_items repository) in H. rewrite stage_loop in H.
  set (totals := grouped zero fadd (stage_items repository)) in *.
  set (counts := grouped 0 (fun c (_ : float) => c + 1) (stage_items repository)) in *.
  assert (Ht : totals = map (fun s => (s, stage_total repository s))
                            (stages repository)) by reflexivity.
  assert (Hcn : counts = map (fun s => (s, stage_count repository s))
                             (stages repository)).
  { unfold counts, grouped, stages, stage_count. apply map_ext. intros s.
    now rewrite count_fold. }
  assert (Hk : keys totals = stages repository).
  { rewrite Ht. unfold keys. rewrite map_map. cbn [fst]. apply map_id. }
  assert (Hte : is_empty totals = false).
  { apply is_empty_false. rewrite Ht. unfold stages.
    destruct (stage_items repository); [congruence|discriminate]. }
  rewrite Hte, Hk in H.
  rewrite (mapM_ok _ (fun s => (s, fdiv (stage_total repository s)
                                     (of_Z (stage_count repository s))))) in H.
  2:{ intros s Hs. rewrite Ht, Hcn.
      rewrite (dict_item_tabulate _ _ _ Hs). cbn [bind].
      rewrite (dict_item_tabulate _ _ _ Hs). reflexivity. }
  cbn [bind] in H. fold (stage_means repository) in H.
  destruct (py_max snd (stage_means repository)) as [[s m]|e]; [|discriminate].
  cbn [bind fst snd] in H.
  destruct (dict_item s totals); [|discriminate]. cbn [bind] in H.
  injection H as <-. split; reflexivity.
Qed.

(** X24.  When several stages share the largest mean time,
    [get_process_bottleneck] reports the one listed first in
    [all_stages], and [all_stages] lists the stages in the order in
    which the loop over the tickets and their stage times first meets
    them: every stage listed before the reported one has a strictly
    smaller mean, every one after it a mean that is no larger.  (The
    means are assumed to be numbers.) *)
Theorem process_bottleneck_first_of_equals (repository : ITTicketRepository.t)
    (b : ITTicketService.process_bottleneck) :
  ITTicketService.get_process_bottleneck repository = Ok (Some b) ->
  Forall (fun e => is_nan (snd e) = false) (ITTicketService.all_stages b) ->
  first_maximum snd (ITTicketService.all_stages b)
    (ITTicketService.stage b, ITTicketService.stage_avg_time b) /\
  keys (ITTicketService.all_stages b) = stages repository.
Proof.
  intros H Hnan. destruct (process_bottleneck_max repository b H) as (Hne & Hmax & Ha).
  rewrite Ha in *. split.
  - assert (Hm : stage_means repository <> []).
    { unfold stage_means, stages.
      destruct (stage_items repository); [congruence|discriminate]. }
    destruct (py_max_first snd (stage_means repository) Hm Hnan)
      as (r & Hr & Hfirst).
    rewrite Hmax in Hr. injection Hr as <-. exact Hfirst.
  - unfold stage_means, keys. rewrite map_map. cbn [fst]. apply map_id.
Qed.

Lemma process_bottleneck_first_of_equals_witness :
  first_maximum snd [("New"%string, of_Z 4); ("In Progress"%string, of_Z 4)]
    ("New"%string, of_Z 4).
Proof.
  refine (proj1 (process_bottleneck_first_of_equals helpdesk
            (ITTicketService.mkProcessBottleneck "New" (of_Z 4) (of_Z 8) (of_Z 50)
               [("New"%string, of_Z 4); ("In Progress"%string, of_Z 4)])
            _ _)).
  - vm_compute. reflexivity.
  - repeat constructor.
Defined.

(** ** Thresholds and priorities *)

(** X25.  Staleness is strict and monotone in the threshold: a dataset
    last accessed exactly [days_threshold] days ago is not stale, and
    for [t1 <= t2] the datasets stale at [t2] are the datasets stale at
    [t1] that are also stale at [t2], in snapshot order.  Likewise a
    dataset accessed exactly [threshold] times is not rarely accessed,
    and the datasets rarely accessed at [t1] are among those rarely
    accessed at [t2]. *)
Theorem stale_thresholds (self : DatasetRepository.t) (t1 t2 : Z) :
  t1 <= t2 ->
  DatasetRepository.get_stale_datasets self t2
    = DatasetRepository.get_stale_datasets
        (DatasetRepository.get_stale_datasets self t1) t2 /\
  DatasetRepository.get_rarely_accessed self t1
    = DatasetRepository.get_rarely_accessed
        (DatasetRepository.get_rarely_accessed self t2) t1 /\
  (forall d, In d (DatasetRepository.get_stale_datasets self t1) ->
             t1 < days_since_access d) /\
  (forall d, In d (DatasetRepository.get_rarely_accessed self t1) ->
             access_frequency_30d d < t1) /\
  (forall d, In d self -> t2 < days_since_access d ->
             In d (DatasetRepository.get_stale_datasets self t1)).
Proof.
  intros Hle.
  unfold DatasetRepository.get_stale_datasets, DatasetRepository.get_rarely_accessed,
    is_stale, is_rarely_accessed.
  rewrite !filter_filter. repeat split.
  - apply List.filter_ext. intros d.
    destruct (Z.ltb_spec t2 (days_since_access d)); [|now rewrite andb_false_r].
    rewrite andb_true_r. symmetry. apply Z.ltb_lt. lia.
  - apply List.filter_ext. intros d.
    destruct (Z.ltb_spec (access_frequency_30d d) t1); [|now rewrite andb_false_r].
    rewrite andb_true_r. symmetry. apply Z.ltb_lt. lia.
  - intros d Hd. apply List.filter_In in Hd as [_ Hd]. now apply Z.ltb_lt.
  - intros d Hd. apply List.filter_In in Hd as [_ Hd]. now apply Z.ltb_lt.
  - intros d Hd Hs. apply List.filter_In. split; [assumption|]. apply Z.ltb_lt. lia.
Qed.

Lemma stale_thresholds_witness :
  map name (DatasetRepository.get_stale_datasets catalogue 300) = ["audit"%string] /\
  DatasetRepository.get_stale_datasets catalogue 300
    = DatasetRepository.get_stale_datasets
        (DatasetRepository.get_stale_datasets catalogue 90) 300.
Proof.
  split; [reflexivity|].
  refine (proj1 (stale_thresholds catalogue 90 300 _)). lia.
Defined.

(** X26.  Every ticket that passed the constructor's validation is
    returned by [get_by_priority] for exactly one of the four
    priorities, so the four result lists add up to [count()]. *)
Theorem tickets_by_priority_cover (self : ITTicketRepository.t) :
  Forall (fun t => Ticket.post_init t = Ok tt) self ->
  ITTicketRepository.count self
    = sum_Z (map (fun p => Z.of_nat
                             (List.length (ITTicketRepository.get_by_priority self p)))
               priorities) /\
  forall t, In t self ->
    In (Ticket.priority t) priorities /\
    forall p, In t (ITTicketRepository.get_by_priority self p)
              <-> p = Ticket.priority t.
Proof.
  intros Hv.
  assert (Hp : forall t, In t self -> In (Ticket.priority t) priorities).
  { intros t Ht. rewrite Forall_forall in Hv. specialize (Hv t Ht).
    unfold Ticket.post_init in Hv. fold priorities in Hv.
    destruct (str_in (Ticket.priority t) priorities) eqn:E; [|discriminate].
    now apply str_in_In. }
  split.
  - unfold ITTicketRepository.count, ITTicketRepository.get_by_priority.
    clear Hv. induction self as [|t l IH]; [reflexivity|].
    assert (Ht : In (Ticket.priority t) priorities) by (apply Hp; now left).
    specialize (IH (fun x Hx => Hp x (or_intror Hx))).
    unfold priorities, sum_Z in *. cbn [map fold_right List.filter] in *.
    cbn [List.length]. rewrite Nat2Z.inj_succ, IH.
    destruct Ht as [E|[E|[E|[E|[]]]]]; rewrite <- E; cbn [String.eqb Ascii.eqb Bool.eqb];
      cbn [List.length]; rewrite ?Nat2Z.inj_succ; lia.
  - intros t Ht. split; [now apply Hp|].
    intros p. unfold ITTicketRepository.get_by_priority.
    rewrite List.filter_In. split.
    + intros [_ E]. apply String.eqb_eq in E. now symmetry.
    + intros ->. split; [assumption|apply String.eqb_refl].
Qed.

Lemma tickets_by_priority_cover_witness :
  ITTicketRepository.count helpdesk
  = sum_Z (map (fun p => Z.of_nat
                           (List.length (ITTicketRepository.get_by_priority helpdesk p)))
             priorities).
Proof.
  refine (proj1 (tickets_by_priority_cover helpdesk _)).
  repeat constructor.
Defined.
